(** * Blob-tier remediation service: a shallow embedding and its properties

    The repository holds several generations of one program:

    - the processor with the column locator and the trailing status column
      (second program of [main.go]): module [Processor];
    - the processor that looks for a [url] header only and writes the status
      next to it (third program of [main.go]): module [UrlHeaderProcessor];
    - the processor that scans every cell and keeps counters only (first
      program of [unnamed/part_000]): module [ScanProcessor];
    - the command-line tool (first program of [main.go]): module [Cli];
    - the upload front ends ([upload/main.go] and the second program of
      [unnamed/part_000]): module [Uploader].

    Go strings are byte strings and are modelled by [string]; the functions
    of package [strings] that read runes ([TrimSpace], [ToLower],
    [EqualFold]) are modelled on the UTF-8 bytes of the runes they treat.  Go
    [int]s are modelled by [Z] (no counter or length of this program comes
    near the 64-bit bound).  Calls that leave the process (blob store, credential
    service, spreadsheet library, JSON and URL parsing) answer through a
    [World] of oracles; requests sent to the blob store are appended to a
    trace that is threaded through the code. *)

From Stdlib Require Import String Ascii List ZArith Lia Bool.
Import ListNotations.
Open Scope string_scope.
Open Scope Z_scope.

(** ** Results of fallible calls *)

(** A Go [error] is kept by its message. *)
Definition error := string.

Inductive Result (A : Type) : Type :=
| Ok (a : A)
| Err (e : error).
Arguments Ok {A} a.
Arguments Err {A} e.

(** [fmt.Errorf("<msg>: %w", err)] *)
Definition wrap (msg : string) (e : error) : error := msg ++ ": " ++ e.

(** ** The [strings] package on byte strings *)

Module Strings.

Definition code (c : ascii) : Z := Z.of_N (N_of_ascii c).

Definition byte (n : Z) : ascii := ascii_of_N (Z.to_N n).

(** [asciiSpace] of package [strings]: tab, newline, vertical tab, form feed,
    carriage return and space. *)
Definition isSpace (c : ascii) : bool :=
  let n := code c in
  ((9 <=? n) && (n <=? 13)) || (n =? 32).

Definition isUpper (c : ascii) : bool := (65 <=? code c) && (code c <=? 90).
Definition isLower (c : ascii) : bool := (97 <=? code c) && (code c <=? 122).
Definition isDigit (c : ascii) : bool := (48 <=? code c) && (code c <=? 57).
Definition isAlnum (c : ascii) : bool := isUpper c || isLower c || isDigit c.

Fixpoint map (f : ascii -> ascii) (s : string) : string :=
  match s with
  | EmptyString => EmptyString
  | String c r => String (f c) (map f r)
  end.

Fixpoint rev_onto (s acc : string) : string :=
  match s with
  | EmptyString => acc
  | String c r => rev_onto r (String c acc)
  end.

Definition rev (s : string) : string := rev_onto s EmptyString.

(** The lower-case form of one ASCII byte: [A-Z] go to [a-z], every other
    byte is kept. *)
Definition lowerByte (c : ascii) : ascii :=
  if isUpper c then byte (code c + 32) else c.

(** [strings.ToLower] on the UTF-8 bytes of a string.  The runes whose lower
    case is an ASCII letter are replaced by it: [A-Z], U+0130 (bytes C4 B0,
    lower case [i]) and U+212A (bytes E2 84 AA, lower case [k]).  Every other
    byte is kept.  (Go replaces the other cased letters beyond ASCII by their
    lower case, and a byte that is no UTF-8 by U+FFFD; both are byte sequences
    beyond ASCII again, as the bytes kept here are.  The program compares the
    result with ASCII strings only, and for every string the comparison comes
    out here as it does in Go.) *)
Fixpoint ToLower (s : string) : string :=
  match s with
  | EmptyString => EmptyString
  | String a r =>
      match r with
      | String b r' =>
          if (code a =? 196) && (code b =? 176) then String "i" (ToLower r')
          else
            match r' with
            | String c r'' =>
                if (code a =? 226) && (code b =? 132) && (code c =? 170)
                then String "k" (ToLower r'')
                else String (lowerByte a) (ToLower r)
            | EmptyString => String (lowerByte a) (ToLower r)
            end
      | EmptyString => String (lowerByte a) EmptyString
      end
  end.

(** [unicode.IsSpace] beyond ASCII, by the UTF-8 bytes of the rune: U+0085 and
    U+00A0 (C2 85, C2 A0); U+1680 (E1 9A 80); U+2000 to U+200A, U+2028,
    U+2029 and U+202F (E2 80 80 to E2 80 8A, E2 80 A8, E2 80 A9, E2 80 AF);
    U+205F (E2 81 9F); U+3000 (E3 80 80). *)
Definition isSpace2 (a b : ascii) : bool :=
  (code a =? 194) && ((code b =? 133) || (code b =? 160)).

Definition isSpace3 (a b c : ascii) : bool :=
  ((code a =? 225) && (code b =? 154) && (code c =? 128)) ||
  ((code a =? 226) && (code b =? 128) &&
   (((128 <=? code c) && (code c <=? 138)) ||
    (code c =? 168) || (code c =? 169) || (code c =? 175))) ||
  ((code a =? 226) && (code b =? 129) && (code c =? 159)) ||
  ((code a =? 227) && (code b =? 128) && (code c =? 128)).

(** [strings.TrimLeftFunc(s, unicode.IsSpace)]: the runes are read from the
    left; a rune is a space exactly when the string starts with the bytes of
    one of the spaces. *)
Fixpoint TrimLeftSpace (s : string) : string :=
  match s with
  | EmptyString => EmptyString
  | String a r =>
      if isSpace a then TrimLeftSpace r
      else
        match r with
        | String b r' =>
            if isSpace2 a b then TrimLeftSpace r'
            else
              match r' with
              | String c r'' => if isSpace3 a b c then TrimLeftSpace r'' else s
              | EmptyString => s
              end
        | EmptyString => s
        end
  end.

(** [strings.TrimRightFunc(s, unicode.IsSpace)] on the reversed string: the
    runes are read from the right ([utf8.DecodeLastRuneInString]); the last
    rune is a space exactly when the string ends with the bytes of one of the
    spaces, which stand here in reverse order. *)
Fixpoint TrimRightSpaceReversed (s : string) : string :=
  match s with
  | EmptyString => EmptyString
  | String a r =>
      if isSpace a then TrimRightSpaceReversed r
      else
        match r with
        | String b r' =>
            if isSpace2 b a then TrimRightSpaceReversed r'
            else
              match r' with
              | String c r'' =>
                  if isSpace3 c b a then TrimRightSpaceReversed r'' else s
              | EmptyString => s
              end
        | EmptyString => s
        end
  end.

(** [strings.TrimSpace]: the leading and the trailing white space removed,
    the spaces of Unicode included. *)
Definition TrimSpace (s : string) : string :=
  rev (TrimRightSpaceReversed (rev (TrimLeftSpace s))).

(** [strings.EqualFold(s, t)] for a [t] of ASCII letters other than [k] and
    [s] (the program folds against [url]): no rune beyond ASCII folds to such
    a letter, so the strings are equal under folding exactly when they are
    equal up to the case of the ASCII letters. *)
Definition EqualFold (s t : string) : bool :=
  String.eqb (map lowerByte s) (map lowerByte t).

Fixpoint stripPrefix (p s : string) : option string :=
  match p, s with
  | EmptyString, _ => Some s
  | String a p', String b s' => if Ascii.eqb a b then stripPrefix p' s' else None
  | String _ _, EmptyString => None
  end.

(** [strings.HasPrefix] *)
Fixpoint HasPrefix (s p : string) {struct p} : bool :=
  match p, s with
  | EmptyString, _ => true
  | String a p', String b s' => Ascii.eqb a b && HasPrefix s' p'
  | String _ _, EmptyString => false
  end.

(** [strings.HasSuffix] *)
Definition HasSuffix (s suffix : string) : bool :=
  HasPrefix (rev s) (rev suffix).

(** [strings.TrimSuffix]: [s] without the trailing [suffix], or [s] itself. *)
Definition TrimSuffix (s suffix : string) : string :=
  match stripPrefix (rev suffix) (rev s) with
  | Some r => rev r
  | None => s
  end.

(** [strings.Contains] *)
Fixpoint Contains (s substr : string) : bool :=
  if HasPrefix s substr then true
  else match s with
       | EmptyString => false
       | String _ r => Contains r substr
       end.

(** [strings.Split(s, sep)] for a separator of one byte (the program only
    splits on the slash). *)
Fixpoint Split (s : string) (sep : ascii) : list string :=
  match s with
  | EmptyString => [EmptyString]
  | String c r =>
      if Ascii.eqb c sep then EmptyString :: Split r sep
      else match Split r sep with
           | h :: t => String c h :: t
           | [] => [String c EmptyString]
           end
  end.

(** [strings.Join] *)
Definition Join (elems : list string) (sep : string) : string :=
  String.concat sep elems.

(** [strings.ReplaceAll(s, old, new)] for [old] of one byte. *)
Fixpoint ReplaceAll (s : string) (old : ascii) (new : string) : string :=
  match s with
  | EmptyString => EmptyString
  | String c r =>
      if Ascii.eqb c old then new ++ ReplaceAll r old new
      else String c (ReplaceAll r old new)
  end.

(** The last element of a slice that is never empty
    ([parts[len(parts)-1]]). *)
Definition last (parts : list string) : string := List.last parts EmptyString.

End Strings.

(** ** [net/url]: escaping of path segments *)

Module Url.
Import Strings.

(** [shouldEscape(c, encodePathSegment)] *)
Definition shouldEscape (c : ascii) : bool :=
  if isAlnum c then false
  else
    let n := code c in
    if (n =? 45) || (n =? 95) || (n =? 46) || (n =? 126) then false  (* - _ . ~ *)
    else if (n =? 47) || (n =? 59) || (n =? 44) || (n =? 63) then true (* / ; , ? *)
    else if (n =? 36) || (n =? 38) || (n =? 43) || (n =? 58) || (n =? 61) || (n =? 64)
         then false                                                   (* $ & + : = @ *)
    else true.

(** [upperhex[n]] *)
Definition upperhex (n : Z) : ascii :=
  if n <? 10 then byte (48 + n) else byte (55 + n).

Definition ishex (c : ascii) : bool :=
  let n := code c in
  isDigit c || ((97 <=? n) && (n <=? 102)) || ((65 <=? n) && (n <=? 70)).

Definition unhex (c : ascii) : Z :=
  let n := code c in
  if isDigit c then n - 48
  else if (97 <=? n) && (n <=? 102) then n - 97 + 10
  else if (65 <=? n) && (n <=? 70) then n - 65 + 10
  else 0.

(** [url.PathEscape] *)
Fixpoint PathEscape (s : string) : string :=
  match s with
  | EmptyString => EmptyString
  | String c r =>
      if shouldEscape c
      then String "%" (String (upperhex (Z.shiftr (code c) 4))
                         (String (upperhex (Z.land (code c) 15)) (PathEscape r)))
      else String c (PathEscape r)
  end.

(** [url.PathUnescape]: every percent sign must be followed by two hex
    digits; a plus sign stays a plus sign. *)
Fixpoint PathUnescape (s : string) : Result string :=
  match s with
  | EmptyString => Ok EmptyString
  | String c r =>
      if Ascii.eqb c "%" then
        match r with
        | String a (String b r') =>
            if ishex a && ishex b then
              match PathUnescape r' with
              | Ok t => Ok (String (byte (Z.lor (Z.shiftl (unhex a) 4) (unhex b))) t)
              | Err e => Err e
              end
            else Err "invalid URL escape"
        | _ => Err "invalid URL escape"
        end
      else
        match PathUnescape r with
        | Ok t => Ok (String c t)
        | Err e => Err e
        end
  end.

End Url.

(** ** [regexp]: the two blob-reference patterns

    Both patterns have the shape
    [https://(A+)\.blob\.core\.windows\.net/(C+)/(P+)] for three character
    classes.  No [A] contains the dot and no [C] contains the slash, so the
    first two groups end at a forced position and the leftmost match is found
    without backtracking; the last group is greedy. *)

Module Regexp.
Import Strings.

Record Regexp := mkRegexp {
  accountClass : ascii -> bool;
  containerClass : ascii -> bool;
  pathClass : ascii -> bool
}.

(** [\s] of RE2: tab, newline, form feed, carriage return, space. *)
Definition reSpace (c : ascii) : bool :=
  let n := code c in
  (n =? 9) || (n =? 10) || (n =? 12) || (n =? 13) || (n =? 32).

(** [https://([^.]+)\.blob\.core\.windows\.net/([^/]+)/(.+)] *)
Definition loosePattern : Regexp :=
  {| accountClass := fun c => negb (code c =? 46);
     containerClass := fun c => negb (code c =? 47);
     pathClass := fun c => negb (code c =? 10) |}.

(** [https://([a-zA-Z0-9-]+)\.blob\.core\.windows\.net/([^/\s]+)/(P+)] where
    [P] is every byte but white space and the double quote (byte 34). *)
Definition flexiblePattern : Regexp :=
  {| accountClass := fun c => isAlnum c || (code c =? 45);
     containerClass := fun c => negb (code c =? 47) && negb (reSpace c);
     pathClass := fun c => negb (reSpace c) && negb (code c =? 34) |}.

(** Longest prefix of [s] inside the class, and the rest. *)
Fixpoint span (p : ascii -> bool) (s : string) : string * string :=
  match s with
  | EmptyString => (EmptyString, EmptyString)
  | String c r =>
      if p c then let (a, b) := span p r in (String c a, b)
      else (EmptyString, s)
  end.

Definition isEmpty (s : string) : bool :=
  match s with EmptyString => true | _ => false end.

(** A match that starts at the first byte of [s]: the three groups. *)
Definition matchHere (re : Regexp) (s : string) : option (string * string * string) :=
  match stripPrefix "https://" s with
  | None => None
  | Some r0 =>
      let (account, r1) := span (accountClass re) r0 in
      if isEmpty account then None
      else match stripPrefix ".blob.core.windows.net/" r1 with
           | None => None
           | Some r2 =>
               let (container, r3) := span (containerClass re) r2 in
               if isEmpty container then None
               else match stripPrefix "/" r3 with
                    | None => None
                    | Some r4 =>
                        let (path, _) := span (pathClass re) r4 in
                        if isEmpty path then None
                        else Some (account, container, path)
                    end
           end
  end.

(** [re.FindStringSubmatch(s)]: groups 1, 2 and 3 of the leftmost match. *)
Fixpoint FindStringSubmatch (re : Regexp) (s : string)
  : option (string * string * string) :=
  match matchHere re s with
  | Some m => Some m
  | None => match s with
            | EmptyString => None
            | String _ r => FindStringSubmatch re r
            end
  end.

(** [re.MatchString(s)] *)
Definition MatchString (re : Regexp) (s : string) : bool :=
  match FindStringSubmatch re s with Some _ => true | None => false end.

End Regexp.

(** ** [excelize]: the workbook as rows of cells *)

Module Excelize.

(** What [GetRows] returns: rows of cell texts, of any lengths. *)
Definition Table := list (list string).

(** A workbook: its worksheets by name, in workbook order. *)
Definition File := list (string * Table).

Definition MaxColumns : Z := 16384.
Definition TotalRows : Z := 1048576.

(** A cell name is kept by its 1-based coordinates; [NoCell] is a name that
    denotes no cell (what comes back next to an error). *)
Inductive CellName :=
| Cell (col row : Z)
| NoCell.

(** [excelize.CoordinatesToCellName(col, row)] *)
Definition CoordinatesToCellName (col row : Z) : Result CellName :=
  if (col <? 1) || (row <? 1) then Err "invalid cell reference"
  else if TotalRows <? row then Err "row number exceeds maximum limit"
  else if MaxColumns <? col then Err "the column number must be greater than or equal to 1 and less than or equal to 16384"
  else Ok (Cell col row).

(** The name kept when the error is dropped ([name, _ := ...]). *)
Definition nameOrNoCell (r : Result CellName) : CellName :=
  match r with Ok c => c | Err _ => NoCell end.

Definition GetSheetList (f : File) : list string := List.map fst f.

Fixpoint lookupSheet (f : File) (sheet : string) : option Table :=
  match f with
  | [] => None
  | (name, t) :: rest => if String.eqb name sheet then Some t else lookupSheet rest sheet
  end.

Fixpoint replaceSheet (f : File) (sheet : string) (t : Table) : File :=
  match f with
  | [] => []
  | (name, t0) :: rest =>
      if String.eqb name sheet then (name, t) :: rest
      else (name, t0) :: replaceSheet rest sheet t
  end.

(** [f.GetRows(sheet)] *)
Definition GetRows (f : File) (sheet : string) : Result Table :=
  match lookupSheet f sheet with
  | Some t => Ok t
  | None => Err ("sheet " ++ sheet ++ " does not exist")
  end.

(** Writing at an index of a slice that grows as needed. *)
Fixpoint setAt {A : Type} (d : A) (l : list A) (i : nat) (v : A) : list A :=
  match i, l with
  | O, [] => [v]
  | O, _ :: t => v :: t
  | S i', [] => d :: setAt d [] i' v
  | S i', h :: t => h :: setAt d t i' v
  end.

(** The text of the cell at 1-based [col], [row]; empty where there is none. *)
Definition cell (t : Table) (col row : Z) : string :=
  nth (Z.to_nat (col - 1)) (nth (Z.to_nat (row - 1)) t []) EmptyString.

Definition setCell (t : Table) (col row : Z) (v : string) : Table :=
  let r := Z.to_nat (row - 1) in
  setAt [] t r (setAt EmptyString (nth r t []) (Z.to_nat (col - 1)) v).

End Excelize.

(** ** Event Grid envelopes *)

Record EventGridEvent := mkEvent {
  ID : string;
  EventType : string;
  DataURL : string
}.

Record EventGridSubscriptionValidation := mkValidation {
  vID : string;
  vEventType : string;
  ValidationCode : string
}.

Record EventGridValidationResponse := mkValidationResponse {
  ValidationResponse : string
}.

(** ** The blob store and the other collaborators *)

(** Requests that reach the blob store. *)
Inductive Call :=
| GetBlobProperties (account container blobName : string)
| SetTier (blobURL tier : string)
| DownloadStream (blobURL : string)
| GetContainerProperties (account container : string)
| CreateContainer (account container : string)
| Upload (account container blobName : string) (contentType : option string)
         (data : string).

(** What the collaborators answer.  [None] for an [option error] is the nil
    error.  The blob store sees the requests made so far (first argument), so
    that its answers may depend on them.  [downloadStream] answers the request
    and, inside, what [io.ReadAll] makes of the body; [getBlobProperties]
    answers the access tier of the properties, if they have one;
    [clientURL] is what the SDK gives as [URL()] of the blob client that the
    service client of an account makes for a container and a blob name (the
    SDK escapes the blob name there once more, so that a slash of the name
    reads [%2F] in the URL);
    [setCellValueError] is the error of a write to a cell of a sheet, if the
    library reports one; [urlParsePath] is the [Path] of [url.Parse]. *)
Record World := mkWorld {
  (* azidentity *)
  newManagedIdentityCredential : option error;
  newAzureCLICredential : option error;
  newDefaultAzureCredential : option error;
  (* client constructors, by URL *)
  newServiceClient : string -> option error;
  newBlockBlobClient : string -> option error;
  (* blobClient.URL(), by account, container and blob name *)
  clientURL : string -> string -> string -> string;
  (* blob store *)
  getBlobProperties : list Call -> string -> string -> string -> Result (option string);
  setTier : list Call -> string -> string -> option error;
  downloadStream : list Call -> string -> Result (Result string);
  getContainerProperties : list Call -> string -> string -> option error;
  createContainer : list Call -> string -> string -> option error;
  upload : list Call -> string -> string -> string -> option string -> string -> option error;
  (* excelize *)
  openFile : string -> Result Excelize.File;
  openReader : string -> Result Excelize.File;
  setCellValueError : string -> Z -> Z -> option error;
  writeBuffer : Excelize.File -> Result string;
  (* os, encoding/json, net/url, time *)
  getenv : string -> string;
  unmarshalValidation : string -> Result (list EventGridSubscriptionValidation);
  unmarshalEvents : string -> Result (list EventGridEvent);
  urlParsePath : string -> Result string;
  now : Z
}.

(** [f.SetCellValue(sheet, cell, value)]: the workbook after the write, or the
    error and the workbook as it was. *)
Definition SetCellValue (w : World) (f : Excelize.File) (sheet : string)
    (name : Excelize.CellName) (value : string) : Result Excelize.File :=
  match name with
  | Excelize.NoCell => Err "invalid cell name"
  | Excelize.Cell col row =>
      match Excelize.lookupSheet f sheet with
      | None => Err ("sheet " ++ sheet ++ " does not exist")
      | Some t =>
          match setCellValueError w sheet col row with
          | Some e => Err e
          | None => Ok (Excelize.replaceSheet f sheet (Excelize.setCell t col row value))
          end
      end
  end.

(** The tier tags of package [blob]. *)
Definition AccessTierArchive : string := "Archive".
Definition AccessTierCool : string := "Cool".

(** The plain address of a blob: the service URL of the account, the
    container, a slash and the blob name, nothing escaped.  It spells the URL
    of an event, and it names the target of a request that the code makes
    through a client built from an account, a container and a blob name. *)
Definition blobClientURL (account container blobName : string) : string :=
  "https://" ++ account ++ ".blob.core.windows.net/" ++ container ++ "/" ++ blobName.

Definition serviceURL (account : string) : string :=
  "https://" ++ account ++ ".blob.core.windows.net/".

(** The run-level counters. *)
Record Stats := mkStats {
  processed : Z;
  changed : Z;
  skipped : Z;
  errors : Z
}.

Definition noStats : Stats := mkStats 0 0 0 0.
Definition incProcessed (s : Stats) : Stats :=
  mkStats (processed s + 1) (changed s) (skipped s) (errors s).
Definition incChanged (s : Stats) : Stats :=
  mkStats (processed s) (changed s + 1) (skipped s) (errors s).
Definition incSkipped (s : Stats) : Stats :=
  mkStats (processed s) (changed s) (skipped s + 1) (errors s).
Definition incErrors (s : Stats) : Stats :=
  mkStats (processed s) (changed s) (skipped s) (errors s + 1).

(** By how much the three outcome counters exceed [processed]. *)
Definition surplus (s : Stats) : Z := changed s + skipped s + errors s - processed s.

(** The trace after one more request. *)
Definition sent (tr : list Call) (c : Call) : list Call := (tr ++ [c])%list.

(** [tr'] is [tr] followed by further requests: what was sent stays sent. *)
Definition extends (tr tr' : list Call) : Prop :=
  exists more, tr' = (tr ++ more)%list.


(** Number of upload requests in a trace. *)
Fixpoint uploadRequests (tr : list Call) : Z :=
  match tr with
  | [] => 0
  | Upload _ _ _ _ _ :: rest => 1 + uploadRequests rest
  | _ :: rest => uploadRequests rest
  end.

(** ** [net/http]: requests and responses *)

(** What a handler reads of a request: the method, the body as [io.ReadAll]
    returns it, the path, and for the upload form the result of
    [ParseMultipartForm] and of [FormFile("file")] (file name and content). *)
Record Request := mkRequest {
  method : string;
  readBody : Result string;
  urlPath : string;
  parseMultipartForm : option error;
  formFile : Result (string * string)
}.

(** A response body: text written as it is, or a value handed to the JSON
    encoder. *)
Inductive Body :=
| Text (s : string)
| JsonValidationResponse (r : EventGridValidationResponse)
| JsonObject (fields : list (string * string)).

Record Response := mkResponse {
  statusCode : Z;
  contentType : option string;
  body : Body
}.

Definition StatusOK : Z := 200.
Definition StatusBadRequest : Z := 400.
Definition StatusMethodNotAllowed : Z := 405.
Definition StatusInternalServerError : Z := 500.

(** The byte 10 that [fmt.Fprintln] adds. *)
Definition newline : string := String (ascii_of_nat 10) EmptyString.

(** [http.Error(w, msg, code)] *)
Definition httpError (msg : string) (code : Z) : Response :=
  mkResponse code (Some "text/plain; charset=utf-8") (Text (msg ++ newline)).

Definition SubscriptionValidationEvent : string :=
  "Microsoft.EventGrid.SubscriptionValidationEvent".
Definition BlobCreated : string := "Microsoft.Storage.BlobCreated".

(** The validation branch of both webhook handlers: the first envelope, when
    the body parses as a non-empty array of validation envelopes whose first
    event type is the validation sentinel. *)
Definition validationHandshake (w : World) (body : string)
  : option EventGridSubscriptionValidation :=
  match unmarshalValidation w body with
  | Ok (first :: _) =>
      if String.eqb (vEventType first) SubscriptionValidationEvent
      then Some first else None
  | _ => None
  end.

Definition validationResponse (v : EventGridSubscriptionValidation) : Response :=
  mkResponse StatusOK (Some "application/json")
    (JsonValidationResponse (mkValidationResponse (ValidationCode v))).

(** ** The processor with the column locator *)

Module Processor.
Import Strings Regexp Excelize.

(** The path sent to the store: split on the slash, escape every segment, join
    with the slash ([processBlobTier], "Properly URL encode the blob path"). *)
Definition encodeBlobPath (blobPath : string) : string :=
  Join (List.map Url.PathEscape (Split blobPath "/")) "/".

(** [processBlobTier(account, containerName, blobPath)]: the status text, the
    error, and the trace after the call. *)
Definition processBlobTier (w : World) (account containerName blobPath : string)
    (tr : list Call) : (string * option error) * list Call :=
  match newManagedIdentityCredential w with
  | Some e => (("Error: Failed to get credential", Some e), tr)
  | None =>
      let encodedBlobPath := encodeBlobPath blobPath in
      match newServiceClient w (serviceURL account) with
      | Some e => (("Error: Failed to create service client", Some e), tr)
      | None =>
          let tr1 := sent tr (GetBlobProperties account containerName encodedBlobPath) in
          match getBlobProperties w tr account containerName encodedBlobPath with
          | Err e => (("Error: Blob not accessible", Some e), tr1)
          | Ok None => (("Skipped: No access tier set", None), tr1)
          | Ok (Some currentTier) =>
              if String.eqb currentTier AccessTierArchive then
                let url := clientURL w account containerName encodedBlobPath in
                match newBlockBlobClient w url with
                | Some e => (("Error: Failed to create block client", Some e), tr1)
                | None =>
                    let tr2 := sent tr1 (SetTier url AccessTierCool) in
                    match setTier w tr1 url AccessTierCool with
                    | Some e => (("Error: Failed to set tier", Some e), tr2)
                    | None => (("Changed: Archive → Cool", None), tr2)
                    end
                end
              else (("Skipped: Already " ++ currentTier, None), tr1)
          end
      end
  end.

(** The accepted header names of [findURLColumn]. *)
Definition commonURLHeaders : list string :=
  [ "azure_blob_location"; "blob_location"; "azure_blob"; "blob_url";
    "url"; "blob"; "location"; "file_path"; "file_url"; "storage_url";
    "azure_storage_url"; "blob_path" ].

Definition isCommonHeader (header : string) : bool :=
  existsb (String.eqb (ToLower (TrimSpace header))) commonURLHeaders.

(** First loop of [findURLColumn]: the first header in the vocabulary. *)
Fixpoint findByHeader (headers : list string) (colIndex : Z) : option Z :=
  match headers with
  | [] => None
  | header :: rest =>
      if isCommonHeader header then Some colIndex
      else findByHeader rest (colIndex + 1)
  end.

(** [urlMatches[colIndex]++] *)
Fixpoint increment (urlMatches : list Z) (colIndex : nat) : list Z :=
  match urlMatches, colIndex with
  | [], _ => []
  | m :: ms, O => (m + 1) :: ms
  | m :: ms, S i => m :: increment ms i
  end.

(** The inner loop over the cells of one data row. *)
Fixpoint countRow (re : Regexp) (row : list string) (colIndex : Z)
    (urlMatches : list Z) : list Z :=
  match row with
  | [] => urlMatches
  | cellValue :: rest =>
      if Z.of_nat (List.length urlMatches) <=? colIndex
      then countRow re rest (colIndex + 1) urlMatches
      else if MatchString re (TrimSpace cellValue)
           then countRow re rest (colIndex + 1)
                  (increment urlMatches (Z.to_nat colIndex))
           else countRow re rest (colIndex + 1) urlMatches
  end.

(** The outer loop [for rowIndex := 1; rowIndex < len(rows) && rowIndex < 10];
    [dataRows] are the rows from [rowIndex] on. *)
Fixpoint countRows (re : Regexp) (dataRows : list (list string)) (rowIndex : Z)
    (urlMatches : list Z) : list Z :=
  match dataRows with
  | [] => urlMatches
  | row :: rest =>
      if rowIndex <? 10
      then countRows re rest (rowIndex + 1) (countRow re row 0 urlMatches)
      else urlMatches
  end.

(** The last loop: the first column with the strictly largest count. *)
Fixpoint bestOf (urlMatches : list Z) (colIndex maxMatches bestColumn : Z) : Z :=
  match urlMatches with
  | [] => bestColumn
  | matches :: rest =>
      if maxMatches <? matches
      then bestOf rest (colIndex + 1) matches colIndex
      else bestOf rest (colIndex + 1) maxMatches bestColumn
  end.

(** [findURLColumn(rows, regex)] *)
Definition findURLColumn (rows : Table) (re : Regexp) : Z :=
  match rows with
  | [] => -1
  | headers :: dataRows =>
      match findByHeader headers 0 with
      | Some colIndex => colIndex
      | None =>
          let urlMatches :=
            countRows re dataRows 1 (List.repeat 0 (List.length headers)) in
          bestOf urlMatches 0 0 (-1)
      end
  end.

(** One iteration of the row loop of [processExcelFile]. *)
Definition processRow (w : World) (re : Regexp) (sheetName : string)
    (urlColIndex statusColIndex rowIndex : Z) (row : list string)
    (stats : Stats) (f : File) (tr : list Call) : Stats * File * list Call :=
  if Z.of_nat (List.length row) =? 0 then (stats, f, tr)
  else if Z.of_nat (List.length row) <=? urlColIndex then (stats, f, tr)
  else
    let urlValue := TrimSpace (nth (Z.to_nat urlColIndex) row EmptyString) in
    if String.eqb urlValue EmptyString then (stats, f, tr)
    else
      match FindStringSubmatch re urlValue with
      | None => (stats, f, tr)
      | Some (account, containerName, blobPath) =>
          let stats1 := incProcessed stats in
          let '((status0, err), tr1) :=
            processBlobTier w account containerName blobPath tr in
          let '(stats2, status) :=
            match err with
            | Some e => (incErrors stats1, "Error: " ++ e)
            | None =>
                if Contains status0 "Changed: Archive → Cool"
                then (incChanged stats1, status0)
                else (incSkipped stats1, status0)
            end in
          match CoordinatesToCellName (statusColIndex + 1) (rowIndex + 1) with
          | Err _ => (incErrors stats2, f, tr1)
          | Ok statusCell =>
              match SetCellValue w f sheetName statusCell status with
              | Err _ => (incErrors stats2, f, tr1)
              | Ok f1 => (stats2, f1, tr1)
              end
          end
      end.

(** [for rowIndex := 1; rowIndex < len(rows); rowIndex++]; [dataRows] are the
    rows from [rowIndex] on. *)
Fixpoint processRows (w : World) (re : Regexp) (sheetName : string)
    (urlColIndex statusColIndex : Z) (dataRows : list (list string))
    (rowIndex : Z) (stats : Stats) (f : File) (tr : list Call)
  : Stats * File * list Call :=
  match dataRows with
  | [] => (stats, f, tr)
  | row :: rest =>
      let '(stats1, f1, tr1) :=
        processRow w re sheetName urlColIndex statusColIndex rowIndex row stats f tr in
      processRows w re sheetName urlColIndex statusColIndex rest (rowIndex + 1)
        stats1 f1 tr1
  end.

(** [processExcelFile(f)]: the counters, the error, the workbook as the call
    leaves it, and the trace. *)
Definition processExcelFile (w : World) (f : File) (tr : list Call)
  : (Stats * option error) * File * list Call :=
  let stats := noStats in
  match GetSheetList f with
  | [] => ((stats, Some "no sheets found in Excel file"), f, tr)
  | sheetName :: _ =>
      match GetRows f sheetName with
      | Err e =>
          ((stats, Some (wrap ("failed to get rows from sheet " ++ sheetName) e)), f, tr)
      | Ok [] => ((stats, None), f, tr)
      | Ok (headers :: dataRows) =>
          let urlColIndex := findURLColumn (headers :: dataRows) flexiblePattern in
          if urlColIndex =? -1 then ((stats, None), f, tr)
          else
            let statusColIndex := Z.of_nat (List.length headers) in
            match CoordinatesToCellName (statusColIndex + 1) 1 with
            | Err e =>
                ((stats, Some (wrap "failed to get status cell coordinates" e)), f, tr)
            | Ok statusCell =>
                match SetCellValue w f sheetName statusCell "Status" with
                | Err e => ((stats, Some (wrap "failed to set status header" e)), f, tr)
                | Ok f1 =>
                    let '(stats1, f2, tr1) :=
                      processRows w flexiblePattern sheetName urlColIndex
                        statusColIndex dataRows 1 stats f1 tr in
                    ((stats1, None), f2, tr1)
                end
            end
      end
  end.

(** [extractFilenameFromURL(blobURL)] *)
Definition extractFilenameFromURL (w : World) (blobURL : string) : Result string :=
  match urlParsePath w blobURL with
  | Err e => Err e
  | Ok path =>
      match Split path "/" with
      | [] => Err ("invalid URL path: " ++ path)
      | pathParts => Ok (last pathParts)
      end
  end.

Definition spreadsheetContentType : string :=
  "application/vnd.openxmlformats-officedocument.spreadsheetml.sheet".

(** The name under which the processed workbook is published. *)
Definition newFilename (originalFilename : string) : string :=
  TrimSuffix originalFilename ".xlsx" ++ "_processed.xlsx".

(** "Ensure output container exists": the error of the creation, if it was
    needed and failed, and the trace. *)
Definition ensureContainer (w : World) (storageAccount outputContainer : string)
    (tr : list Call) : option error * list Call :=
  let tr1 := sent tr (GetContainerProperties storageAccount outputContainer) in
  match getContainerProperties w tr storageAccount outputContainer with
  | None => (None, tr1)
  | Some _ =>
      (createContainer w tr1 storageAccount outputContainer,
       sent tr1 (CreateContainer storageAccount outputContainer))
  end.

(** [uploadToOutputContainer(ctx, cred, storageAccount, outputContainer,
    originalBlobURL, excelBuffer)] *)
Definition uploadToOutputContainer (w : World)
    (storageAccount outputContainer originalBlobURL excelBuffer : string)
    (tr : list Call) : option error * list Call :=
  match newServiceClient w (serviceURL storageAccount) with
  | Some e =>
      (Some (wrap "failed to create service client for output storage account" e), tr)
  | None =>
      match ensureContainer w storageAccount outputContainer tr with
      | (Some e, tr1) => (Some (wrap "failed to create output container" e), tr1)
      | (None, tr1) =>
          match extractFilenameFromURL w originalBlobURL with
          | Err e => (Some (wrap "failed to extract filename from URL" e), tr1)
          | Ok originalFilename =>
              let name := newFilename originalFilename in
              let tr2 :=
                sent tr1 (Upload storageAccount outputContainer name
                            (Some spreadsheetContentType) excelBuffer) in
              match upload w tr1 storageAccount outputContainer name
                      (Some spreadsheetContentType) excelBuffer with
              | Some e =>
                  (Some (wrap "failed to upload processed file to output storage account" e),
                   tr2)
              | None => (None, tr2)
              end
          end
      end
  end.

(** [processExcelBlob(blobURL)] *)
Definition processExcelBlob (w : World) (blobURL : string) (tr : list Call)
  : option error * list Call :=
  match newManagedIdentityCredential w with
  | Some e => (Some (wrap "failed to get MI credential" e), tr)
  | None =>
  match newBlockBlobClient w blobURL with
  | Some e => (Some (wrap "failed to create block blob client" e), tr)
  | None =>
  let tr1 := sent tr (DownloadStream blobURL) in
  match downloadStream w tr blobURL with
  | Err e => (Some (wrap "failed to download blob" e), tr1)
  | Ok (Err e) => (Some (wrap "failed to read blob" e), tr1)
  | Ok (Ok data) =>
  match openReader w data with
  | Err e => (Some (wrap "failed to open excel file" e), tr1)
  | Ok f =>
  let outputStorageAccount := getenv w "OUTPUT_STORAGE_ACCOUNT" in
  if String.eqb outputStorageAccount EmptyString
  then (Some "OUTPUT_STORAGE_ACCOUNT environment variable not set", tr1)
  else
  let outputContainer := getenv w "OUTPUT_STORAGE_CONTAINER" in
  if String.eqb outputContainer EmptyString
  then (Some "OUTPUT_STORAGE_CONTAINER environment variable not set", tr1)
  else
  match processExcelFile w f tr1 with
  | ((_, Some e), _, tr2) => (Some (wrap "failed to process excel file" e), tr2)
  | ((_, None), f1, tr2) =>
  match writeBuffer w f1 with
  | Err e => (Some (wrap "failed to write excel to buffer" e), tr2)
  | Ok excelBuffer =>
  match uploadToOutputContainer w outputStorageAccount outputContainer blobURL
          excelBuffer tr2 with
  | (Some e, tr3) => (Some (wrap "failed to upload to output container" e), tr3)
  | (None, tr3) => (None, tr3)
  end end end end end end end.

(** The fixed acknowledgement of [handleProcess]. *)
Definition acknowledgement : Response := mkResponse StatusOK None (Text "✅ Event processed").

(** The event loop of [handleProcess]. *)
Fixpoint handleEvents (w : World) (events : list EventGridEvent) (tr : list Call)
  : Response * list Call :=
  match events with
  | [] => (acknowledgement, tr)
  | event :: rest =>
      if String.eqb (EventType event) SubscriptionValidationEvent
      then handleEvents w rest tr
      else if negb (String.eqb (EventType event) BlobCreated)
      then handleEvents w rest tr
      else
        match processExcelBlob w (DataURL event) tr with
        | (Some e, tr1) =>
            (httpError ("failed to process blob: " ++ e) StatusInternalServerError, tr1)
        | (None, tr1) => handleEvents w rest tr1
        end
  end.

(** [handleProcess(w, r)] *)
Definition handleProcess (w : World) (r : Request) (tr : list Call)
  : Response * list Call :=
  if negb (String.eqb (method r) "POST")
  then (httpError "Method not allowed" StatusMethodNotAllowed, tr)
  else
    match readBody r with
    | Err _ => (httpError "bad request" StatusBadRequest, tr)
    | Ok body =>
        match validationHandshake w body with
        | Some first => (validationResponse first, tr)
        | None =>
            match unmarshalEvents w body with
            | Err _ => (httpError "bad request" StatusBadRequest, tr)
            | Ok events => handleEvents w events tr
            end
        end
    end.

End Processor.

(** ** The processor that looks for the [url] header only

    [processBlobTier], [uploadToOutputContainer], [processExcelBlob] and
    [handleProcess] of this program have the text of module [Processor]; its
    [processExcelFile] differs. *)

Module UrlHeaderProcessor.
Import Strings Regexp Excelize.

(** The header loop: the first header equal to [url] under case folding. *)
Fixpoint findUrlHeader (headers : list string) (i : Z) : Z :=
  match headers with
  | [] => -1
  | header :: rest =>
      if EqualFold (TrimSpace header) "url" then i
      else findUrlHeader rest (i + 1)
  end.

(** One iteration of the row loop. *)
Definition processRow (w : World) (urlColIndex statusColIndex rowIndex : Z)
    (row : list string) (stats : Stats) (f : File) (tr : list Call)
  : Stats * File * list Call :=
  if Z.of_nat (List.length row) <=? urlColIndex then (stats, f, tr)
  else
    let cellValue := nth (Z.to_nat urlColIndex) row EmptyString in
    match FindStringSubmatch loosePattern cellValue with
    | None => (stats, f, tr)
    | Some (account, containerName, blobPath) =>
        let stats1 := incProcessed stats in
        let '((status0, err), tr1) :=
          Processor.processBlobTier w account containerName blobPath tr in
        let '(stats2, status) :=
          match err with
          | Some e => (incErrors stats1, "Error: " ++ e)
          | None =>
              if String.eqb status0 "Changed: Archive → Cool"
              then (incChanged stats1, status0)
              else (incSkipped stats1, status0)
          end in
        match CoordinatesToCellName (statusColIndex + 1) (rowIndex + 1) with
        | Err _ => (incErrors stats2, f, tr1)
        | Ok statusCell =>
            match SetCellValue w f "Sheet1" statusCell status with
            | Err _ => (incErrors stats2, f, tr1)
            | Ok f1 => (stats2, f1, tr1)
            end
        end
    end.

Fixpoint processRows (w : World) (urlColIndex statusColIndex : Z)
    (dataRows : list (list string)) (rowIndex : Z) (stats : Stats) (f : File)
    (tr : list Call) : Stats * File * list Call :=
  match dataRows with
  | [] => (stats, f, tr)
  | row :: rest =>
      let '(stats1, f1, tr1) :=
        processRow w urlColIndex statusColIndex rowIndex row stats f tr in
      processRows w urlColIndex statusColIndex rest (rowIndex + 1) stats1 f1 tr1
  end.

(** [processExcelFile(f)] *)
Definition processExcelFile (w : World) (f : File) (tr : list Call)
  : (Stats * option error) * File * list Call :=
  let stats := noStats in
  match GetRows f "Sheet1" with
  | Err e => ((stats, Some (wrap "failed to get rows" e)), f, tr)
  | Ok [] => ((stats, None), f, tr)
  | Ok (headers :: dataRows) =>
      let found := findUrlHeader headers 0 in
      let urlColIndex := if found =? -1 then 0 else found in
      let statusColIndex := urlColIndex + 1 in
      let statusCell := nameOrNoCell (CoordinatesToCellName (statusColIndex + 1) 1) in
      match SetCellValue w f "Sheet1" statusCell "Status" with
      | Err e => ((stats, Some (wrap "failed to set status header" e)), f, tr)
      | Ok f1 =>
          let '(stats1, f2, tr1) :=
            processRows w urlColIndex statusColIndex dataRows 1 stats f1 tr in
          ((stats1, None), f2, tr1)
      end
  end.

End UrlHeaderProcessor.

(** ** The processor that scans every cell and keeps counters

    Its [handleProcess] has the text of [Processor.handleProcess]. *)

Module ScanProcessor.
Import Strings Regexp Excelize.

(** The body of the cell loop of [processExcelBlob]. *)
Definition processCell (w : World) (cell : string) (stats : Stats) (tr : list Call)
  : Stats * list Call :=
  match FindStringSubmatch loosePattern cell with
  | None => (stats, tr)
  | Some (account, containerName, blobPath) =>
      let stats1 := incProcessed stats in
      let encodedBlobPath := Processor.encodeBlobPath blobPath in
      match newServiceClient w (serviceURL account) with
      | Some _ => (incErrors stats1, tr)
      | None =>
          let tr1 := sent tr (GetBlobProperties account containerName encodedBlobPath) in
          match getBlobProperties w tr account containerName encodedBlobPath with
          | Err _ => (incErrors stats1, tr1)
          | Ok None => (incSkipped stats1, tr1)
          | Ok (Some currentTier) =>
              if String.eqb currentTier AccessTierArchive then
                let url := clientURL w account containerName encodedBlobPath in
                match newBlockBlobClient w url with
                | Some _ => (incErrors stats1, tr1)
                | None =>
                    let tr2 := sent tr1 (SetTier url AccessTierCool) in
                    match setTier w tr1 url AccessTierCool with
                    | Some _ => (incErrors stats1, tr2)
                    | None => (incChanged stats1, tr2)
                    end
                end
              else (incSkipped stats1, tr1)
          end
      end
  end.

Fixpoint processCells (w : World) (row : list string) (stats : Stats)
    (tr : list Call) : Stats * list Call :=
  match row with
  | [] => (stats, tr)
  | cell :: rest =>
      let '(stats1, tr1) := processCell w cell stats tr in
      processCells w rest stats1 tr1
  end.

Fixpoint processAllRows (w : World) (rows : Table) (stats : Stats) (tr : list Call)
  : Stats * list Call :=
  match rows with
  | [] => (stats, tr)
  | row :: rest =>
      let '(stats1, tr1) := processCells w row stats tr in
      processAllRows w rest stats1 tr1
  end.

(** [processExcelBlob(blobURL)]: the error, the counters of the final log
    line, and the trace. *)
Definition processExcelBlob (w : World) (blobURL : string) (tr : list Call)
  : (option error * Stats) * list Call :=
  match newManagedIdentityCredential w with
  | Some e => ((Some (wrap "failed to get MI credential" e), noStats), tr)
  | None =>
  match newBlockBlobClient w blobURL with
  | Some e => ((Some (wrap "failed to create block blob client" e), noStats), tr)
  | None =>
  let tr1 := sent tr (DownloadStream blobURL) in
  match downloadStream w tr blobURL with
  | Err e => ((Some (wrap "failed to download blob" e), noStats), tr1)
  | Ok (Err e) => ((Some (wrap "failed to read blob" e), noStats), tr1)
  | Ok (Ok data) =>
  match openReader w data with
  | Err e => ((Some (wrap "failed to open excel file" e), noStats), tr1)
  | Ok f =>
  match GetRows f "Sheet1" with
  | Err e => ((Some (wrap "failed to get rows" e), noStats), tr1)
  | Ok rows =>
      let '(stats, tr2) := processAllRows w rows noStats tr1 in
      ((None, stats), tr2)
  end end end end end.

End ScanProcessor.

(** ** The command-line tool *)

Module Cli.
Import Strings Regexp Excelize.

(** "Quick approach: encode spaces only". *)
Definition encodeSpaces (blobPath : string) : string :=
  if Contains blobPath " " then ReplaceAll blobPath " " "%20" else blobPath.

(** The body of the cell loop of [main]. *)
Definition processCell (w : World) (cell : string) (stats : Stats) (tr : list Call)
  : Stats * list Call :=
  match FindStringSubmatch loosePattern cell with
  | None => (stats, tr)
  | Some (account, containerName, blobPath0) =>
      let stats1 := incProcessed stats in
      match newServiceClient w (serviceURL account) with
      | Some _ => (incErrors stats1, tr)
      | None =>
          let blobPath := encodeSpaces blobPath0 in
          let tr1 := sent tr (GetBlobProperties account containerName blobPath) in
          match getBlobProperties w tr account containerName blobPath with
          | Err _ => (incErrors stats1, tr1)
          | Ok None => (incSkipped stats1, tr1)
          | Ok (Some tier) =>
              if String.eqb tier AccessTierArchive then
                let url := clientURL w account containerName blobPath in
                match newBlockBlobClient w url with
                | Some _ => (incErrors stats1, tr1)
                | None =>
                    let tr2 := sent tr1 (SetTier url AccessTierCool) in
                    match setTier w tr1 url AccessTierCool with
                    | Some _ => (incErrors stats1, tr2)
                    | None => (incChanged stats1, tr2)
                    end
                end
              else (incSkipped stats1, tr1)
          end
      end
  end.

Fixpoint processCells (w : World) (row : list string) (stats : Stats)
    (tr : list Call) : Stats * list Call :=
  match row with
  | [] => (stats, tr)
  | cell :: rest =>
      let '(stats1, tr1) := processCell w cell stats tr in
      processCells w rest stats1 tr1
  end.

Fixpoint processAllRows (w : World) (rows : Table) (stats : Stats) (tr : list Call)
  : Stats * list Call :=
  match rows with
  | [] => (stats, tr)
  | row :: rest =>
      let '(stats1, tr1) := processCells w row stats tr in
      processAllRows w rest stats1 tr1
  end.


End Cli.

(** ** The upload front end *)

Module Uploader.
Import Strings.

(** [filepath.Ext] on the reversed path: the bytes after the last dot of the
    last element, dot included. *)
Fixpoint extOfReversed (r acc : string) : string :=
  match r with
  | EmptyString => EmptyString
  | String c r' =>
      if Ascii.eqb c "." then String c acc
      else if Ascii.eqb c "/" then EmptyString
      else extOfReversed r' (String c acc)
  end.

(** [filepath.Ext(path)] *)
Definition Ext (path : string) : string := extOfReversed (rev path) EmptyString.

Fixpoint dropSlashes (r : string) : string :=
  match r with
  | String c r' => if Ascii.eqb c "/" then dropSlashes r' else r
  | EmptyString => EmptyString
  end.

(** [filepath.Base(path)] *)
Definition Base (path : string) : string :=
  match path with
  | EmptyString => "."
  | _ =>
      match dropSlashes (rev path) with
      | EmptyString => "/"
      | r => rev (fst (Regexp.span (fun c => negb (Ascii.eqb c "/")) r))
      end
  end.

Definition onlyXlsxMessage : string :=
  "❌ Only .xlsx files are allowed. Please upload an Excel file with .xlsx extension.".

(** The two programs differ in the answer to a stored upload. *)
Inductive Variant := Frontend | FirstUploader.

Definition uploaded (v : Variant) (blobName : string) : Response :=
  match v with
  | Frontend =>
      mkResponse StatusOK (Some "application/json")
        (JsonObject
           [ ("status", "success");
             ("message", "✅ Upload successful: " ++ blobName ++ ". File is being processed...");
             ("originalFile", blobName) ])
  | FirstUploader =>
      mkResponse StatusOK None (Text ("✅ Upload successful: " ++ blobName))
  end.

(** [handleUpload(w, r)] *)
Definition handleUpload (v : Variant) (w : World) (r : Request) (tr : list Call)
  : Response * list Call :=
  if negb (String.eqb (method r) "POST")
  then (httpError "Only POST allowed" StatusMethodNotAllowed, tr)
  else
  match parseMultipartForm r with
  | Some e => (httpError ("failed to parse form: " ++ e) StatusBadRequest, tr)
  | None =>
  match formFile r with
  | Err e => (httpError ("failed to get file: " ++ e) StatusBadRequest, tr)
  | Ok (fileName, file) =>
  let fileExt := ToLower (Ext fileName) in
  if negb (String.eqb fileExt ".xlsx")
  then (httpError onlyXlsxMessage StatusBadRequest, tr)
  else
  let storageAccount := getenv w "STORAGE_ACCOUNT" in
  let containerName := getenv w "STORAGE_CONTAINER" in
  if String.eqb storageAccount EmptyString || String.eqb containerName EmptyString
  then (httpError "STORAGE_ACCOUNT and STORAGE_CONTAINER must be set"
          StatusInternalServerError, tr)
  else
  match newDefaultAzureCredential w with
  | Some e => (httpError ("failed to get credential: " ++ e) StatusInternalServerError, tr)
  | None =>
  match newServiceClient w (serviceURL storageAccount) with
  | Some e =>
      (httpError ("failed to create service client: " ++ e) StatusInternalServerError, tr)
  | None =>
  let blobName := Base fileName in
  let tr1 := sent tr (Upload storageAccount containerName blobName None file) in
  match upload w tr storageAccount containerName blobName None file with
  | Some e => (httpError ("failed to upload blob: " ++ e) StatusInternalServerError, tr1)
  | None => (uploaded v blobName, tr1)
  end end end end end.

(** The latest processed file kept by the front end. *)
Record ProcessedFile := mkProcessedFile {
  FileName : string;
  URL : string;
  ProcessedAt : Z
}.

(** The event loop of [handleProcessedNotification]; [latest] is the global
    [latestProcessedFile]. *)
Fixpoint notifyEvents (w : World) (events : list EventGridEvent)
    (latest : option ProcessedFile) : option ProcessedFile :=
  match events with
  | [] => latest
  | event :: rest =>
      if String.eqb (EventType event) SubscriptionValidationEvent
      then notifyEvents w rest latest
      else if negb (String.eqb (EventType event) BlobCreated)
      then notifyEvents w rest latest
      else
        let blobURL := DataURL event in
        if Contains blobURL "_processed.xlsx"
        then notifyEvents w rest
               (Some (mkProcessedFile (last (Split blobURL "/")) blobURL (now w)))
        else notifyEvents w rest latest
  end.

(** [handleProcessedNotification(w, r)]: the response and the global after the
    call.  The handler holds no blob-store client. *)
Definition handleProcessedNotification (w : World) (r : Request)
    (latest : option ProcessedFile) : Response * option ProcessedFile :=
  if negb (String.eqb (method r) "POST")
  then (httpError "Method not allowed" StatusMethodNotAllowed, latest)
  else
    match readBody r with
    | Err _ => (httpError "bad request" StatusBadRequest, latest)
    | Ok body =>
        match validationHandshake w body with
        | Some first => (validationResponse first, latest)
        | None =>
            match unmarshalEvents w body with
            | Err _ => (httpError "bad request" StatusBadRequest, latest)
            | Ok events =>
                (mkResponse StatusOK None (Text "✅ Notification processed"),
                 notifyEvents w events latest)
            end
        end
    end.

End Uploader.

(** ** Concrete worlds for the examples

    Every collaborator succeeds in [calm]; the other worlds change one
    answer. *)

Module Scenario.
Import Excelize.

Definition inputURL : string := "https://inacct.blob.core.windows.net/in/a.xlsx".
Definition refA : string := "https://acct.blob.core.windows.net/cont/a.txt".

(** U+00A0 and U+0130 in UTF-8. *)
Definition noBreakSpace : string :=
  String (Strings.byte 194) (String (Strings.byte 160) EmptyString).
Definition dottedCapitalI : string :=
  String (Strings.byte 196) (String (Strings.byte 176) EmptyString).

(** A one-sheet workbook. *)
Definition book (t : Table) : File := [("Sheet1", t)].

Definition semicolons (cells : list string) : string := String.concat ";" cells.

(** A readable serialisation of the first sheet: cells joined by semicolons,
    rows by bars. *)
Definition render (f : File) : string :=
  match f with
  | [] => EmptyString
  | (_, t) :: _ => String.concat "|" (List.map semicolons t)
  end.

(** The world in which every blob has the tier [tier], the downloaded workbook
    is [book t], and nothing fails. *)
Definition calm (tier : option string) (t : Table) : World :=
  {| newManagedIdentityCredential := None;
     newAzureCLICredential := None;
     newDefaultAzureCredential := None;
     newServiceClient := fun _ => None;
     newBlockBlobClient := fun _ => None;
     clientURL := fun account container blobName =>
       blobClientURL account container (Url.PathEscape blobName);
     getBlobProperties := fun _ _ _ _ => Ok tier;
     setTier := fun _ _ _ => None;
     downloadStream := fun _ _ => Ok (Ok "xlsx bytes");
     getContainerProperties := fun _ _ _ => None;
     createContainer := fun _ _ _ => None;
     upload := fun _ _ _ _ _ _ => None;
     openFile := fun _ => Ok (book t);
     openReader := fun _ => Ok (book t);
     setCellValueError := fun _ _ _ => None;
     writeBuffer := fun f => Ok (render f);
     getenv := fun k =>
       if String.eqb k "OUTPUT_STORAGE_ACCOUNT" then "outacct"
       else if String.eqb k "OUTPUT_STORAGE_CONTAINER" then "processed"
       else if String.eqb k "STORAGE_ACCOUNT" then "inacct"
       else if String.eqb k "STORAGE_CONTAINER" then "in"
       else EmptyString;
     unmarshalValidation := fun _ => Err "cannot unmarshal";
     unmarshalEvents := fun _ => Err "cannot unmarshal";
     urlParsePath := fun _ => Ok "/in/a.xlsx";
     now := 0 |}.

(** [w] with another answer of [blockblob.NewClient]. *)
Definition withBlockBlobClient (w : World) (answer : string -> option error) : World :=
  {| newManagedIdentityCredential := newManagedIdentityCredential w;
     newAzureCLICredential := newAzureCLICredential w;
     newDefaultAzureCredential := newDefaultAzureCredential w;
     newServiceClient := newServiceClient w;
     newBlockBlobClient := answer;
     clientURL := clientURL w;
     getBlobProperties := getBlobProperties w;
     setTier := setTier w;
     downloadStream := downloadStream w;
     getContainerProperties := getContainerProperties w;
     createContainer := createContainer w;
     upload := upload w;
     openFile := openFile w;
     openReader := openReader w;
     setCellValueError := setCellValueError w;
     writeBuffer := writeBuffer w;
     getenv := getenv w;
     unmarshalValidation := unmarshalValidation w;
     unmarshalEvents := unmarshalEvents w;
     urlParsePath := urlParsePath w;
     now := now w |}.


(** [w] with other answers of the JSON decoder. *)
Definition withJSON (w : World)
    (validation : string -> Result (list EventGridSubscriptionValidation))
    (events : string -> Result (list EventGridEvent)) : World :=
  {| newManagedIdentityCredential := newManagedIdentityCredential w;
     newAzureCLICredential := newAzureCLICredential w;
     newDefaultAzureCredential := newDefaultAzureCredential w;
     newServiceClient := newServiceClient w;
     newBlockBlobClient := newBlockBlobClient w;
     clientURL := clientURL w;
     getBlobProperties := getBlobProperties w;
     setTier := setTier w;
     downloadStream := downloadStream w;
     getContainerProperties := getContainerProperties w;
     createContainer := createContainer w;
     upload := upload w;
     openFile := openFile w;
     openReader := openReader w;
     setCellValueError := setCellValueError w;
     writeBuffer := writeBuffer w;
     getenv := getenv w;
     unmarshalValidation := validation;
     unmarshalEvents := events;
     urlParsePath := urlParsePath w;
     now := now w |}.

(** [w] with another answer of [url.Parse]. *)
Definition withURLPath (w : World) (answer : string -> Result string) : World :=
  {| newManagedIdentityCredential := newManagedIdentityCredential w;
     newAzureCLICredential := newAzureCLICredential w;
     newDefaultAzureCredential := newDefaultAzureCredential w;
     newServiceClient := newServiceClient w;
     newBlockBlobClient := newBlockBlobClient w;
     clientURL := clientURL w;
     getBlobProperties := getBlobProperties w;
     setTier := setTier w;
     downloadStream := downloadStream w;
     getContainerProperties := getContainerProperties w;
     createContainer := createContainer w;
     upload := upload w;
     openFile := openFile w;
     openReader := openReader w;
     setCellValueError := setCellValueError w;
     writeBuffer := writeBuffer w;
     getenv := getenv w;
     unmarshalValidation := unmarshalValidation w;
     unmarshalEvents := unmarshalEvents w;
     urlParsePath := answer;
     now := now w |}.

(** [w] with another answer of the upload request. *)
Definition withUpload (w : World)
    (answer : list Call -> string -> string -> string -> option string -> string
              -> option error) : World :=
  {| newManagedIdentityCredential := newManagedIdentityCredential w;
     newAzureCLICredential := newAzureCLICredential w;
     newDefaultAzureCredential := newDefaultAzureCredential w;
     newServiceClient := newServiceClient w;
     newBlockBlobClient := newBlockBlobClient w;
     clientURL := clientURL w;
     getBlobProperties := getBlobProperties w;
     setTier := setTier w;
     downloadStream := downloadStream w;
     getContainerProperties := getContainerProperties w;
     createContainer := createContainer w;
     upload := answer;
     openFile := openFile w;
     openReader := openReader w;
     setCellValueError := setCellValueError w;
     writeBuffer := writeBuffer w;
     getenv := getenv w;
     unmarshalValidation := unmarshalValidation w;
     unmarshalEvents := unmarshalEvents w;
     urlParsePath := urlParsePath w;
     now := now w |}.

Definition post (body : string) : Request :=
  mkRequest "POST" (Ok body) "/process" None (Err "no form").

Definition postFile (fileName content : string) : Request :=
  mkRequest "POST" (Err "form body") "/upload" None (Ok (fileName, content)).

End Scenario.

(** ** The rest of the front end: latest-file query and download proxy *)

Module Frontend.
Import Strings.

(** [strings.TrimPrefix] *)
Definition TrimPrefix (s p : string) : string :=
  match stripPrefix p s with
  | Some r => r
  | None => s
  end.

(** The JSON object of [handleLatestProcessed]: [available] false with a
    message, or [available] true with the file. *)
Inductive LatestBody :=
| NotAvailable (message : string)
| Available (file : Uploader.ProcessedFile).

(** What these two handlers write: an answer of [http.Error], a JSON object
    with the content type [application/json] and the implicit status 200, or
    the attachment headers followed by the copied stream ([Err] when the copy
    breaks off). *)
Inductive Answer :=
| Plain (r : Response)
| Json (body : LatestBody)
| Attachment (contentType disposition : string) (content : Result string).

(** [handleLatestProcessed(w, r)]; [latest] is the global
    [latestProcessedFile]. *)
Definition handleLatestProcessed (r : Request) (latest : option Uploader.ProcessedFile)
  : Answer :=
  if negb (String.eqb (method r) "GET")
  then Plain (httpError "Only GET allowed" StatusMethodNotAllowed)
  else
    match latest with
    | None => Json (NotAvailable "No processed files available yet")
    | Some file => Json (Available file)
    end.

(** The byte 34. *)
Definition quote : string := String (ascii_of_nat 34) EmptyString.

(** [handleDownload(w, r)] *)
Definition handleDownload (w : World) (r : Request) (tr : list Call)
  : Answer * list Call :=
  if negb (String.eqb (method r) "GET")
  then (Plain (httpError "Only GET allowed" StatusMethodNotAllowed), tr)
  else
  let fileName := TrimPrefix (urlPath r) "/api/download/" in
  if String.eqb fileName EmptyString
  then (Plain (httpError "Filename required" StatusBadRequest), tr)
  else
  let storageAccount :=
    if String.eqb (getenv w "OUTPUT_STORAGE_ACCOUNT") EmptyString
    then getenv w "STORAGE_ACCOUNT"
    else getenv w "OUTPUT_STORAGE_ACCOUNT" in
  let outputContainer :=
    if String.eqb (getenv w "OUTPUT_STORAGE_CONTAINER") EmptyString
    then "processed-files"
    else getenv w "OUTPUT_STORAGE_CONTAINER" in
  if String.eqb storageAccount EmptyString
  then (Plain (httpError "Storage account not configured" StatusInternalServerError), tr)
  else
  match newDefaultAzureCredential w with
  | Some _ => (Plain (httpError "Authentication failed" StatusInternalServerError), tr)
  | None =>
  match newServiceClient w (serviceURL storageAccount) with
  | Some _ =>
      (Plain (httpError "Failed to connect to storage" StatusInternalServerError), tr)
  | None =>
  let url := blobClientURL storageAccount outputContainer fileName in
  let tr1 := sent tr (DownloadStream url) in
  match downloadStream w tr url with
  | Err _ => (Plain (httpError "Failed to download file" StatusInternalServerError), tr1)
  | Ok content =>
      (Attachment "application/vnd.openxmlformats-officedocument.spreadsheetml.sheet"
         ("attachment; filename=" ++ quote ++ fileName ++ quote) content,
       tr1)
  end end end.

End Frontend.

(** ** The storage account of a blob URL *)

Module StorageAccount.
Import Strings Regexp.

(** A match of [https://([^.]+)\.blob\.core\.windows\.net/] at the first byte
    of [s]: group 1. *)
Definition matchHere (s : string) : option string :=
  match stripPrefix "https://" s with
  | None => None
  | Some r0 =>
      let (account, r1) := span (accountClass loosePattern) r0 in
      if isEmpty account then None
      else match stripPrefix ".blob.core.windows.net/" r1 with
           | None => None
           | Some _ => Some account
           end
  end.

(** Group 1 of the leftmost match. *)
Fixpoint find (s : string) : option string :=
  match matchHere s with
  | Some account => Some account
  | None => match s with
            | EmptyString => None
            | String _ r => find r
            end
  end.

(** [extractStorageAccountFromURL(blobURL)] *)
Definition extractStorageAccountFromURL (blobURL : string) : Result string :=
  match find blobURL with
  | Some account => Ok account
  | None => Err ("invalid blob URL format: " ++ blobURL)
  end.

End StorageAccount.

(** ** Requests for the examples of the front end *)

Module Requests.

Definition get (path : string) : Request :=
  mkRequest "GET" (Ok EmptyString) path None (Err "no form").

(** The events that the notification handler records: object-created events
    whose URL contains the marker of a processed file. *)
Definition tracked (event : EventGridEvent) : bool :=
  String.eqb (EventType event) BlobCreated &&
  Strings.Contains (DataURL event) "_processed.xlsx".

(** The record that the handler keeps for an event. *)
Definition recordOf (w : World) (event : EventGridEvent) : Uploader.ProcessedFile :=
  Uploader.mkProcessedFile (Strings.last (Strings.Split (DataURL event) "/"))
    (DataURL event) (now w).

End Requests.

(** ** Readings of the spec's words

    Definitions written from the text of the spec, to be compared with the
    ones taken from the code. *)

Module Spec.

(** "stripping the source's extension": the name without the extension that
    [filepath.Ext] finds in it. *)
Definition stripExtension (name : string) : string :=
  Strings.TrimSuffix name (Uploader.Ext name).

(** "... and appending a fixed suffix" *)
Definition outputName (name : string) : string :=
  stripExtension name ++ "_processed.xlsx".

(** "its name ends in the spreadsheet extension" *)
Definition endsInXlsx (name : string) : bool := Strings.HasSuffix name ".xlsx".

(** "decoding the encoded path ... segment-wise" *)
Definition decodeSegments (encoded : string) : list (Result string) :=
  List.map Url.PathUnescape (Strings.Split encoded "/").

(** "each data row that yielded a reference": the reference the row loop of
    the processor finds in a data row, if any. *)
Definition rowReference (re : Regexp.Regexp) (urlColIndex : Z) (row : list string)
  : option (string * string * string) :=
  if Z.of_nat (List.length row) =? 0 then None
  else if Z.of_nat (List.length row) <=? urlColIndex then None
  else
    let urlValue := Strings.TrimSpace (nth (Z.to_nat urlColIndex) row EmptyString) in
    if String.eqb urlValue EmptyString then None
    else Regexp.FindStringSubmatch re urlValue.

(** "its outcome display string" *)
Definition display (outcome : string * option error) : string :=
  match snd outcome with
  | Some e => "Error: " ++ e
  | None => fst outcome
  end.

(** The counter an outcome goes to. *)
Definition tally (stats : Stats) (outcome : string * option error) : Stats :=
  match snd outcome with
  | Some _ => incErrors stats
  | None =>
      if Strings.Contains (fst outcome) "Changed: Archive → Cool"
      then incChanged stats else incSkipped stats
  end.



End Spec.

(** ** What a run may change in a workbook *)

Module Frame.
Import Excelize.

(** [f'] is [f] except for cells in column [col] of the sheet [sheet]: the
    sheets have the same names in the same order, every other sheet is the
    same, and on [sheet] every cell of another column has kept its text. *)
Definition onlyColumn (sheet : string) (col : Z) (f f' : File) : Prop :=
  GetSheetList f' = GetSheetList f /\
  (forall other, other <> sheet -> lookupSheet f' other = lookupSheet f other) /\
  (forall t, lookupSheet f sheet = Some t ->
     exists t', lookupSheet f' sheet = Some t' /\
       forall c r, 1 <= c -> 1 <= r -> c <> col -> cell t' c r = cell t c r) /\
  (lookupSheet f sheet = None -> f' = f).

(** The number of data rows in which the row loop of the processor finds a
    reference. *)
Fixpoint references (re : Regexp.Regexp) (urlColIndex : Z)
    (dataRows : list (list string)) : Z :=
  match dataRows with
  | [] => 0
  | row :: rest =>
      match Spec.rowReference re urlColIndex row with
      | Some _ => 1
      | None => 0
      end + references re urlColIndex rest
  end.

End Frame.

(** * Properties *)

(** ** Byte strings *)

Section StringBasics.
Import Strings.

Lemma append_nil_r (s : string) : (s ++ "")%string = s.
Proof. induction s; cbn; congruence. Qed.

Lemma append_assoc (a b c : string) : ((a ++ b) ++ c)%string = (a ++ b ++ c)%string.
Proof. induction a; cbn; congruence. Qed.

Lemma rev_onto_app (s acc : string) : rev_onto s acc = (rev s ++ acc)%string.
Proof.
  unfold rev. revert acc. induction s as [|c s IH]; intros acc; [reflexivity|].
  cbn [rev_onto]. rewrite IH, (IH (String c "")), append_assoc. reflexivity.
Qed.

Lemma rev_app (a b : string) : rev (a ++ b) = (rev b ++ rev a)%string.
Proof.
  induction a as [|c a IH].
  - cbn. now rewrite append_nil_r.
  - unfold rev in *. cbn [append rev_onto].
    rewrite (rev_onto_app (a ++ b)), (rev_onto_app a). unfold rev. rewrite IH.
    apply append_assoc.
Qed.

Lemma rev_involutive (s : string) : rev (rev s) = s.
Proof.
  induction s as [|c s IH]; [reflexivity|].
  unfold rev at 2. cbn [rev_onto]. rewrite rev_onto_app, rev_app, IH. reflexivity.
Qed.

Lemma HasPrefix_app (p r : string) : HasPrefix (p ++ r) p = true.
Proof.
  induction p as [|a p IH]; cbn; [reflexivity|]. now rewrite Ascii.eqb_refl.
Qed.

Lemma HasPrefix_iff (s p : string) :
  HasPrefix s p = true <-> exists r, s = (p ++ r)%string.
Proof.
  split.
  - revert s. induction p as [|a p IH]; intros s H; [now exists s|].
    destruct s as [|b s]; [discriminate|]. cbn [HasPrefix] in H.
    apply andb_prop in H as [Hab H]. apply Ascii.eqb_eq in Hab as ->.
    destruct (IH s H) as (r & ->). now exists r.
  - intros (r & ->). apply HasPrefix_app.
Qed.

Lemma HasSuffix_iff (s suffix : string) :
  HasSuffix s suffix = true <-> exists p, s = (p ++ suffix)%string.
Proof.
  unfold HasSuffix. rewrite HasPrefix_iff. split.
  - intros (r & H). exists (rev r). apply (f_equal rev) in H.
    now rewrite rev_involutive, rev_app, rev_involutive in H.
  - intros (p & ->). exists (rev p). apply rev_app.
Qed.

End StringBasics.

(** ** Traces *)


Lemma uploadRequests_app (a b : list Call) :
  uploadRequests (a ++ b) = uploadRequests a + uploadRequests b.
Proof.
  induction a as [|c a IH]; [reflexivity|].
  destruct c; cbn [app uploadRequests]; rewrite IH; lia.
Qed.


(** ** The tier remediator *)

Section TierRemediator.
Variable w : World.
Variables account containerName blobPath : string.
Variable tr : list Call.

Let name := Processor.encodeBlobPath blobPath.
Let url := clientURL w account containerName name.
Let query := GetBlobProperties account containerName name.
Let run := Processor.processBlobTier w account containerName blobPath tr.

Hypothesis credential : newManagedIdentityCredential w = None.
Hypothesis client : newServiceClient w (serviceURL account) = None.





End TierRemediator.



(** ** The column locator *)

Section ColumnLocator.
Import Strings Regexp.
Variable re : Regexp.

(** The header search returns a column of the vocabulary, and no column to its
    left is one. *)
Lemma findByHeader_leftmost (headers : list string) (start col : Z) :
  Processor.findByHeader headers start = Some col ->
  exists before header after,
    headers = (before ++ header :: after)%list /\
    col = start + Z.of_nat (List.length before) /\
    Processor.isCommonHeader header = true /\
    Forall (fun h => Processor.isCommonHeader h = false) before.
Proof.
  revert start. induction headers as [|h rest IH]; intros start H; simpl in H.
  - discriminate.
  - destruct (Processor.isCommonHeader h) eqn:Hh.
    + injection H as <-. exists [], h, rest. simpl. repeat split; auto. lia.
    + destruct (IH _ H) as (before & header & after & -> & -> & Hc & Hb).
      exists (h :: before), header, after. simpl List.length.
      repeat split; auto. lia.
Qed.

Lemma findByHeader_none (headers : list string) (start : Z) :
  Processor.findByHeader headers start = None <->
  Forall (fun h => Processor.isCommonHeader h = false) headers.
Proof.
  revert start. induction headers as [|h rest IH]; intros start; simpl.
  - split; auto.
  - destruct (Processor.isCommonHeader h) eqn:Hh.
    + split; [discriminate|]. intros H. inversion H. congruence.
    + rewrite IH. split; intros H; [constructor; auto | inversion H; auto].
Qed.

(** A header of the vocabulary decides the column whatever the cells hold. *)
Lemma findURLColumn_header_wins (headers : list string) (dataRows other : list (list string))
    (col : Z) :
  Processor.findByHeader headers 0 = Some col ->
  Processor.findURLColumn (headers :: dataRows) re = col /\
  Processor.findURLColumn (headers :: other) re = col.
Proof.
  intros H. unfold Processor.findURLColumn. rewrite H. auto.
Qed.

(** The data scan reads the rows with [rowIndex] below ten and no other. *)
Lemma countRows_window (dataRows : list (list string)) (rowIndex : Z) (urlMatches : list Z) :
  Processor.countRows re dataRows rowIndex urlMatches =
  Processor.countRows re (firstn (Z.to_nat (10 - rowIndex)) dataRows) rowIndex urlMatches.
Proof.
  revert rowIndex urlMatches.
  induction dataRows as [|row rest IH]; intros rowIndex urlMatches.
  - now rewrite firstn_nil.
  - cbn [Processor.countRows].
    destruct (Z.ltb_spec rowIndex 10) as [Hlt|Hge].
    + replace (Z.to_nat (10 - rowIndex)) with (S (Z.to_nat (10 - (rowIndex + 1)))) by lia.
      cbn [firstn Processor.countRows].
      destruct (Z.ltb_spec rowIndex 10); [|lia]. apply IH.
    + replace (Z.to_nat (10 - rowIndex)) with O by lia. reflexivity.
Qed.

(** Only the header row and the nine rows after it reach the result. *)
Lemma findURLColumn_reads_nine_data_rows (headers : list string)
    (dataRows : list (list string)) :
  Processor.findURLColumn (headers :: dataRows) re =
  Processor.findURLColumn (headers :: firstn 9 dataRows) re.
Proof.
  unfold Processor.findURLColumn.
  destruct (Processor.findByHeader headers 0); [reflexivity|].
  rewrite countRows_window.
  rewrite (countRows_window (firstn 9 dataRows)).
  change (Z.to_nat (10 - 1)) with 9%nat.
  now rewrite firstn_firstn, Nat.min_id.
Qed.

(** The last loop returns the column it was given when no count exceeds the
    running maximum, and otherwise the leftmost column with the largest
    count. *)
Lemma bestOf_spec (urlMatches : list Z) :
  forall colIndex maxMatches bestColumn : Z,
    let best := Processor.bestOf urlMatches colIndex maxMatches bestColumn in
    (best = bestColumn /\ Forall (fun m => m <= maxMatches) urlMatches) \/
    (exists (i : nat) (top : Z),
        nth_error urlMatches i = Some top /\
        best = colIndex + Z.of_nat i /\
        maxMatches < top /\
        (forall j m, nth_error urlMatches j = Some m -> m <= top) /\
        (forall j m, (j < i)%nat -> nth_error urlMatches j = Some m -> m < top)).
Proof.
  induction urlMatches as [|matches rest IH]; intros colIndex maxMatches bestColumn best.
  - left. split; [reflexivity|constructor].
  - unfold best. cbn [Processor.bestOf].
    destruct (Z.ltb_spec maxMatches matches) as [Hlt|Hge].
    + right.
      destruct (IH (colIndex + 1) matches colIndex)
        as [[Hb Hall]|(i & top & Hi & Hb & Hm & Hmax & Hleft)].
      * exists 0%nat, matches. cbn [nth_error]. rewrite Hb.
        split; [reflexivity|]. split; [lia|]. split; [exact Hlt|]. split.
        -- intros [|j] m Hj; cbn [nth_error] in Hj.
           ++ injection Hj as <-. lia.
           ++ rewrite Forall_forall in Hall. apply Hall. eapply nth_error_In; eauto.
        -- intros j m Hj. lia.
      * exists (S i), top. cbn [nth_error]. rewrite Hb.
        split; [exact Hi|]. split; [lia|]. split; [lia|]. split.
        -- intros [|j] m Hj; cbn [nth_error] in Hj.
           ++ injection Hj as <-. lia.
           ++ eapply Hmax; eauto.
        -- intros [|j] m Hlt' Hj; cbn [nth_error] in Hj.
           ++ injection Hj as <-. lia.
           ++ eapply Hleft; eauto. lia.
    + destruct (IH (colIndex + 1) maxMatches bestColumn)
        as [[Hb Hall]|(i & top & Hi & Hb & Hm & Hmax & Hleft)].
      * left. split; [exact Hb|]. constructor; [lia|exact Hall].
      * right. exists (S i), top. cbn [nth_error]. rewrite Hb.
        split; [exact Hi|]. split; [lia|]. split; [lia|]. split.
        -- intros [|j] m Hj; cbn [nth_error] in Hj.
           ++ injection Hj as <-. lia.
           ++ eapply Hmax; eauto.
        -- intros [|j] m Hlt' Hj; cbn [nth_error] in Hj.
           ++ injection Hj as <-. lia.
           ++ eapply Hleft; eauto. lia.
Qed.

(** Without a header of the vocabulary, the locator answers from the counts of
    the scanned rows: "not found" when no count is positive, and otherwise the
    leftmost column with the strictly largest count. *)
Lemma findURLColumn_by_counts (headers : list string) (dataRows : list (list string)) :
  Processor.findByHeader headers 0 = None ->
  let counts :=
    Processor.countRows re dataRows 1 (List.repeat 0 (List.length headers)) in
  let found := Processor.findURLColumn (headers :: dataRows) re in
  (found = -1 /\ Forall (fun m => m <= 0) counts) \/
  (exists (i : nat) (top : Z),
      nth_error counts i = Some top /\
      found = Z.of_nat i /\
      0 < top /\
      (forall j m, nth_error counts j = Some m -> m <= top) /\
      (forall j m, (j < i)%nat -> nth_error counts j = Some m -> m < top)).
Proof.
  intros Hh counts found. unfold found, Processor.findURLColumn. rewrite Hh.
  fold counts.
  destruct (bestOf_spec counts 0 0 (-1)) as [H|(i & top & H1 & H2 & H3 & H4 & H5)].
  - left. exact H.
  - right. exists i, top. repeat split; auto.
Qed.

End ColumnLocator.

(** C2: the locator is meant to scan the first ten data rows (so says the
    comment on its loop), and the loop stops at row index nine.  Header [id]
    is not in the vocabulary, the only reference of the table is in the tenth
    data row and matches the pattern, and the locator reports "not found";
    with the reference in the ninth data row it reports column 0. *)
Theorem findURLColumn_misses_tenth_data_row :
  let filler := List.repeat ["x"] 9 in
  let rows := (["id"] :: filler ++ [[Scenario.refA]])%list in
  Regexp.MatchString Regexp.flexiblePattern (Strings.TrimSpace Scenario.refA) = true /\
  nth_error rows 10 = Some [Scenario.refA] /\
  Processor.findURLColumn rows Regexp.flexiblePattern = -1 /\
  Processor.findURLColumn (["id"] :: List.repeat ["x"] 8 ++ [[Scenario.refA]])%list
    Regexp.flexiblePattern = 0.
Proof.
  cbv zeta. repeat split; vm_compute; reflexivity.
Qed.

(** The two examples of the spec for the locator. *)
Example findURLColumn_by_header :
  Processor.findURLColumn [["id"; "azure_blob_location"; "notes"]]
    Regexp.flexiblePattern = 1.
Proof. reflexivity. Qed.

Example findURLColumn_by_content :
  Processor.findURLColumn
    [ ["a"; "b"; "c"];
      [Scenario.refA; "n"; Scenario.refA];
      ["m"; "n"; Scenario.refA];
      ["m"; "n"; Scenario.refA] ]
    Regexp.flexiblePattern = 2.
Proof. vm_compute. reflexivity. Qed.

(** A header is compared after the white space of Unicode is trimmed and
    the runes are lowered: [url] followed by a no-break space, and [LOCATION]
    written with a dotted capital I, are headers of the vocabulary. *)
Example findURLColumn_trims_no_break_space :
  Processor.findURLColumn
    [["id"; "url" ++ Scenario.noBreakSpace]; ["x"; "y"]] Regexp.flexiblePattern = 1.
Proof. reflexivity. Qed.

Example findURLColumn_lowers_dotted_capital_i :
  Processor.findURLColumn
    [["id"; "LOCAT" ++ Scenario.dottedCapitalI ++ "ON"]; ["x"; "y"]]
    Regexp.flexiblePattern = 1.
Proof. reflexivity. Qed.

(** ** Tables without a reference column *)




(** ** The validation handshake *)

(** C4: a POST whose body parses as a non-empty array of validation envelopes
    with the validation sentinel as first event type is answered with status
    200 and the JSON object whose [validationResponse] is the validation code
    of the first envelope; the trace of store requests is the one before the
    call, whatever else the body holds, and the front end's latest-file record
    is untouched. *)
Theorem validation_handshake_echoes_code :
  forall (w : World) (r : Request) (payload : string)
         (first : EventGridSubscriptionValidation)
         (others : list EventGridSubscriptionValidation),
    method r = "POST" ->
    readBody r = Ok payload ->
    unmarshalValidation w payload = Ok (first :: others) ->
    vEventType first = SubscriptionValidationEvent ->
    let echo :=
      mkResponse 200 (Some "application/json")
        (JsonValidationResponse (mkValidationResponse (ValidationCode first))) in
    (forall tr, Processor.handleProcess w r tr = (echo, tr)) /\
    (forall latest, Uploader.handleProcessedNotification w r latest = (echo, latest)).
Proof.
  intros w r payload first others Hm Hb Hv Ht echo.
  assert (Hh : validationHandshake w payload = Some first).
  { unfold validationHandshake. rewrite Hv, Ht. reflexivity. }
  split; intros x.
  - unfold Processor.handleProcess. rewrite Hm, Hb, Hh. reflexivity.
  - unfold Uploader.handleProcessedNotification. rewrite Hm, Hb, Hh. reflexivity.
Qed.

(** The handshake of the spec's scenario, followed in the same body by an
    envelope that the event decoder would dispatch. *)
Lemma validation_handshake_echoes_code_witness :
  let w := Scenario.withJSON (Scenario.calm (Some "Archive") [["url"]; [Scenario.refA]])
             (fun _ => Ok [mkValidation "1" SubscriptionValidationEvent "abc123";
                           mkValidation "2" BlobCreated EmptyString])
             (fun _ => Ok [mkEvent "1" SubscriptionValidationEvent EmptyString;
                           mkEvent "2" BlobCreated Scenario.inputURL]) in
  Processor.handleProcess w (Scenario.post "handshake") [] =
    (mkResponse 200 (Some "application/json")
       (JsonValidationResponse (mkValidationResponse "abc123")), []).
Proof.
  intros w.
  exact (proj1 (validation_handshake_echoes_code w (Scenario.post "handshake")
                  "handshake" (mkValidation "1" SubscriptionValidationEvent "abc123")
                  [mkValidation "2" BlobCreated EmptyString]
                  eq_refl eq_refl eq_refl eq_refl) []).
Defined.

(** ** The upload form *)

Section Extension.
Import Strings.

Lemma map_rev_onto (f : ascii -> ascii) (s acc : string) :
  map f (rev_onto s acc) = rev_onto (map f s) (map f acc).
Proof.
  revert acc. induction s as [|c s IH]; intros acc; [reflexivity|].
  cbn [rev_onto map]. rewrite IH. reflexivity.
Qed.

Lemma map_rev (f : ascii -> ascii) (s : string) : map f (rev s) = rev (map f s).
Proof. unfold rev. apply map_rev_onto. Qed.

Lemma map_length (f : ascii -> ascii) (s : string) :
  String.length (map f s) = String.length s.
Proof. induction s; cbn; congruence. Qed.

Lemma map_app (f : ascii -> ascii) (a b : string) :
  map f (a ++ b) = (map f a ++ map f b)%string.
Proof. induction a; cbn; congruence. Qed.

Lemma map_app_inv (f : ascii -> ascii) (p t s : string) :
  map f s = (p ++ t)%string ->
  exists q e, s = (q ++ e)%string /\ map f q = p /\ map f e = t.
Proof.
  revert s. induction p as [|o p IH]; intros s H.
  - now exists EmptyString, s.
  - destruct s as [|c s]; [discriminate|]. cbn [map append] in H.
    injection H as Ho H. destruct (IH s H) as (q & e & -> & Hq & He).
    exists (String c q), e. cbn [map append]. now rewrite Ho, Hq.
Qed.

(** The extension scan gives nothing, or more bytes than it was handed. *)
Lemma extOfReversed_length (r acc : string) :
  Uploader.extOfReversed r acc = EmptyString \/
  (String.length acc < String.length (Uploader.extOfReversed r acc))%nat.
Proof.
  revert acc. induction r as [|c r IH]; intros acc; cbn [Uploader.extOfReversed].
  - now left.
  - destruct (Ascii.eqb c "."); [right; cbn; lia|].
    destruct (Ascii.eqb c "/"); [now left|].
    destruct (IH (String c acc)) as [H|H]; [now left|right].
    cbn [String.length] in H. lia.
Qed.

Lemma lowerByte_dot (c : ascii) :
  Ascii.eqb "." (lowerByte c) = Ascii.eqb c ".".
Proof. destruct c as [[] [] [] [] [] [] [] []]; reflexivity. Qed.

Ltac settle :=
  cbn [Uploader.extOfReversed map String.eqb HasPrefix];
  repeat match goal with
         | |- context [lowerByte ?c] => is_var c; generalize (lowerByte c); intro
         end;
  repeat match goal with
         | |- context [Ascii.eqb ?a ?b] =>
             first [is_var a | is_var b]; destruct (Ascii.eqb a b)
         end;
  reflexivity.

(** On the reversed name and with the ASCII letters lowered byte by byte: the
    extension is [.xlsx] exactly when the name starts with the reversed
    [.xlsx]. *)
Lemma xlsx_extension_reversed (r : string) :
  String.eqb (map lowerByte (Uploader.extOfReversed r EmptyString)) ".xlsx" =
  HasPrefix (map lowerByte r) "xslx.".
Proof.
  assert (Hlong : forall r acc, (5 <= String.length acc)%nat ->
            String.eqb (map lowerByte (Uploader.extOfReversed r acc)) ".xlsx" = false).
  { intros r0 acc Hacc. apply String.eqb_neq. intros Heq.
    apply (f_equal String.length) in Heq. rewrite map_length in Heq.
    destruct (extOfReversed_length r0 acc) as [H|H].
    - rewrite H in Heq. discriminate.
    - cbn in Heq. lia. }
  destruct r as [|c1 r]; [reflexivity|].
  cbn [Uploader.extOfReversed].
  destruct (Ascii.eqb_spec c1 ".") as [->|?]; [reflexivity|].
  destruct (Ascii.eqb_spec c1 "/") as [->|?]; [reflexivity|].
  destruct r as [|c2 r]; [settle|].
  cbn [Uploader.extOfReversed].
  destruct (Ascii.eqb_spec c2 ".") as [->|?]; [settle|].
  destruct (Ascii.eqb_spec c2 "/") as [->|?]; [settle|].
  destruct r as [|c3 r]; [settle|].
  cbn [Uploader.extOfReversed].
  destruct (Ascii.eqb_spec c3 ".") as [->|?]; [settle|].
  destruct (Ascii.eqb_spec c3 "/") as [->|?]; [settle|].
  destruct r as [|c4 r]; [settle|].
  cbn [Uploader.extOfReversed].
  destruct (Ascii.eqb_spec c4 ".") as [->|?]; [settle|].
  destruct (Ascii.eqb_spec c4 "/") as [->|?]; [settle|].
  destruct r as [|c5 r]; [settle|].
  cbn [Uploader.extOfReversed].
  destruct (Ascii.eqb_spec c5 ".") as [->|?].
  - cbn [map String.eqb HasPrefix]. change (lowerByte ".") with "."%char.
    rewrite !Ascii.eqb_refl.
    rewrite (Ascii.eqb_sym (lowerByte c4)), (Ascii.eqb_sym (lowerByte c3)),
      (Ascii.eqb_sym (lowerByte c2)), (Ascii.eqb_sym (lowerByte c1)).
    destruct (Ascii.eqb "x" (lowerByte c4)), (Ascii.eqb "l" (lowerByte c3)),
      (Ascii.eqb "s" (lowerByte c2)), (Ascii.eqb "x" (lowerByte c1)); reflexivity.
  - destruct (Ascii.eqb_spec c5 "/") as [->|?]; [settle|].
    rewrite Hlong by (cbn; lia).
    cbn [map HasPrefix]. rewrite lowerByte_dot.
    destruct (Ascii.eqb_spec c5 "."); [congruence|].
    now rewrite !andb_false_r.
Qed.

Lemma lowered_extension_iff_suffix (fileName : string) :
  map lowerByte (Uploader.Ext fileName) = ".xlsx" <->
  HasSuffix (map lowerByte fileName) ".xlsx" = true.
Proof.
  unfold Uploader.Ext, HasSuffix.
  rewrite <- map_rev. change (rev ".xlsx") with "xslx.".
  rewrite <- xlsx_extension_reversed. symmetry. apply String.eqb_eq.
Qed.

(** [ToLower] rune by rune. *)
Lemma ToLower_eq (a : ascii) (r : string) :
  ToLower (String a r) =
  match r with
  | String b r' =>
      if (code a =? 196) && (code b =? 176) then String "i" (ToLower r')
      else
        match r' with
        | String c r'' =>
            if (code a =? 226) && (code b =? 132) && (code c =? 170)
            then String "k" (ToLower r'')
            else String (lowerByte a) (ToLower r)
        | EmptyString => String (lowerByte a) (ToLower r)
        end
  | EmptyString => String (lowerByte a) EmptyString
  end.
Proof. destruct r; reflexivity. Qed.

Lemma ToLower_ascii_head (a : ascii) (r : string) :
  code a < 128 -> ToLower (String a r) = String (lowerByte a) (ToLower r).
Proof.
  intros Ha. rewrite ToLower_eq. destruct r as [|b r']; [reflexivity|].
  assert (H1 : (code a =? 196) = false) by (apply Z.eqb_neq; lia).
  assert (H2 : (code a =? 226) = false) by (apply Z.eqb_neq; lia).
  rewrite H1, H2. cbn [andb]. destruct r'; reflexivity.
Qed.

Lemma ToLower_nil (s : string) : ToLower s = EmptyString -> s = EmptyString.
Proof.
  destruct s as [|a r]; [reflexivity|]. rewrite ToLower_eq.
  destruct r as [|b r']; [discriminate|].
  destruct (_ && _); [discriminate|].
  destruct r' as [|c r'']; [discriminate|].
  destruct (_ && _); discriminate.
Qed.

(** A byte of the result that is neither [i] nor [k] is the lowered byte of
    the string at that place. *)
Lemma ToLower_head_inv (a : ascii) (r : string) (d : ascii) (out : string) :
  ToLower (String a r) = String d out ->
  d <> "i"%char -> d <> "k"%char ->
  lowerByte a = d /\ ToLower r = out.
Proof.
  rewrite ToLower_eq. intros H Hi Hk.
  destruct r as [|b r']; [injection H as H1 H2; now split|].
  destruct (_ && _); [injection H as H1 _; congruence|].
  destruct r' as [|c r'']; [injection H as H1 H2; now split|].
  destruct (_ && _); [injection H as H1 _; congruence|].
  injection H as H1 H2; now split.
Qed.

Lemma lowerByte_ascii (c : ascii) : code (lowerByte c) < 128 -> code c < 128.
Proof.
  unfold lowerByte, isUpper.
  destruct (65 <=? code c) eqn:H1; cbn [andb]; [|auto].
  destruct (Z.leb_spec (code c) 90); [lia|auto].
Qed.

Lemma map_nil (f : ascii -> ascii) (s : string) :
  map f s = EmptyString -> s = EmptyString.
Proof. destruct s; [reflexivity|discriminate]. Qed.

(** For the comparison with [.xlsx], lowering the runes and lowering the
    ASCII bytes come to the same. *)
Lemma ToLower_is_xlsx (e : string) :
  ToLower e = ".xlsx" <-> map lowerByte e = ".xlsx".
Proof.
  split; intros H.
  - destruct e as [|c1 e]; [discriminate H|].
    apply ToLower_head_inv in H as [H1 H]; [|discriminate|discriminate].
    destruct e as [|c2 e]; [discriminate H|].
    apply ToLower_head_inv in H as [H2 H]; [|discriminate|discriminate].
    destruct e as [|c3 e]; [discriminate H|].
    apply ToLower_head_inv in H as [H3 H]; [|discriminate|discriminate].
    destruct e as [|c4 e]; [discriminate H|].
    apply ToLower_head_inv in H as [H4 H]; [|discriminate|discriminate].
    destruct e as [|c5 e]; [discriminate H|].
    apply ToLower_head_inv in H as [H5 H]; [|discriminate|discriminate].
    apply ToLower_nil in H as ->.
    cbn [map]. now rewrite H1, H2, H3, H4, H5.
  - destruct e as [|c1 e]; [discriminate H|]. cbn [map] in H. injection H as H1 H.
    destruct e as [|c2 e]; [discriminate H|]. cbn [map] in H. injection H as H2 H.
    destruct e as [|c3 e]; [discriminate H|]. cbn [map] in H. injection H as H3 H.
    destruct e as [|c4 e]; [discriminate H|]. cbn [map] in H. injection H as H4 H.
    destruct e as [|c5 e]; [discriminate H|]. cbn [map] in H. injection H as H5 H.
    apply map_nil in H as ->.
    rewrite !ToLower_ascii_head
      by (apply lowerByte_ascii;
          first [rewrite H1|rewrite H2|rewrite H3|rewrite H4|rewrite H5];
          reflexivity).
    now rewrite H1, H2, H3, H4, H5.
Qed.

(** A result that ends in [.xlsx] comes from a string whose end lowers to
    [.xlsx]. *)
Lemma ToLower_suffix_inv (f p : string) :
  ToLower f = (p ++ ".xlsx")%string ->
  exists q e, f = (q ++ e)%string /\ ToLower e = ".xlsx".
Proof.
  remember (String.length f) as n eqn:Hn.
  assert (Hle : (String.length f <= n)%nat) by lia. clear Hn.
  revert f p Hle. induction n as [|n IH]; intros f p Hle H.
  - destruct f; [|cbn in Hle; lia]. destruct p; discriminate H.
  - destruct f as [|a r]; [destruct p; discriminate H|].
    destruct p as [|o p]; [now exists EmptyString, (String a r)|].
    cbn [String.length] in Hle. cbn [append] in H. rewrite ToLower_eq in H.
    destruct r as [|b r'].
    { injection H as _ H. destruct p; discriminate H. }
    cbn [String.length] in Hle.
    destruct (_ && _).
    { injection H as _ H. destruct (IH r' p) as (q & e & -> & He); [lia|exact H|].
      now exists (String a (String b q)), e. }
    destruct r' as [|c r''].
    { injection H as _ H.
      destruct (IH (String b EmptyString) p) as (q & e & Hq & He);
        [cbn; lia|exact H|].
      exists (String a q), e. cbn [append]. now rewrite <- Hq. }
    cbn [String.length] in Hle.
    destruct (_ && _).
    { injection H as _ H. destruct (IH r'' p) as (q & e & -> & He); [lia|exact H|].
      now exists (String a (String b (String c q))), e. }
    injection H as _ H.
    destruct (IH (String b (String c r'')) p) as (q & e & Hq & He);
      [cbn [String.length]; lia|exact H|].
    exists (String a q), e. cbn [append]. now rewrite <- Hq.
Qed.

(** In front of an ASCII byte the result ends where the string does. *)
Lemma ToLower_app_ascii (q : string) (c : ascii) (e : string) :
  code c < 128 ->
  ToLower (q ++ String c e) = (ToLower q ++ ToLower (String c e))%string.
Proof.
  intros Hc.
  assert (H176 : (code c =? 176) = false) by (apply Z.eqb_neq; lia).
  assert (H132 : (code c =? 132) = false) by (apply Z.eqb_neq; lia).
  assert (H170 : (code c =? 170) = false) by (apply Z.eqb_neq; lia).
  remember (String.length q) as n eqn:Hn.
  assert (Hle : (String.length q <= n)%nat) by lia. clear Hn.
  revert q Hle. induction n as [|n IH]; intros q Hle.
  - destruct q; [reflexivity|cbn in Hle; lia].
  - destruct q as [|a r]; [reflexivity|].
    cbn [String.length] in Hle. cbn [append].
    rewrite (ToLower_eq a (r ++ String c e)), (ToLower_eq a r).
    destruct r as [|b r'].
    { cbn [append]. rewrite H176, andb_false_r.
      destruct e; [reflexivity|]. rewrite H132, andb_false_r. reflexivity. }
    cbn [String.length] in Hle. cbn [append].
    destruct ((code a =? 196) && (code b =? 176)).
    { cbn [append]. rewrite IH by lia. reflexivity. }
    destruct r' as [|d r''].
    { cbn [append]. rewrite H170, andb_false_r. cbn [append]. f_equal.
      apply (IH (String b EmptyString)). cbn; lia. }
    cbn [String.length] in Hle. cbn [append].
    destruct ((code a =? 226) && (code b =? 132) && (code d =? 170)).
    { cbn [append]. rewrite IH by lia. reflexivity. }
    cbn [append]. f_equal.
    apply (IH (String b (String d r''))). cbn [String.length]. lia.
Qed.

Lemma ToLower_ends_xlsx (fileName : string) :
  HasSuffix (ToLower fileName) ".xlsx" = true <->
  HasSuffix (map lowerByte fileName) ".xlsx" = true.
Proof.
  rewrite !HasSuffix_iff. split; intros (p & H).
  - apply ToLower_suffix_inv in H as (q & e & -> & He).
    apply ToLower_is_xlsx in He. exists (map lowerByte q).
    now rewrite map_app, He.
  - apply map_app_inv in H as (q & e & -> & _ & He).
    assert (Hx := proj2 (ToLower_is_xlsx e) He).
    destruct e as [|c e]; [discriminate He|].
    exists (ToLower q). rewrite ToLower_app_ascii, Hx; [reflexivity|].
    cbn [map] in He. injection He as Hc _.
    apply lowerByte_ascii. rewrite Hc. reflexivity.
Qed.

(** The extension of a name is [.xlsx] up to letter case exactly when the name
    ends in [.xlsx] up to letter case. *)
Lemma xlsx_extension_iff_suffix (fileName : string) :
  ToLower (Uploader.Ext fileName) = ".xlsx" <->
  HasSuffix (ToLower fileName) ".xlsx" = true.
Proof.
  split; intros H.
  - apply ToLower_ends_xlsx, lowered_extension_iff_suffix, ToLower_is_xlsx, H.
  - apply ToLower_is_xlsx, lowered_extension_iff_suffix, ToLower_ends_xlsx, H.
Qed.

End Extension.

(** C9, as the claim states it, fails: the name [report.XLSX] does not end in
    [.xlsx], and the file is stored and the answer is 200. *)
Lemma upper_case_extension_is_stored :
  let w := Scenario.calm None [] in
  let r := Scenario.postFile "report.XLSX" "data" in
  Spec.endsInXlsx "report.XLSX" = false /\
  statusCode (fst (Uploader.handleUpload Uploader.Frontend w r [])) = 200 /\
  snd (Uploader.handleUpload Uploader.Frontend w r []) =
    [Upload "inacct" "in" "report.XLSX" None "data"] /\
  snd (Uploader.handleUpload Uploader.FirstUploader w r []) =
    [Upload "inacct" "in" "report.XLSX" None "data"].
Proof.
  cbv zeta. repeat split; vm_compute; reflexivity.
Qed.

Lemma httpError_status (msg : string) (code : Z) : statusCode (httpError msg code) = code.
Proof. reflexivity. Qed.

(** C9 (amended): on a POST whose form holds a file, the file is stored only
    if the extension of its name (from the last dot on) is [.xlsx] up to
    letter case, which is to say that the name ends in [.xlsx] up to letter
    case; with any other extension the answer is the client error that names
    the restriction and no request reaches the store; and when the upload is
    answered with 200, one upload request was sent, for the base name of the
    file. *)
Theorem handleUpload_checks_extension :
  forall (v : Uploader.Variant) (w : World) (r : Request) (tr : list Call)
         (fileName file : string),
    method r = "POST" ->
    parseMultipartForm r = None ->
    formFile r = Ok (fileName, file) ->
    let run := Uploader.handleUpload v w r tr in
    (Strings.ToLower (Uploader.Ext fileName) <> ".xlsx" ->
       run = (httpError Uploader.onlyXlsxMessage 400, tr)) /\
    (snd run <> tr -> Strings.ToLower (Uploader.Ext fileName) = ".xlsx") /\
    (statusCode (fst run) = 200 ->
       Strings.ToLower (Uploader.Ext fileName) = ".xlsx" /\
       snd run =
         (tr ++ [Upload (getenv w "STORAGE_ACCOUNT") (getenv w "STORAGE_CONTAINER")
                   (Uploader.Base fileName) None file])%list) /\
    (Strings.ToLower (Uploader.Ext fileName) = ".xlsx" <->
     Strings.HasSuffix (Strings.ToLower fileName) ".xlsx" = true).
Proof.
  intros v w r tr fileName file Hm Hp Hf run.
  rewrite <- !and_assoc. split; [rewrite !and_assoc|apply xlsx_extension_iff_suffix].
  unfold run, Uploader.handleUpload. rewrite Hm, Hp, Hf.
  rewrite String.eqb_refl. cbn [negb].
  destruct (String.eqb_spec (Strings.ToLower (Uploader.Ext fileName)) ".xlsx") as [He|He];
    cbn [negb].
  2:{ split; [reflexivity|]. split.
      - intros H. exfalso. apply H. reflexivity.
      - cbn [fst]. rewrite httpError_status. discriminate. }
  split; [congruence|]. split; [auto|]. intros Hs. split; [exact He|].
  revert Hs.
  destruct (String.eqb (getenv w "STORAGE_ACCOUNT") "" ||
            String.eqb (getenv w "STORAGE_CONTAINER") "").
  { cbn [fst]. rewrite httpError_status. discriminate. }
  destruct (newDefaultAzureCredential w).
  { cbn [fst]. rewrite httpError_status. discriminate. }
  destruct (newServiceClient w (serviceURL (getenv w "STORAGE_ACCOUNT"))).
  { cbn [fst]. rewrite httpError_status. discriminate. }
  destruct (upload w tr _ _ _ None file).
  { cbn [fst]. rewrite httpError_status. discriminate. }
  reflexivity.
Qed.

(** A text file is turned away, in both programs. *)
Lemma handleUpload_checks_extension_witness :
  Uploader.handleUpload Uploader.Frontend (Scenario.calm None [])
    (Scenario.postFile "notes.txt" "data") [] =
    (httpError Uploader.onlyXlsxMessage 400, []).
Proof.
  apply (proj1 (handleUpload_checks_extension Uploader.Frontend (Scenario.calm None [])
                  (Scenario.postFile "notes.txt" "data") [] "notes.txt" "data"
                  eq_refl eq_refl eq_refl)).
  vm_compute. discriminate.
Defined.

(** ** Escaping of blob paths *)

Section PathEncoding.
Import Strings Url.

(** What escaping does to one byte: an escaped byte becomes a percent sign and
    two hex digits that decode to it; a byte that is kept is neither the
    percent sign nor the slash. *)
Lemma escape_one_byte (c : ascii) :
  if shouldEscape c
  then ishex (upperhex (Z.shiftr (code c) 4)) && ishex (upperhex (Z.land (code c) 15)) = true /\
       byte (Z.lor (Z.shiftl (unhex (upperhex (Z.shiftr (code c) 4))) 4)
                (unhex (upperhex (Z.land (code c) 15)))) = c /\
       Ascii.eqb (upperhex (Z.shiftr (code c) 4)) "/" = false /\
       Ascii.eqb (upperhex (Z.land (code c) 15)) "/" = false
  else Ascii.eqb c "%" = false /\ Ascii.eqb c "/" = false.
Proof.
  destruct c as [[] [] [] [] [] [] [] []]; vm_compute; repeat split; reflexivity.
Qed.

(** Decoding an escaped segment gives the segment back. *)
Lemma PathUnescape_PathEscape (s : string) : PathUnescape (PathEscape s) = Ok s.
Proof.
  induction s as [|c s IH]; [reflexivity|].
  cbn [PathEscape]. pose proof (escape_one_byte c) as H.
  destruct (shouldEscape c).
  - destruct H as (Hhex & Hback & _).
    cbn [PathUnescape]. rewrite Ascii.eqb_refl, Hhex, IH, Hback. reflexivity.
  - destruct H as (Hpct & _).
    cbn [PathUnescape]. rewrite Hpct, IH. reflexivity.
Qed.

Lemma Split_not_nil (s : string) (sep : ascii) : Split s sep <> [].
Proof.
  destruct s as [|c s]; cbn [Split]; [discriminate|].
  destruct (Ascii.eqb c sep); [discriminate|].
  destruct (Split s sep); discriminate.
Qed.

Lemma Split_keeps_byte (c : ascii) (s : string) :
  Ascii.eqb c "/" = false -> Split s "/" = [s] -> Split (String c s) "/" = [String c s].
Proof.
  intros Hc Hs. cbn [Split]. rewrite Hc, Hs. reflexivity.
Qed.

(** An escaped segment holds no slash: splitting it gives the segment alone. *)
Lemma PathEscape_no_slash (s : string) : Split (PathEscape s) "/" = [PathEscape s].
Proof.
  induction s as [|c s IH]; [reflexivity|].
  cbn [PathEscape]. pose proof (escape_one_byte c) as H.
  destruct (shouldEscape c).
  - destruct H as (_ & _ & Hhi & Hlo).
    apply Split_keeps_byte; [reflexivity|].
    apply Split_keeps_byte; [exact Hhi|].
    apply Split_keeps_byte; [exact Hlo|exact IH].
  - destruct H as (_ & Hslash). apply Split_keeps_byte; assumption.
Qed.

Lemma Split_segment_then_slash (a b : string) :
  Split a "/" = [a] -> Split (a ++ "/" ++ b) "/" = a :: Split b "/".
Proof.
  induction a as [|c a IH]; intros Ha.
  - reflexivity.
  - cbn [Split] in Ha. cbn [append Split].
    destruct (Ascii.eqb c "/") eqn:Hc.
    + injection Ha as Ha. destruct (Split a "/") eqn:E; [|discriminate].
      now apply Split_not_nil in E.
    + destruct (Split a "/") as [|h t] eqn:E; [now apply Split_not_nil in E|].
      injection Ha as -> ->. change (String "/" b) with ("/" ++ b).
      rewrite (IH eq_refl). reflexivity.
Qed.

(** Joining slash-free segments and splitting again gives the segments. *)
Lemma Split_Join (segments : list string) :
  segments <> [] ->
  Forall (fun s => Split s "/" = [s]) segments ->
  Split (Join segments "/") "/" = segments.
Proof.
  induction segments as [|a rest IH]; intros Hne Hall; [congruence|].
  inversion Hall as [|? ? Ha Hrest]; subst.
  destruct rest as [|b rest].
  - exact Ha.
  - unfold Join in *.
    change (String.concat "/" (a :: b :: rest))
      with (a ++ "/" ++ String.concat "/" (b :: rest)).
    rewrite Split_segment_then_slash by exact Ha.
    f_equal. apply IH; [discriminate|exact Hrest].
Qed.

(** The encoded path has the segments of the path, each escaped. *)
Lemma encodeBlobPath_segments (blobPath : string) :
  Split (Processor.encodeBlobPath blobPath) "/" =
  List.map PathEscape (Split blobPath "/").
Proof.
  unfold Processor.encodeBlobPath. apply Split_Join.
  - pose proof (Split_not_nil blobPath "/"). destruct (Split blobPath "/"); [congruence|discriminate].
  - apply Forall_forall. intros s Hs. apply in_map_iff in Hs as (x & <- & _).
    apply PathEscape_no_slash.
Qed.

(** Decoding the encoded path segment by segment gives the segments of the
    path. *)
Lemma encodeBlobPath_round_trip (blobPath : string) :
  Spec.decodeSegments (Processor.encodeBlobPath blobPath) =
  List.map Ok (Split blobPath "/").
Proof.
  unfold Spec.decodeSegments. rewrite encodeBlobPath_segments.
  rewrite List.map_map. apply List.map_ext. intros s. apply PathUnescape_PathEscape.
Qed.

(** The path is the same number of segments before and after. *)
Lemma encodeBlobPath_segment_count (blobPath : string) :
  List.length (Split (Processor.encodeBlobPath blobPath) "/") =
  List.length (Split blobPath "/").
Proof.
  rewrite encodeBlobPath_segments. apply List.length_map.
Qed.

End PathEncoding.

(** C8: the processors split the path on the slash, escape each segment and
    join again, and for them the claim holds ([encodeBlobPath_segments],
    [encodeBlobPath_round_trip], [PathEscape_no_slash]).  The command-line
    tool replaces spaces only, where its own comment calls per-segment escaping
    the more correct way: the path [50% off.txt] of a matched cell is sent as
    [50%%20off.txt], which does not decode, where per-segment escaping gives
    [50%25%20off.txt], which decodes to the path. *)
Theorem cli_encodes_spaces_only :
  let cell := "https://acct.blob.core.windows.net/cont/50% off.txt" in
  Regexp.FindStringSubmatch Regexp.loosePattern cell
    = Some ("acct", "cont", "50% off.txt") /\
  Cli.encodeSpaces "50% off.txt" = "50%%20off.txt" /\
  snd (Cli.processCell (Scenario.calm (Some "Cool") []) cell noStats [])
    = [GetBlobProperties "acct" "cont" "50%%20off.txt"] /\
  Spec.decodeSegments (Cli.encodeSpaces "50% off.txt") = [Err "invalid URL escape"] /\
  Processor.encodeBlobPath "50% off.txt" = "50%25%20off.txt" /\
  Spec.decodeSegments (Processor.encodeBlobPath "50% off.txt") = [Ok "50% off.txt"].
Proof.
  cbv zeta. repeat split; vm_compute; reflexivity.
Qed.

(** ** The output publisher *)

(** The file name is the last segment of the path of the URL. *)
Lemma extractFilenameFromURL_last_segment (w : World) (blobURL name : string) :
  Processor.extractFilenameFromURL w blobURL = Ok name <->
  exists path, urlParsePath w blobURL = Ok path /\ name = Strings.last (Strings.Split path "/").
Proof.
  unfold Processor.extractFilenameFromURL. split.
  - destruct (urlParsePath w blobURL) as [path|e]; [|discriminate].
    pose proof (Split_not_nil path "/") as Hne.
    destruct (Strings.Split path "/") eqn:E; [congruence|].
    intros [= <-]. exists path. rewrite E. split; reflexivity.
  - intros (path & -> & ->).
    pose proof (Split_not_nil path "/") as Hne.
    destruct (Strings.Split path "/"); [congruence|reflexivity].
Qed.

(** C7, as the claim states it, fails: the source [a.XLSX] (a name the upload
    form accepts) has the extension [.XLSX]; without it the output would be
    [a_processed.xlsx], and the publisher uploads [a.XLSX_processed.xlsx]. *)
Lemma upper_case_source_keeps_extension :
  let source := "https://inacct.blob.core.windows.net/in/a.XLSX" in
  let w := Scenario.withURLPath (Scenario.calm None []) (fun _ => Ok "/in/a.XLSX") in
  Processor.extractFilenameFromURL w source = Ok "a.XLSX" /\
  Spec.outputName "a.XLSX" = "a_processed.xlsx" /\
  Processor.uploadToOutputContainer w "outacct" "processed" source "bytes" [] =
    (None,
     [GetContainerProperties "outacct" "processed";
      Upload "outacct" "processed" "a.XLSX_processed.xlsx"
        (Some Processor.spreadsheetContentType) "bytes"]) /\
  "a.XLSX_processed.xlsx" <> Spec.outputName "a.XLSX".
Proof.
  cbv zeta. repeat split; vm_compute; congruence.
Qed.

(** C7 (amended): with the service client built and the file name taken from
    the source URL, the publisher names the output by removing a trailing
    [.xlsx] (these very bytes) from the file name, if there is one, and
    appending [_processed.xlsx]; it asks for the properties of the destination
    container and sends a create request only when that query fails; it then
    sends one upload request with the spreadsheet content type and the buffer,
    and returns the upload's error, wrapped, when it fails.  A failed creation
    ends the call before any upload.  No call sends more than one upload. *)
Theorem uploadToOutputContainer_publishes :
  forall (w : World) (storageAccount outputContainer originalBlobURL excelBuffer : string)
         (tr : list Call) (originalFilename : string),
    newServiceClient w (serviceURL storageAccount) = None ->
    Processor.extractFilenameFromURL w originalBlobURL = Ok originalFilename ->
    let query := GetContainerProperties storageAccount outputContainer in
    let create := CreateContainer storageAccount outputContainer in
    let name := (Strings.TrimSuffix originalFilename ".xlsx" ++ "_processed.xlsx")%string in
    let put :=
      Upload storageAccount outputContainer name
        (Some "application/vnd.openxmlformats-officedocument.spreadsheetml.sheet")
        excelBuffer in
    let outcome (before : list Call) :=
      match upload w before storageAccount outputContainer name
              (Some Processor.spreadsheetContentType) excelBuffer with
      | Some e =>
          Some (wrap "failed to upload processed file to output storage account" e)
      | None => None
      end in
    let run :=
      Processor.uploadToOutputContainer w storageAccount outputContainer
        originalBlobURL excelBuffer tr in
    (getContainerProperties w tr storageAccount outputContainer = None ->
       run = (outcome (sent tr query), sent (sent tr query) put)) /\
    (forall e,
       getContainerProperties w tr storageAccount outputContainer = Some e ->
       createContainer w (sent tr query) storageAccount outputContainer = None ->
       run = (outcome (sent (sent tr query) create),
              sent (sent (sent tr query) create) put)) /\
    (forall e e',
       getContainerProperties w tr storageAccount outputContainer = Some e ->
       createContainer w (sent tr query) storageAccount outputContainer = Some e' ->
       run = (Some (wrap "failed to create output container" e'),
              sent (sent tr query) create)) /\
    uploadRequests (snd run) <= uploadRequests tr + 1.
Proof.
  intros w storageAccount outputContainer originalBlobURL excelBuffer tr
         originalFilename Hclient Hname query create name put outcome run.
  unfold run, Processor.uploadToOutputContainer, Processor.ensureContainer.
  rewrite Hclient, Hname. fold query create.
  unfold Processor.newFilename. fold name.
  change Processor.spreadsheetContentType
    with "application/vnd.openxmlformats-officedocument.spreadsheetml.sheet" in *.
  fold put. unfold outcome.
  assert (Hsent : forall t c, uploadRequests (sent t c) =
                    uploadRequests t + match c with Upload _ _ _ _ _ => 1 | _ => 0 end).
  { intros t c. unfold sent. rewrite uploadRequests_app.
    destruct c; cbn [uploadRequests]; lia. }
  destruct (getContainerProperties w tr storageAccount outputContainer) as [e0|] eqn:Hq.
  - destruct (createContainer w (sent tr query) storageAccount outputContainer)
      as [e1|] eqn:Hc.
    + repeat split; try congruence.
      cbn [snd]. rewrite !Hsent. unfold query, create. lia.
    + repeat split; try congruence.
      * intros e _ _.
        destruct (upload w (sent (sent tr query) create) storageAccount outputContainer
                    name _ excelBuffer); reflexivity.
      * destruct (upload w (sent (sent tr query) create) storageAccount outputContainer
                    name _ excelBuffer);
          cbn [snd]; rewrite !Hsent; unfold query, create, put; lia.
  - repeat split; try congruence.
    + intros _.
      destruct (upload w (sent tr query) storageAccount outputContainer name _ excelBuffer);
        reflexivity.
    + destruct (upload w (sent tr query) storageAccount outputContainer name _ excelBuffer);
        cbn [snd]; rewrite !Hsent; unfold query, put; lia.
Qed.

(** The spec's example: [a.xlsx] is published as [a_processed.xlsx], into a
    container that is there, by one upload. *)
Lemma uploadToOutputContainer_publishes_witness :
  Processor.uploadToOutputContainer (Scenario.calm None []) "outacct" "processed"
    Scenario.inputURL "bytes" [] =
  (None,
   [GetContainerProperties "outacct" "processed";
    Upload "outacct" "processed" "a_processed.xlsx"
      (Some "application/vnd.openxmlformats-officedocument.spreadsheetml.sheet")
      "bytes"]).
Proof.
  exact (proj1 (uploadToOutputContainer_publishes (Scenario.calm None []) "outacct"
                  "processed" Scenario.inputURL "bytes" [] "a.xlsx" eq_refl eq_refl)
           eq_refl).
Defined.

(** ** The counters *)

Section Counters.
Import Excelize.


Lemma surplus_incErrors (s : Stats) : surplus (incErrors s) = surplus s + 1.
Proof. unfold surplus; cbn; lia. Qed.

(** The row loop of the processor, by the reference of the row. *)
Lemma processRow_unfold (w : World) (re : Regexp.Regexp) (sheetName : string)
    (urlColIndex statusColIndex rowIndex : Z) (row : list string) (stats : Stats)
    (f : File) (tr : list Call) :
  Processor.processRow w re sheetName urlColIndex statusColIndex rowIndex row stats f tr =
  match Spec.rowReference re urlColIndex row with
  | None => (stats, f, tr)
  | Some (account, containerName, blobPath) =>
      let run := Processor.processBlobTier w account containerName blobPath tr in
      let stats2 := Spec.tally (incProcessed stats) (fst run) in
      match CoordinatesToCellName (statusColIndex + 1) (rowIndex + 1) with
      | Err _ => (incErrors stats2, f, snd run)
      | Ok statusCell =>
          match SetCellValue w f sheetName statusCell (Spec.display (fst run)) with
          | Err _ => (incErrors stats2, f, snd run)
          | Ok f1 => (stats2, f1, snd run)
          end
      end
  end.
Proof.
  unfold Processor.processRow, Spec.rowReference.
  destruct (Z.of_nat (Datatypes.length row) =? 0); [reflexivity|].
  destruct (Z.of_nat (Datatypes.length row) <=? urlColIndex); [reflexivity|].
  destruct (String.eqb _ EmptyString); [reflexivity|].
  destruct (Regexp.FindStringSubmatch re _) as [[[account containerName] blobPath]|];
    [|reflexivity].
  destruct (Processor.processBlobTier w account containerName blobPath tr)
    as [[status0 err] tr1].
  cbv zeta. unfold Spec.tally, Spec.display. cbn [fst snd].
  destruct err; [reflexivity|].
  destruct (Strings.Contains status0 _); reflexivity.
Qed.



Lemma lookupSheet_replaceSheet (f : File) (sheet : string) (t t' : Table) :
  lookupSheet f sheet = Some t ->
  lookupSheet (replaceSheet f sheet t') sheet = Some t'.
Proof.
  induction f as [|[name t0] rest IH]; cbn; [discriminate|].
  destruct (String.eqb name sheet) eqn:E; cbn; rewrite E; auto.
Qed.



Lemma CoordinatesToCellName_ok (col row : Z) (name : CellName) :
  CoordinatesToCellName col row = Ok name ->
  name = Cell col row /\ 1 <= col <= MaxColumns /\ 1 <= row <= TotalRows.
Proof.
  unfold CoordinatesToCellName.
  destruct (Z.ltb_spec col 1); [discriminate|]. destruct (Z.ltb_spec row 1); [discriminate|].
  cbn [orb].
  destruct (Z.ltb_spec TotalRows row); [discriminate|].
  destruct (Z.ltb_spec MaxColumns col); [discriminate|].
  intros [= <-]. repeat split; lia.
Qed.

Variable w : World.
Hypothesis writable : forall sheet col row, setCellValueError w sheet col row = None.


End Counters.

Section ScanCounters.
Variable w : World.





End ScanCounters.





(** ** Event batches *)

Lemma extends_refl (tr : list Call) : extends tr tr.
Proof. exists []. now rewrite app_nil_r. Qed.

Lemma extends_trans (a b c : list Call) : extends a b -> extends b c -> extends a c.
Proof. intros [m ->] [n ->]. exists (m ++ n)%list. now rewrite app_assoc. Qed.

Lemma extends_sent (tr : list Call) (c : Call) : extends tr (sent tr c).
Proof. now exists [c]. Qed.

Ltac trace_step :=
  match goal with
  | |- extends ?a ?a => apply extends_refl
  | |- extends ?a (sent ?b _) => apply (extends_trans a b); [|apply extends_sent]
  | |- extends _ (snd (_, _)) => cbn [snd]
  | |- extends _ (snd (match ?x with _ => _ end)) => destruct x
  | |- extends _ (snd (if ?x then _ else _)) => destruct x
  | |- extends _ (snd (let (_, _) := ?x in _)) => destruct x
  end.

Section TraceGrows.
Variable w : World.

Lemma processBlobTier_extends (account containerName blobPath : string) (tr : list Call) :
  extends tr (snd (Processor.processBlobTier w account containerName blobPath tr)).
Proof. unfold Processor.processBlobTier. repeat trace_step. Qed.

Lemma processRows_extends (re : Regexp.Regexp) (sheetName : string)
    (urlColIndex statusColIndex : Z) (dataRows : list (list string)) :
  forall (rowIndex : Z) (stats : Stats) (f : Excelize.File) (tr : list Call),
    extends tr (snd (Processor.processRows w re sheetName urlColIndex statusColIndex
                       dataRows rowIndex stats f tr)).
Proof.
  induction dataRows as [|row rest IH]; intros rowIndex stats f tr.
  - apply extends_refl.
  - cbn [Processor.processRows]. rewrite processRow_unfold.
    destruct (Spec.rowReference re urlColIndex row) as [[[a c] p]|]; [|apply IH].
    cbv zeta. pose proof (processBlobTier_extends a c p tr) as H.
    destruct (Excelize.CoordinatesToCellName _ _);
      [destruct (SetCellValue _ _ _ _ _)|];
      (eapply extends_trans; [exact H|apply IH]).
Qed.

Lemma processExcelFile_extends (f : Excelize.File) (tr : list Call) :
  extends tr (snd (Processor.processExcelFile w f tr)).
Proof.
  unfold Processor.processExcelFile.
  destruct (Excelize.GetSheetList f) as [|sheetName others]; [apply extends_refl|].
  destruct (Excelize.GetRows f sheetName) as [[|headers dataRows]|e];
    try apply extends_refl.
  destruct (_ =? -1); [apply extends_refl|].
  destruct (Excelize.CoordinatesToCellName _ 1) as [statusCell|e]; [|apply extends_refl].
  destruct (SetCellValue w f sheetName statusCell "Status") as [f1|e];
    [|apply extends_refl].
  pose proof (processRows_extends Regexp.flexiblePattern sheetName
                (Processor.findURLColumn (headers :: dataRows) Regexp.flexiblePattern)
                (Z.of_nat (List.length headers)) dataRows 1 noStats f1 tr) as H.
  destruct (Processor.processRows _ _ _ _ _ _ _ _ _ _) as [[stats1 f2] tr1].
  exact H.
Qed.

Lemma uploadToOutputContainer_extends
    (storageAccount outputContainer originalBlobURL excelBuffer : string) (tr : list Call) :
  extends tr (snd (Processor.uploadToOutputContainer w storageAccount outputContainer
                     originalBlobURL excelBuffer tr)).
Proof.
  unfold Processor.uploadToOutputContainer, Processor.ensureContainer.
  destruct (newServiceClient w _); [apply extends_refl|].
  destruct (getContainerProperties w tr storageAccount outputContainer);
    [destruct (createContainer w _ storageAccount outputContainer)|];
    repeat trace_step.
Qed.

Lemma processExcelBlob_extends (blobURL : string) (tr : list Call) :
  extends tr (snd (Processor.processExcelBlob w blobURL tr)).
Proof.
  unfold Processor.processExcelBlob.
  destruct (newManagedIdentityCredential w); [apply extends_refl|].
  destruct (newBlockBlobClient w blobURL); [apply extends_refl|].
  destruct (downloadStream w tr blobURL) as [[data|e]|e]; try apply extends_sent.
  destruct (openReader w data) as [f|e]; [|apply extends_sent].
  destruct (String.eqb _ _); [apply extends_sent|].
  destruct (String.eqb _ _); [apply extends_sent|].
  pose proof (processExcelFile_extends f (sent tr (DownloadStream blobURL))) as H.
  destruct (Processor.processExcelFile w f _) as [[[stats err] f1] tr2].
  cbn [snd] in H.
  assert (H2 : extends tr tr2) by (eapply extends_trans; [apply extends_sent|exact H]).
  destruct err; [exact H2|].
  destruct (writeBuffer w f1) as [excelBuffer|e]; [|exact H2].
  pose proof (uploadToOutputContainer_extends (getenv w "OUTPUT_STORAGE_ACCOUNT")
                (getenv w "OUTPUT_STORAGE_CONTAINER") blobURL excelBuffer tr2) as H3.
  destruct (Processor.uploadToOutputContainer w _ _ blobURL excelBuffer tr2) as [[e|] tr3];
    cbn [snd] in *; eapply extends_trans; eauto.
Qed.

(** The events that the loop hands to the pipeline. *)
Lemma handleEvents_skips (event : EventGridEvent) (rest : list EventGridEvent)
    (tr : list Call) :
  EventType event <> BlobCreated ->
  Processor.handleEvents w (event :: rest) tr = Processor.handleEvents w rest tr.
Proof.
  intros H. cbn [Processor.handleEvents].
  destruct (String.eqb _ SubscriptionValidationEvent); [reflexivity|].
  destruct (String.eqb_spec (EventType event) BlobCreated); [congruence|reflexivity].
Qed.

Lemma handleEvents_dispatches (event : EventGridEvent) (rest : list EventGridEvent)
    (tr : list Call) :
  EventType event = BlobCreated ->
  Processor.handleEvents w (event :: rest) tr =
  match Processor.processExcelBlob w (DataURL event) tr with
  | (Some e, tr1) =>
      (httpError ("failed to process blob: " ++ e) StatusInternalServerError, tr1)
  | (None, tr1) => Processor.handleEvents w rest tr1
  end.
Proof.
  intros H. cbn [Processor.handleEvents]. rewrite H. reflexivity.
Qed.

(** Events that completed are behind: the loop goes on from their trace. *)
Lemma handleEvents_after_completed (before rest : list EventGridEvent)
    (tr tr1 : list Call) :
  Processor.handleEvents w before tr = (Processor.acknowledgement, tr1) ->
  Processor.handleEvents w (before ++ rest) tr = Processor.handleEvents w rest tr1.
Proof.
  revert tr. induction before as [|event before IH]; intros tr H.
  - cbn in H. injection H as <-. reflexivity.
  - cbn [app].
    destruct (String.eqb_spec (EventType event) BlobCreated) as [Hb|Hb].
    + rewrite handleEvents_dispatches in * by exact Hb.
      destruct (Processor.processExcelBlob w (DataURL event) tr) as [[e|] tr2].
      * discriminate.
      * apply IH. exact H.
    + rewrite handleEvents_skips in * by exact Hb. apply IH. exact H.
Qed.

(** The loop ends with the acknowledgement, or at the first event whose
    pipeline fails. *)
Lemma handleEvents_outcome (events : list EventGridEvent) :
  forall tr : list Call,
    (fst (Processor.handleEvents w events tr) = Processor.acknowledgement /\
     extends tr (snd (Processor.handleEvents w events tr))) \/
    (exists before event after e tr1,
        events = (before ++ event :: after)%list /\
        EventType event = BlobCreated /\
        Processor.handleEvents w before tr = (Processor.acknowledgement, tr1) /\
        extends tr tr1 /\
        Processor.processExcelBlob w (DataURL event) tr1 =
          (Some e, snd (Processor.handleEvents w events tr)) /\
        fst (Processor.handleEvents w events tr) =
          httpError ("failed to process blob: " ++ e) StatusInternalServerError).
Proof.
  induction events as [|event rest IH]; intros tr.
  - left. split; [reflexivity|apply extends_refl].
  - destruct (String.eqb_spec (EventType event) BlobCreated) as [Hb|Hb].
    + rewrite handleEvents_dispatches by exact Hb.
      pose proof (processExcelBlob_extends (DataURL event) tr) as Hext.
      destruct (Processor.processExcelBlob w (DataURL event) tr) as [[e|] tr2] eqn:Hrun.
      * right. exists [], event, rest, e, tr. cbn [app fst snd].
        repeat split; auto. apply extends_refl.
      * cbn [snd] in Hext.
        destruct (IH tr2) as [[Hack Hgrow]|(before & ev & after & e & tr1 & -> & Hty & Hdone & Hgrow & Hfail & Hresp)].
        -- left. split; [exact Hack|]. eapply extends_trans; eauto.
        -- right. exists (event :: before), ev, after, e, tr1.
           repeat split; auto.
           ++ rewrite handleEvents_dispatches by exact Hb. rewrite Hrun. exact Hdone.
           ++ eapply extends_trans; eauto.
    + rewrite handleEvents_skips by exact Hb.
      destruct (IH tr) as [[Hack Hgrow]|(before & ev & after & e & tr1 & -> & Hty & Hdone & Hgrow & Hfail & Hresp)].
      * left. split; assumption.
      * right. exists (event :: before), ev, after, e, tr1.
        repeat split; auto.
        rewrite handleEvents_skips by exact Hb. exact Hdone.
Qed.

End TraceGrows.

(** C5: for a POST whose body is no validation handshake and decodes to an
    event batch, (1) if the events before some object-created event complete
    and the pipeline fails for that event with error [e], the answer is the
    server error 500 with the text "failed to process blob: " followed by [e],
    the result is the same whatever events come later in the batch, and the
    trace at the answer is the trace that the earlier events left, followed by
    what the failing event sent; (2) otherwise, when no dispatched event
    fails, the answer is status 200 with the fixed acknowledgement: the
    handler ends in one of these two ways. *)
Theorem batch_stops_at_first_failure :
  forall (w : World) (r : Request) (tr : list Call) (payload : string)
         (events : list EventGridEvent),
    method r = "POST" ->
    readBody r = Ok payload ->
    validationHandshake w payload = None ->
    unmarshalEvents w payload = Ok events ->
    let run := Processor.handleProcess w r tr in
    (forall before event after e tr1 tr2,
        events = (before ++ event :: after)%list ->
        Processor.handleEvents w before tr = (Processor.acknowledgement, tr1) ->
        EventType event = BlobCreated ->
        Processor.processExcelBlob w (DataURL event) tr1 = (Some e, tr2) ->
        run = (httpError ("failed to process blob: " ++ e) 500, tr2) /\
        extends tr tr1 /\ extends tr1 tr2) /\
    ((fst run = mkResponse 200 None (Text "✅ Event processed") /\ extends tr (snd run)) \/
     (exists before event after e tr1,
         events = (before ++ event :: after)%list /\
         EventType event = BlobCreated /\
         Processor.handleEvents w before tr = (Processor.acknowledgement, tr1) /\
         Processor.processExcelBlob w (DataURL event) tr1 = (Some e, snd run) /\
         fst run = httpError ("failed to process blob: " ++ e) 500)).
Proof.
  intros w r tr payload events Hm Hb Hv He run.
  assert (Hrun : run = Processor.handleEvents w events tr).
  { unfold run, Processor.handleProcess. rewrite Hm, Hb, Hv, He.
    rewrite String.eqb_refl. reflexivity. }
  split.
  - intros before event after e tr1 tr2 -> Hdone Hty Hfail.
    rewrite Hrun, (handleEvents_after_completed w before _ tr tr1 Hdone).
    rewrite handleEvents_dispatches by exact Hty. rewrite Hfail.
    split; [reflexivity|]. split.
    + destruct (handleEvents_outcome w before tr) as [[_ Hg]|(b & ev & a & e' & t & _ & _ & _ & _ & _ & Hresp)].
      * rewrite Hdone in Hg. exact Hg.
      * rewrite Hdone in Hresp. discriminate.
    + pose proof (processExcelBlob_extends w (DataURL event) tr1) as H.
      rewrite Hfail in H. exact H.
  - rewrite Hrun.
    destruct (handleEvents_outcome w events tr) as [H|(b & ev & a & e & t & H1 & H2 & H3 & _ & H5 & H6)].
    + left. exact H.
    + right. exists b, ev, a, e, t. repeat split; assumption.
Qed.

(** A batch of three object-created events; the file name of the second
    cannot be taken from its URL.  The first event is processed and published,
    the second fails after its download and its tier request, the third is
    never downloaded. *)
Lemma batch_stops_at_first_failure_witness :
  let t := [["url"]; [Scenario.refA]] in
  let first := mkEvent "1" BlobCreated "https://inacct.blob.core.windows.net/in/a.xlsx" in
  let second := mkEvent "2" BlobCreated "https://inacct.blob.core.windows.net/in/b.xlsx" in
  let third := mkEvent "3" BlobCreated "https://inacct.blob.core.windows.net/in/c.xlsx" in
  let w :=
    Scenario.withURLPath
      (Scenario.withJSON (Scenario.calm (Some "Cool") t)
         (fun _ => Err "no validation envelope")
         (fun _ => Ok [first; second; third]))
      (fun u => if String.eqb u (DataURL second) then Err "invalid URL"
                else Ok "/in/a.xlsx") in
  Processor.handleProcess w (Scenario.post "batch") [] =
    (httpError
       "failed to process blob: failed to upload to output container: failed to extract filename from URL: invalid URL"
       500,
     [ DownloadStream (DataURL first);
       GetBlobProperties "acct" "cont" "a.txt";
       GetContainerProperties "outacct" "processed";
       Upload "outacct" "processed" "a_processed.xlsx"
         (Some Processor.spreadsheetContentType)
         "url;Status|https://acct.blob.core.windows.net/cont/a.txt;Skipped: Already Cool";
       DownloadStream (DataURL second);
       GetBlobProperties "acct" "cont" "a.txt";
       GetContainerProperties "outacct" "processed" ]).
Proof.
  intros t first second third w.
  refine (proj1 (proj1 (batch_stops_at_first_failure w (Scenario.post "batch") [] "batch"
                          [first; second; third] eq_refl eq_refl eq_refl eq_refl)
                   [first] second [third] _ _ _ eq_refl _ eq_refl _)).
  - vm_compute. reflexivity.
  - vm_compute. reflexivity.
Defined.

(** ** The status column *)

Section Cells.
Import Excelize.

Lemma nth_setAt_same {A : Type} (d d' : A) (l : list A) (i : nat) (v : A) :
  nth i (setAt d l i v) d' = v.
Proof.
  revert l. induction i as [|i IH]; intros [|h t]; cbn; auto.
Qed.

Lemma nth_setAt_other {A : Type} (d : A) (l : list A) (i j : nat) (v : A) :
  i <> j -> nth j (setAt d l i v) d = nth j l d.
Proof.
  revert l j. induction i as [|i IH]; intros [|h t] [|j] Hne; cbn; try congruence.
  - now destruct j.
  - rewrite IH by congruence. now destruct j.
  - apply IH. congruence.
Qed.


Lemma cell_setCell_other (t : Table) (col row col' row' : Z) (v : string) :
  1 <= col -> 1 <= row -> 1 <= col' -> 1 <= row' ->
  col' <> col \/ row' <> row ->
  cell (setCell t col row v) col' row' = cell t col' row'.
Proof.
  intros Hc Hr Hc' Hr' Hne. unfold cell, setCell.
  destruct (Z.eq_dec row' row) as [->|Hrow].
  - rewrite nth_setAt_same. apply nth_setAt_other. lia.
  - rewrite nth_setAt_other by lia. reflexivity.
Qed.

Lemma lookupSheet_replaceSheet_other (f : File) (sheet other : string) (t : Table) :
  other <> sheet ->
  lookupSheet (replaceSheet f sheet t) other = lookupSheet f other.
Proof.
  intros Hne. induction f as [|[name t0] rest IH]; [reflexivity|].
  cbn [replaceSheet lookupSheet].
  destruct (String.eqb_spec name sheet) as [->|Hs]; cbn [lookupSheet].
  - destruct (String.eqb_spec sheet other); [congruence|reflexivity].
  - destruct (String.eqb name other); [reflexivity|exact IH].
Qed.


Variable w : World.
Variable re : Regexp.Regexp.
Variable sheetName : string.
Variables urlColIndex statusColIndex : Z.

Hypothesis writable : forall col row, setCellValueError w sheetName col row = None.
Hypothesis column_in_range : 1 <= statusColIndex + 1 <= MaxColumns.


End Cells.




(** ** Scenarios of the spec *)

(** The end-to-end scenario: the table with the header [url] and one archived
    object becomes the table with the [Status] column and the changed outcome,
    the counters are processed 1, changed 1, skipped 0, errors 0, and the
    store saw one metadata query and one tier change. *)
Example end_to_end_archived_object :
  let t := [["url"]; [Scenario.refA]] in
  Processor.processExcelFile (Scenario.calm (Some "Archive") t) (Scenario.book t) [] =
    ((mkStats 1 1 0 0, None),
     Scenario.book [["url"; "Status"]; [Scenario.refA; "Changed: Archive → Cool"]],
     [GetBlobProperties "acct" "cont" "a.txt";
      SetTier "https://acct.blob.core.windows.net/cont/a.txt" "Cool"]).
Proof. vm_compute. reflexivity. Qed.

(** An object in the tier [Cool] is skipped and no tier change is sent. *)
Example cool_object_is_skipped :
  Processor.processBlobTier (Scenario.calm (Some "Cool") []) "acct" "cont" "a.txt" [] =
    (("Skipped: Already Cool", None), [GetBlobProperties "acct" "cont" "a.txt"]).
Proof. vm_compute. reflexivity. Qed.

(** The tier change goes to the URL of the blob client; the world of the
    scenarios spells it as the SDK does, with the blob name escaped once
    more. *)
Example tier_change_goes_to_client_url :
  snd (Processor.processBlobTier (Scenario.calm (Some "Archive") [])
         "acct" "cont" "dir/file-1.docx" []) =
    [GetBlobProperties "acct" "cont" "dir/file-1.docx";
     SetTier "https://acct.blob.core.windows.net/cont/dir%2Ffile-1.docx" "Cool"].
Proof. vm_compute. reflexivity. Qed.

(** A failed upload comes back wrapped, after one upload request. *)
Example failed_upload_is_returned :
  let w := Scenario.withUpload (Scenario.calm None [])
             (fun _ _ _ _ _ _ => Some "409 conflict") in
  Processor.uploadToOutputContainer w "outacct" "processed" Scenario.inputURL "bytes" [] =
    (Some "failed to upload processed file to output storage account: 409 conflict",
     [GetContainerProperties "outacct" "processed";
      Upload "outacct" "processed" "a_processed.xlsx"
        (Some Processor.spreadsheetContentType) "bytes"]).
Proof. vm_compute. reflexivity. Qed.

(** Running the annotator on its own output appends a second [Status]
    column. *)
Example second_run_appends_second_status :
  let t := [["url"; "Status"]; [Scenario.refA; "Changed: Archive → Cool"]] in
  snd (fst (Processor.processExcelFile (Scenario.calm (Some "Cool") t) (Scenario.book t) [])) =
    Scenario.book
      [["url"; "Status"; "Status"];
       [Scenario.refA; "Changed: Archive → Cool"; "Skipped: Already Cool"]].
Proof. vm_compute. reflexivity. Qed.

(** * Further properties of the code *)

(** ** More on the column locator *)

Section LocatorRange.
Import Strings Regexp.
Variable re : Regexp.

Lemma increment_length (urlMatches : list Z) (colIndex : nat) :
  List.length (Processor.increment urlMatches colIndex) = List.length urlMatches.
Proof.
  revert colIndex. induction urlMatches as [|m ms IH]; intros [|i]; cbn; auto.
Qed.

Lemma countRow_length (row : list string) :
  forall (colIndex : Z) (urlMatches : list Z),
    List.length (Processor.countRow re row colIndex urlMatches) = List.length urlMatches.
Proof.
  induction row as [|cellValue rest IH]; intros colIndex urlMatches; [reflexivity|].
  cbn [Processor.countRow].
  destruct (_ <=? colIndex); [apply IH|].
  destruct (MatchString re _); rewrite IH; [apply increment_length|reflexivity].
Qed.

Lemma countRows_length (dataRows : list (list string)) :
  forall (rowIndex : Z) (urlMatches : list Z),
    List.length (Processor.countRows re dataRows rowIndex urlMatches) =
    List.length urlMatches.
Proof.
  induction dataRows as [|row rest IH]; intros rowIndex urlMatches; [reflexivity|].
  cbn [Processor.countRows].
  destruct (rowIndex <? 10); [|reflexivity].
  rewrite IH. apply countRow_length.
Qed.

Lemma findByHeader_app (before : list string) (header : string) (after : list string)
    (start : Z) :
  Forall (fun h => Processor.isCommonHeader h = false) before ->
  Processor.isCommonHeader header = true ->
  Processor.findByHeader (before ++ header :: after) start =
  Some (start + Z.of_nat (List.length before)).
Proof.
  revert start. induction before as [|h rest IH]; intros start Hb Hh.
  - cbn [app Processor.findByHeader List.length]. rewrite Hh. f_equal. lia.
  - inversion Hb as [|? ? Hh0 Hrest]; subst. cbn [app Processor.findByHeader].
    rewrite Hh0, (IH (start + 1) Hrest Hh). cbn [List.length]. f_equal. lia.
Qed.

(** X1: the locator answers -1 or an index inside the header row, whatever
    the rows hold: the header that [processExcelFile] then reads at that index
    exists. *)
Theorem findURLColumn_in_range :
  forall (rows : Excelize.Table),
    let col := Processor.findURLColumn rows re in
    col = -1 \/
    exists headers dataRows,
      rows = headers :: dataRows /\ 0 <= col < Z.of_nat (List.length headers).
Proof.
  intros [|headers dataRows] col; [now left|].
  unfold col, Processor.findURLColumn.
  destruct (Processor.findByHeader headers 0) as [c|] eqn:Hh.
  - right. exists headers, dataRows. split; [reflexivity|].
    destruct (findByHeader_leftmost headers 0 c Hh) as (before & header & after & -> & -> & _).
    rewrite length_app. cbn [List.length]. lia.
  - set (counts := Processor.countRows re dataRows 1 _).
    destruct (bestOf_spec counts 0 0 (-1)) as [[H _]|(i & top & Hi & H & _)].
    + left. exact H.
    + right. exists headers, dataRows. split; [reflexivity|].
      rewrite H.
      assert (Hlt : (i < List.length counts)%nat)
        by (apply nth_error_Some; congruence).
      unfold counts in Hlt. rewrite countRows_length, repeat_length in Hlt. lia.
Qed.

End LocatorRange.

(** X2: when a header of the row is in the vocabulary (after trimming and
    lowering) and no header to its left is, the locator answers its index,
    whatever the data rows and the pattern are. *)
Theorem findURLColumn_leftmost_vocabulary_header :
  forall (re : Regexp.Regexp) (before : list string) (header : string)
         (after : list string) (dataRows : list (list string)),
    Forall (fun h => Processor.isCommonHeader h = false) before ->
    Processor.isCommonHeader header = true ->
    Processor.findURLColumn ((before ++ header :: after)%list :: dataRows) re =
    Z.of_nat (List.length before).
Proof.
  intros re before header after dataRows Hb Hh. unfold Processor.findURLColumn.
  rewrite (findByHeader_app before header after 0 Hb Hh). lia.
Qed.

(** Two headers of the vocabulary, in other letter case and with spaces around
    them; the left one wins although only the right column holds
    references. *)
Lemma findURLColumn_leftmost_vocabulary_header_witness :
  Processor.findURLColumn
    [ ["id"; " Blob_URL "; "FILE_PATH"];
      ["1"; "n/a"; Scenario.refA] ]
    Regexp.flexiblePattern = 1.
Proof.
  apply (findURLColumn_leftmost_vocabulary_header Regexp.flexiblePattern
           ["id"] " Blob_URL " ["FILE_PATH"] [["1"; "n/a"; Scenario.refA]]).
  - repeat constructor.
  - reflexivity.
Defined.



(** ** More on the tier remediator *)

(** X4: whatever the collaborators answer, one call of [processBlobTier]
    sends nothing, or the metadata query alone, or the metadata query followed
    by one tier change to [Cool] for the same object; and the tier change is
    sent only when the query answered the tier [Archive]. *)
Theorem processBlobTier_requests :
  forall (w : World) (account containerName blobPath : string) (tr : list Call),
    let name := Processor.encodeBlobPath blobPath in
    let query := GetBlobProperties account containerName name in
    let change := SetTier (clientURL w account containerName name) AccessTierCool in
    let after := snd (Processor.processBlobTier w account containerName blobPath tr) in
    after = tr \/
    after = (tr ++ [query])%list \/
    (after = (tr ++ [query; change])%list /\
     getBlobProperties w tr account containerName name = Ok (Some AccessTierArchive)).
Proof.
  intros w account containerName blobPath tr name query change after.
  unfold after, Processor.processBlobTier. fold name.
  destruct (newManagedIdentityCredential w); [now left|].
  destruct (newServiceClient w (serviceURL account)); [now left|].
  destruct (getBlobProperties w tr account containerName name) as [[tier|]|e];
    try (right; left; reflexivity).
  destruct (String.eqb_spec tier AccessTierArchive) as [->|Hne];
    [|right; left; reflexivity].
  destruct (newBlockBlobClient w _); [right; left; reflexivity|].
  right; right. split; [|reflexivity].
  destruct (setTier w _ _ _); cbn [snd]; unfold sent; now rewrite <- app_assoc.
Qed.

(** X5: the two results of [processBlobTier] agree: the error is set exactly
    when the status text starts with [Error: ]. *)
Theorem processBlobTier_error_text :
  forall (w : World) (account containerName blobPath : string) (tr : list Call),
    let outcome := fst (Processor.processBlobTier w account containerName blobPath tr) in
    snd outcome <> None <-> Strings.HasPrefix (fst outcome) "Error: " = true.
Proof.
  intros w account containerName blobPath tr outcome.
  unfold outcome, Processor.processBlobTier.
  destruct (newManagedIdentityCredential w); [cbn; split; [reflexivity|discriminate]|].
  destruct (newServiceClient w (serviceURL account));
    [cbn; split; [reflexivity|discriminate]|].
  destruct (getBlobProperties w tr account containerName _) as [[tier|]|e];
    try (cbn; split; [reflexivity|discriminate]);
    try (cbn; split; [congruence|discriminate]).
  destruct (String.eqb tier AccessTierArchive).
  - destruct (newBlockBlobClient w _); [cbn; split; [reflexivity|discriminate]|].
    destruct (setTier w _ _ _); cbn; split; try reflexivity; try discriminate; congruence.
  - cbn. split; [congruence|discriminate].
Qed.

(** ** What processing may change in the workbook *)

Section Frames.
Import Excelize.

Lemma onlyColumn_refl (sheet : string) (col : Z) (f : File) :
  Frame.onlyColumn sheet col f f.
Proof.
  repeat split; auto. intros t Ht. exists t. split; auto.
Qed.

Lemma onlyColumn_trans (sheet : string) (col : Z) (f g h : File) :
  Frame.onlyColumn sheet col f g -> Frame.onlyColumn sheet col g h ->
  Frame.onlyColumn sheet col f h.
Proof.
  intros (Hl1 & Ho1 & Hc1 & Hn1) (Hl2 & Ho2 & Hc2 & Hn2).
  split; [congruence|]. split; [|split].
  - intros other Hne. rewrite Ho2, Ho1 by exact Hne. reflexivity.
  - intros t Ht. destruct (Hc1 t Ht) as (t1 & Ht1 & Hk1).
    destruct (Hc2 t1 Ht1) as (t2 & Ht2 & Hk2).
    exists t2. split; [exact Ht2|]. intros c r Hc Hr Hne.
    rewrite Hk2, Hk1 by assumption. reflexivity.
  - intros Hnone. rewrite (Hn1 Hnone) in *. apply Hn2. exact Hnone.
Qed.

Lemma GetSheetList_replaceSheet (f : File) (sheet : string) (t : Table) :
  GetSheetList (replaceSheet f sheet t) = GetSheetList f.
Proof.
  unfold GetSheetList. induction f as [|[name t0] rest IH]; [reflexivity|].
  cbn [replaceSheet]. destruct (String.eqb name sheet); cbn [List.map fst]; congruence.
Qed.

(** A write that succeeds changes one cell of its sheet. *)
Lemma SetCellValue_onlyColumn (w : World) (f f' : File) (sheet : string)
    (col row : Z) (v : string) :
  1 <= col -> 1 <= row ->
  SetCellValue w f sheet (Cell col row) v = Ok f' ->
  Frame.onlyColumn sheet col f f'.
Proof.
  intros Hc Hr. unfold SetCellValue.
  destruct (lookupSheet f sheet) as [t|] eqn:Hl; [|discriminate].
  destruct (setCellValueError w sheet col row); [discriminate|].
  intros [= <-]. split; [apply GetSheetList_replaceSheet|]. split; [|split].
  - intros other Hne. apply lookupSheet_replaceSheet_other. exact Hne.
  - intros t0 Ht0. rewrite Hl in Ht0. injection Ht0 as <-.
    exists (setCell t col row v). split; [apply (lookupSheet_replaceSheet f sheet t _ Hl)|].
    intros c r Hc' Hr' Hne. apply cell_setCell_other; lia.
  - congruence.
Qed.

(** A write through a name of [CoordinatesToCellName]. *)
Lemma named_write_onlyColumn (w : World) (f : File) (sheet : string)
    (col row : Z) (v : string) (name : CellName) (f' : File) :
  CoordinatesToCellName col row = Ok name ->
  SetCellValue w f sheet name v = Ok f' ->
  Frame.onlyColumn sheet col f f'.
Proof.
  intros Hname Hset. apply CoordinatesToCellName_ok in Hname as (-> & Hc & Hr).
  apply (SetCellValue_onlyColumn w f f' sheet col row v); [lia|lia|exact Hset].
Qed.

Variable w : World.

Lemma processRows_onlyColumn (re : Regexp.Regexp) (sheetName : string)
    (urlColIndex statusColIndex : Z) (dataRows : list (list string)) :
  forall (rowIndex : Z) (stats : Stats) (f : File) (tr : list Call),
    Frame.onlyColumn sheetName (statusColIndex + 1) f
      (snd (fst (Processor.processRows w re sheetName urlColIndex statusColIndex
                   dataRows rowIndex stats f tr))).
Proof.
  induction dataRows as [|row rest IH]; intros rowIndex stats f tr.
  - apply onlyColumn_refl.
  - cbn [Processor.processRows]. rewrite processRow_unfold.
    destruct (Spec.rowReference re urlColIndex row) as [[[a c] p]|]; [|apply IH].
    cbv zeta.
    destruct (CoordinatesToCellName _ _) as [name|e] eqn:Hname; [|apply IH].
    destruct (SetCellValue w f sheetName name _) as [f1|e] eqn:Hset; [|apply IH].
    eapply onlyColumn_trans; [|apply IH].
    eapply named_write_onlyColumn; eauto.
Qed.

Lemma processRows_processed (re : Regexp.Regexp) (sheetName : string)
    (urlColIndex statusColIndex : Z) (dataRows : list (list string)) :
  forall (rowIndex : Z) (stats : Stats) (f : File) (tr : list Call),
    processed (fst (fst (Processor.processRows w re sheetName urlColIndex
                           statusColIndex dataRows rowIndex stats f tr))) =
    processed stats + Frame.references re urlColIndex dataRows.
Proof.
  assert (Htally : forall s o, processed (Spec.tally (incProcessed s) o) = processed s + 1).
  { intros s o. unfold Spec.tally. destruct (snd o); [|destruct (Strings.Contains _ _)];
      reflexivity. }
  induction dataRows as [|row rest IH]; intros rowIndex stats f tr.
  - cbn. lia.
  - cbn [Processor.processRows Frame.references]. rewrite processRow_unfold.
    destruct (Spec.rowReference re urlColIndex row) as [[[a c] p]|].
    + cbv zeta.
      destruct (CoordinatesToCellName _ _) as [name|e];
        [destruct (SetCellValue w f sheetName name _) as [f1|e]|];
        rewrite IH; cbn [processed incErrors]; rewrite Htally; lia.
    + rewrite IH. lia.
Qed.

End Frames.

(** X6: whatever the collaborators answer, [processExcelFile] of the processor
    with the column locator leaves the names and the order of the sheets, every
    sheet but the first, and on the first sheet every cell outside the column
    right after the header row, as they were; that column is the only place it
    writes to. *)
Theorem processExcelFile_writes_status_column_only :
  forall (w : World) (f : Excelize.File) (tr : list Call),
    let f' := snd (fst (Processor.processExcelFile w f tr)) in
    match Excelize.GetSheetList f with
    | [] => f' = f
    | sheetName :: _ =>
        match Excelize.GetRows f sheetName with
        | Ok (headers :: _) =>
            Frame.onlyColumn sheetName (Z.of_nat (List.length headers) + 1) f f'
        | _ => f' = f
        end
    end.
Proof.
  intros w f tr f'. unfold f', Processor.processExcelFile.
  destruct (Excelize.GetSheetList f) as [|sheetName others]; [reflexivity|].
  destruct (Excelize.GetRows f sheetName) as [[|headers dataRows]|e]; try reflexivity.
  destruct (_ =? -1); [apply onlyColumn_refl|].
  destruct (Excelize.CoordinatesToCellName _ 1) as [name|e] eqn:Hname;
    [|apply onlyColumn_refl].
  destruct (SetCellValue w f sheetName name "Status") as [f1|e] eqn:Hset;
    [|apply onlyColumn_refl].
  pose proof (processRows_onlyColumn w Regexp.flexiblePattern sheetName
                (Processor.findURLColumn (headers :: dataRows) Regexp.flexiblePattern)
                (Z.of_nat (List.length headers)) dataRows 1 noStats f1 tr) as H.
  destruct (Processor.processRows _ _ _ _ _ _ _ _ _ _) as [[stats1 f2] tr1].
  cbn [fst snd] in *.
  eapply onlyColumn_trans; [|exact H].
  eapply named_write_onlyColumn; eauto.
Qed.

(** X7: when [processExcelFile] returns without error, [processed] is the
    number of data rows whose cell in the reference column, trimmed, is not
    empty and matches the pattern (0 when no reference column is found),
    whatever the store answers for them. *)
Theorem processed_counts_rows_with_reference :
  forall (w : World) (f : Excelize.File) (tr : list Call) (sheetName : string)
         (others : list string) (headers : list string) (dataRows : Excelize.Table),
    Excelize.GetSheetList f = sheetName :: others ->
    Excelize.GetRows f sheetName = Ok (headers :: dataRows) ->
    let outcome := fst (fst (Processor.processExcelFile w f tr)) in
    let urlColIndex := Processor.findURLColumn (headers :: dataRows) Regexp.flexiblePattern in
    snd outcome = None ->
    processed (fst outcome) =
    if urlColIndex =? -1 then 0
    else Frame.references Regexp.flexiblePattern urlColIndex dataRows.
Proof.
  intros w f tr sheetName others headers dataRows Hlist Hget outcome urlColIndex.
  unfold outcome, Processor.processExcelFile. rewrite Hlist, Hget. fold urlColIndex.
  destruct (urlColIndex =? -1); [reflexivity|].
  destruct (Excelize.CoordinatesToCellName _ 1) as [name|e]; [|discriminate].
  destruct (SetCellValue w f sheetName name "Status") as [f1|e]; [|discriminate].
  pose proof (processRows_processed w Regexp.flexiblePattern sheetName urlColIndex
                (Z.of_nat (List.length headers)) dataRows 1 noStats f1 tr) as H.
  destruct (Processor.processRows _ _ _ _ _ _ _ _ _ _) as [[stats1 f2] tr1].
  cbn [fst snd] in *. intros _. rewrite H. reflexivity.
Qed.

(** Three data rows: a reference, a cell of blanks, and a row that is too
    short; the object of the reference has no tier and the row is counted all
    the same. *)
Lemma processed_counts_rows_with_reference_witness :
  let t := [["id"; "url"]; ["1"; Scenario.refA]; ["2"; "   "]; ["3"]] in
  let w := Scenario.withBlockBlobClient (Scenario.calm None t) (fun _ => None) in
  processed (fst (fst (fst (Processor.processExcelFile w (Scenario.book t) [])))) = 1.
Proof.
  intros t w.
  exact (processed_counts_rows_with_reference w (Scenario.book t) [] "Sheet1" []
           ["id"; "url"] [["1"; Scenario.refA]; ["2"; "   "]; ["3"]]
           eq_refl eq_refl eq_refl).
Defined.

(** ** The processor that looks for the [url] header only *)

Section UrlHeaderFrames.
Import Excelize.
Variable w : World.

Lemma urlHeader_processRow_step (urlColIndex statusColIndex rowIndex : Z)
    (row : list string) (stats : Stats) (f : File) (tr : list Call) :
  let run := UrlHeaderProcessor.processRow w urlColIndex statusColIndex rowIndex
               row stats f tr in
  Frame.onlyColumn "Sheet1" (statusColIndex + 1) f (snd (fst run)) /\
  surplus stats <= surplus (fst (fst run)).
Proof.
  unfold UrlHeaderProcessor.processRow.
  destruct (_ <=? urlColIndex); [split; [apply onlyColumn_refl|cbn; lia]|].
  destruct (Regexp.FindStringSubmatch _ _) as [[[a c] p]|];
    [|split; [apply onlyColumn_refl|cbn; lia]].
  destruct (Processor.processBlobTier w a c p tr) as [[status0 err] tr1].
  assert (Hs : forall s2 status,
             (s2, status) =
             match err with
             | Some e => (incErrors (incProcessed stats), ("Error: " ++ e)%string)
             | None =>
                 if String.eqb status0 "Changed: Archive → Cool"
                 then (incChanged (incProcessed stats), status0)
                 else (incSkipped (incProcessed stats), status0)
             end -> surplus s2 = surplus stats).
  { intros s2 status. destruct err; [|destruct (String.eqb status0 _)];
      intros [= -> _]; unfold surplus; cbn; lia. }
  destruct (match err with Some _ => _ | None => _ end) as [stats2 status] eqn:E.
  specialize (Hs stats2 status eq_refl).
  destruct (CoordinatesToCellName _ _) as [name|e] eqn:Hname.
  - destruct (SetCellValue w f "Sheet1" name status) as [f1|e] eqn:Hset; cbn [fst snd].
    + split; [eapply named_write_onlyColumn; eauto|lia].
    + split; [apply onlyColumn_refl|rewrite surplus_incErrors; lia].
  - cbn [fst snd]. split; [apply onlyColumn_refl|rewrite surplus_incErrors; lia].
Qed.

Lemma urlHeader_processRows_step (urlColIndex statusColIndex : Z)
    (dataRows : list (list string)) :
  forall (rowIndex : Z) (stats : Stats) (f : File) (tr : list Call),
    let run := UrlHeaderProcessor.processRows w urlColIndex statusColIndex dataRows
                 rowIndex stats f tr in
    Frame.onlyColumn "Sheet1" (statusColIndex + 1) f (snd (fst run)) /\
    surplus stats <= surplus (fst (fst run)).
Proof.
  induction dataRows as [|row rest IH]; intros rowIndex stats f tr.
  - split; [apply onlyColumn_refl|cbn; lia].
  - cbn [UrlHeaderProcessor.processRows].
    pose proof (urlHeader_processRow_step urlColIndex statusColIndex rowIndex row
                  stats f tr) as H.
    destruct (UrlHeaderProcessor.processRow w urlColIndex statusColIndex rowIndex row
                stats f tr) as [[stats1 f1] tr1].
    cbv zeta in H. cbn [fst snd] in H. destruct H as [Hf Hs].
    destruct (IH (rowIndex + 1) stats1 f1 tr1) as [Hf2 Hs2].
    split; [eapply onlyColumn_trans; eauto|lia].
Qed.

End UrlHeaderFrames.

(** The header search of the url-header program: -1, or the index of the
    leftmost header that is [url] up to letter case and surrounding blanks. *)
Lemma findUrlHeader_leftmost (headers : list string) (start : Z) :
  let found := UrlHeaderProcessor.findUrlHeader headers start in
  (found = -1 /\
   Forall (fun h => Strings.EqualFold (Strings.TrimSpace h) "url" = false) headers) \/
  (exists before header after,
      headers = (before ++ header :: after)%list /\
      found = start + Z.of_nat (List.length before) /\
      Strings.EqualFold (Strings.TrimSpace header) "url" = true /\
      Forall (fun h => Strings.EqualFold (Strings.TrimSpace h) "url" = false) before).
Proof.
  revert start. induction headers as [|h rest IH]; intros start found.
  - left. split; [reflexivity|constructor].
  - unfold found. cbn [UrlHeaderProcessor.findUrlHeader].
    destruct (Strings.EqualFold (Strings.TrimSpace h) "url") eqn:Hh.
    + right. exists [], h, rest. cbn [app List.length]. repeat split; auto. lia.
    + destruct (IH (start + 1)) as [[Hf Hall]|(before & header & after & -> & Hf & Hm & Hb)].
      * left. split; [exact Hf|constructor; assumption].
      * right. exists (h :: before), header, after. cbn [app List.length].
        repeat split; auto. rewrite Hf. lia.
Qed.

(** X8: in the url-header program, whatever the collaborators answer,
    [processExcelFile] writes only to the column right of the reference column
    of [Sheet1] (the reference column being the leftmost [url] header, or the
    first column when there is none): the sheets, every other sheet and every
    cell of another column stay as they were; and its counters end with
    [processed <= changed + skipped + errors]. *)
Theorem urlHeader_processExcelFile_frame :
  forall (w : World) (f : Excelize.File) (tr : list Call),
    let run := UrlHeaderProcessor.processExcelFile w f tr in
    let stats := fst (fst (fst run)) in
    processed stats <= changed stats + skipped stats + errors stats /\
    match Excelize.GetRows f "Sheet1" with
    | Ok (headers :: _) =>
        let found := UrlHeaderProcessor.findUrlHeader headers 0 in
        let urlColIndex := if found =? -1 then 0 else found in
        Frame.onlyColumn "Sheet1" (urlColIndex + 2) f (snd (fst run))
    | _ => snd (fst run) = f
    end.
Proof.
  intros w f tr run stats.
  enough (0 <= surplus stats /\
          match Excelize.GetRows f "Sheet1" with
          | Ok (headers :: _) =>
              let found := UrlHeaderProcessor.findUrlHeader headers 0 in
              let urlColIndex := if found =? -1 then 0 else found in
              Frame.onlyColumn "Sheet1" (urlColIndex + 2) f (snd (fst run))
          | _ => snd (fst run) = f
          end) as [H1 H2] by (split; [unfold surplus in H1; lia|exact H2]).
  unfold stats, run, UrlHeaderProcessor.processExcelFile.
  destruct (Excelize.GetRows f "Sheet1") as [[|headers dataRows]|e];
    try (split; [cbn; lia|reflexivity]).
  cbv zeta.
  set (urlColIndex := if UrlHeaderProcessor.findUrlHeader headers 0 =? -1 then 0
                      else UrlHeaderProcessor.findUrlHeader headers 0).
  replace (urlColIndex + 2) with (urlColIndex + 1 + 1) by lia.
  destruct (Excelize.CoordinatesToCellName (urlColIndex + 1 + 1) 1) as [name|e] eqn:Hname;
    cbn [Excelize.nameOrNoCell].
  2:{ split; [cbn; lia|apply onlyColumn_refl]. }
  destruct (SetCellValue w f "Sheet1" name "Status") as [f1|e] eqn:Hset.
  2:{ split; [cbn; lia|apply onlyColumn_refl]. }
  pose proof (urlHeader_processRows_step w urlColIndex (urlColIndex + 1) dataRows 1
                noStats f1 tr) as H.
  destruct (UrlHeaderProcessor.processRows w urlColIndex (urlColIndex + 1) dataRows 1
              noStats f1 tr) as [[stats1 f2] tr1].
  cbv zeta in H. cbn [fst snd] in *. destruct H as [Hf Hs].
  split; [exact Hs|].
  eapply onlyColumn_trans; [|exact Hf].
  eapply named_write_onlyColumn; eauto.
Qed.

(** ** Facts about the string functions *)

Section StringFacts.
Import Strings.

Lemma stripPrefix_Some (p s r : string) : stripPrefix p s = Some r -> s = (p ++ r)%string.
Proof.
  revert s. induction p as [|a p IH]; intros s; cbn.
  - now intros [= ->].
  - destruct s as [|b s]; [discriminate|].
    destruct (Ascii.eqb_spec a b) as [->|]; [|discriminate].
    intros H. now rewrite (IH s H).
Qed.

Lemma stripPrefix_app (p r : string) : stripPrefix p (p ++ r) = Some r.
Proof.
  induction p as [|a p IH]; cbn; [reflexivity|]. now rewrite Ascii.eqb_refl.
Qed.

(** [TrimSuffix] gives the string itself or the string without the suffix. *)
Lemma TrimSuffix_cases (s suffix : string) :
  TrimSuffix s suffix = s \/ s = (TrimSuffix s suffix ++ suffix)%string.
Proof.
  unfold TrimSuffix.
  destruct (stripPrefix (rev suffix) (rev s)) as [r|] eqn:E; [right|now left].
  apply stripPrefix_Some in E. apply (f_equal rev) in E.
  rewrite rev_involutive, rev_app, rev_involutive in E. exact E.
Qed.

Lemma Contains_HasPrefix (s p : string) : HasPrefix s p = true -> Contains s p = true.
Proof. intros H. destruct s; cbn [Contains]; rewrite H; reflexivity. Qed.

Lemma Contains_app_left (a b p : string) :
  Contains b p = true -> Contains (a ++ b) p = true.
Proof.
  intros H. induction a as [|c a IH]; [exact H|].
  cbn [append Contains]. destruct (HasPrefix _ p); [reflexivity|exact IH].
Qed.

(** A string that ends in [p] contains [p]. *)
Lemma Contains_suffix (a p : string) : Contains (a ++ p) p = true.
Proof.
  apply Contains_app_left, Contains_HasPrefix.
  rewrite <- (append_nil_r p) at 1. apply HasPrefix_app.
Qed.

Lemma Contains_byte (c d : ascii) (r : string) :
  Contains (String c r) (String d "") = Ascii.eqb d c || Contains r (String d "").
Proof.
  cbn [Contains HasPrefix]. rewrite andb_true_r. destruct (Ascii.eqb d c); reflexivity.
Qed.

(** To hold no slash is to split into oneself. *)
Lemma no_slash_Split (s : string) : Contains s "/" = false <-> Split s "/" = [s].
Proof.
  induction s as [|c s IH].
  - split; reflexivity.
  - rewrite Contains_byte. cbn [Split]. rewrite (Ascii.eqb_sym "/" c).
    destruct (Ascii.eqb c "/") eqn:Hc; cbn [orb].
    + split; discriminate.
    + rewrite IH. split.
      * intros ->. reflexivity.
      * destruct (Split s "/") as [|h t] eqn:E; [now apply Split_not_nil in E|].
        now intros [= -> ->].
Qed.

Lemma no_slash_app (a b : string) :
  Contains (a ++ b) "/" = false <-> Contains a "/" = false /\ Contains b "/" = false.
Proof.
  induction a as [|c a IH].
  - cbn [append]. split; [now split|now intros [_ H]].
  - cbn [append]. rewrite !Contains_byte. destruct (Ascii.eqb "/" c); cbn [orb].
    + split; [discriminate|now intros [H _]].
    + exact IH.
Qed.

(** Splitting at a slash splits the list of segments. *)
Lemma Split_app_slash (a b : string) :
  Split (a ++ String "/" b) "/" = (Split a "/" ++ Split b "/")%list.
Proof.
  induction a as [|c a IH]; [reflexivity|].
  cbn [append Split]. rewrite IH.
  destruct (Ascii.eqb c "/"); [reflexivity|].
  destruct (Split a "/") as [|h t] eqn:E; [now apply Split_not_nil in E|reflexivity].
Qed.

(** No segment holds a slash. *)
Lemma Split_segments_no_slash (s : string) :
  Forall (fun segment => Contains segment "/" = false) (Split s "/").
Proof.
  induction s as [|c s IH]; [repeat constructor|].
  cbn [Split]. destruct (Ascii.eqb c "/") eqn:Hc; [constructor; [reflexivity|exact IH]|].
  destruct (Split s "/") as [|h t]; [repeat constructor; rewrite Contains_byte, Ascii.eqb_sym, Hc; reflexivity|].
  inversion IH as [|? ? Hh Ht]; subst. constructor; [|exact Ht].
  rewrite Contains_byte, Ascii.eqb_sym, Hc. exact Hh.
Qed.

Lemma last_Forall (P : string -> Prop) (l : list string) :
  l <> [] -> Forall P l -> P (last l).
Proof.
  unfold last. induction l as [|a [|b l] IH]; intros Hne Hall; [congruence| |].
  - now inversion Hall.
  - inversion Hall; subst. apply IH; [discriminate|assumption].
Qed.

Lemma last_app_right (l m : list string) : m <> [] -> last (l ++ m) = last m.
Proof.
  unfold last. intros Hm. induction l as [|a l IH]; [reflexivity|].
  cbn [app]. destruct (l ++ m)%list eqn:E; [|exact IH].
  apply app_eq_nil in E. tauto.
Qed.

(** The last segment of a path has no slash. *)
Lemma last_segment_no_slash (path : string) :
  Contains (last (Split path "/")) "/" = false.
Proof.
  apply (last_Forall (fun s => Contains s "/" = false));
    [apply Split_not_nil|apply Split_segments_no_slash].
Qed.

(** The last segment of what ends in a slash and a slash-free name is the
    name. *)
Lemma last_segment_after_slash (a name : string) :
  Contains name "/" = false -> last (Split (a ++ "/" ++ name) "/") = name.
Proof.
  intros H. change ("/" ++ name)%string with (String "/" name).
  rewrite Split_app_slash, last_app_right by apply Split_not_nil.
  apply no_slash_Split in H. rewrite H. reflexivity.
Qed.

Lemma TrimSuffix_no_slash (s suffix : string) :
  Contains s "/" = false -> Contains (TrimSuffix s suffix) "/" = false.
Proof.
  intros H. destruct (TrimSuffix_cases s suffix) as [->|E]; [exact H|].
  rewrite E in H. apply no_slash_app in H. tauto.
Qed.

End StringFacts.

(** ** The notification tracker *)

Section Tracker.
Variable w : World.

Lemma notifyEvents_step (event : EventGridEvent) (rest : list EventGridEvent)
    (latest : option Uploader.ProcessedFile) :
  Uploader.notifyEvents w (event :: rest) latest =
  Uploader.notifyEvents w rest
    (if Requests.tracked event then Some (Requests.recordOf w event) else latest).
Proof.
  cbn [Uploader.notifyEvents]. unfold Requests.tracked, Requests.recordOf.
  destruct (String.eqb_spec (EventType event) SubscriptionValidationEvent) as [E|_].
  - rewrite E. reflexivity.
  - destruct (String.eqb (EventType event) BlobCreated); cbn [negb andb]; [|reflexivity].
    destruct (Strings.Contains _ _); reflexivity.
Qed.

Lemma notifyEvents_filter (events : list EventGridEvent)
    (latest : option Uploader.ProcessedFile) :
  Uploader.notifyEvents w events latest =
  match List.rev (List.filter Requests.tracked events) with
  | [] => latest
  | event :: _ => Some (Requests.recordOf w event)
  end.
Proof.
  revert latest. induction events as [|event rest IH]; intros latest; [reflexivity|].
  rewrite notifyEvents_step, IH. cbn [List.filter].
  destruct (Requests.tracked event); cbn [List.rev].
  - destruct (List.rev (List.filter Requests.tracked rest)); reflexivity.
  - reflexivity.
Qed.

(** X9: after a batch of notifications the record of the latest file is that
    of the last object-created event of the batch whose URL contains
    [_processed.xlsx]; it is the record from before the batch when the batch
    has no such event.  The file name recorded is the last slash-separated
    part of the URL. *)
Theorem notifyEvents_last_tracked_wins :
  forall (events : list EventGridEvent) (latest : option Uploader.ProcessedFile),
    Uploader.notifyEvents w events latest =
    match List.rev (List.filter Requests.tracked events) with
    | [] => latest
    | event :: _ => Some (Requests.recordOf w event)
    end.
Proof. exact notifyEvents_filter. Qed.

End Tracker.

(** X10: a notification batch that decodes is always acknowledged with 200,
    whatever its events are, and a latest-file query after it answers with the
    record of the last tracked event of the batch; without a tracked event it
    answers as it would have before the batch. *)
Theorem latest_query_after_notification :
  forall (w : World) (r q : Request) (payload : string) (events : list EventGridEvent)
         (latest : option Uploader.ProcessedFile),
    method r = "POST" ->
    readBody r = Ok payload ->
    validationHandshake w payload = None ->
    unmarshalEvents w payload = Ok events ->
    method q = "GET" ->
    let run := Uploader.handleProcessedNotification w r latest in
    fst run = mkResponse 200 None (Text "✅ Notification processed") /\
    Frontend.handleLatestProcessed q (snd run) =
    match List.rev (List.filter Requests.tracked events) with
    | [] => Frontend.handleLatestProcessed q latest
    | event :: _ => Frontend.Json (Frontend.Available (Requests.recordOf w event))
    end.
Proof.
  intros w r q payload events latest Hm Hb Hv He Hq run.
  unfold run, Uploader.handleProcessedNotification.
  rewrite Hm, Hb, Hv, He, String.eqb_refl. cbn [negb fst snd].
  split; [reflexivity|]. rewrite notifyEvents_filter.
  destruct (List.rev (List.filter Requests.tracked events)); [reflexivity|].
  unfold Frontend.handleLatestProcessed. rewrite Hq, String.eqb_refl. reflexivity.
Qed.

(** Two processed files are announced in one batch, with an event of another
    kind between them: the query names the second. *)
Lemma latest_query_after_notification_witness :
  let first := mkEvent "1" BlobCreated "https://outacct.blob.core.windows.net/processed/a_processed.xlsx" in
  let other := mkEvent "2" "Microsoft.Storage.BlobDeleted" "https://outacct.blob.core.windows.net/processed/c_processed.xlsx" in
  let second := mkEvent "3" BlobCreated "https://outacct.blob.core.windows.net/processed/b_processed.xlsx" in
  let w := Scenario.withJSON (Scenario.calm None [])
             (fun _ => Err "no validation envelope")
             (fun _ => Ok [first; other; second]) in
  Frontend.handleLatestProcessed (Requests.get "/api/latest-processed")
    (snd (Uploader.handleProcessedNotification w (Scenario.post "batch") None)) =
  Frontend.Json
    (Frontend.Available
       (Uploader.mkProcessedFile "b_processed.xlsx"
          "https://outacct.blob.core.windows.net/processed/b_processed.xlsx" 0)).
Proof.
  intros first other second w.
  exact (proj2 (latest_query_after_notification w (Scenario.post "batch")
                  (Requests.get "/api/latest-processed") "batch" [first; other; second]
                  None eq_refl eq_refl eq_refl eq_refl eq_refl)).
Defined.

Lemma notifyEvents_published (w : World) (path account container id : string)
    (latest : option Uploader.ProcessedFile) :
  let name := Processor.newFilename (Strings.last (Strings.Split path "/")) in
  let url := blobClientURL account container name in
  Uploader.notifyEvents w [mkEvent id BlobCreated url] latest =
  Some (Uploader.mkProcessedFile name url (now w)).
Proof.
  intros name url.
  assert (Hmark : Strings.Contains url "_processed.xlsx" = true).
  { unfold url, blobClientURL, name, Processor.newFilename.
    do 5 apply Contains_app_left. apply Contains_suffix. }
  assert (Hname : Strings.Contains name "/" = false).
  { unfold name, Processor.newFilename. apply no_slash_app. split; [|reflexivity].
    apply TrimSuffix_no_slash, last_segment_no_slash. }
  assert (Hlast : Strings.last (Strings.Split url "/") = name).
  { unfold url, blobClientURL.
    rewrite <- !append_assoc. rewrite (append_assoc _ "/" name).
    apply last_segment_after_slash. exact Hname. }
  rewrite notifyEvents_filter. cbn [List.filter].
  unfold Requests.tracked at 1. cbn [EventType DataURL].
  rewrite String.eqb_refl, Hmark. cbn [andb List.rev app].
  unfold Requests.recordOf. cbn [DataURL]. rewrite Hlast. reflexivity.
Qed.

(** X11: every name under which the publisher stores an output is recognised
    by the notification handler: for the object-created event of the blob
    with the published name, in any account and container, the handler records
    that name and that URL. *)
Theorem published_output_is_tracked :
  forall (w : World) (path account container id : string)
         (latest : option Uploader.ProcessedFile),
    let name := Processor.newFilename (Strings.last (Strings.Split path "/")) in
    let url := blobClientURL account container name in
    Uploader.notifyEvents w [mkEvent id BlobCreated url] latest =
    Some (Uploader.mkProcessedFile name url (now w)).
Proof. exact notifyEvents_published. Qed.

(** ** The download proxy *)

(** X12: whatever the collaborators answer, the download proxy sends at most
    one request, and that request is the download of the blob named by the
    path after [/api/download/], from the container
    [OUTPUT_STORAGE_CONTAINER] (or [processed-files] when that is unset) of
    the account [OUTPUT_STORAGE_ACCOUNT] (or [STORAGE_ACCOUNT] when that is
    unset); it is sent only for a GET with a file name and an account. *)
Theorem handleDownload_requests :
  forall (w : World) (r : Request) (tr : list Call),
    let after := snd (Frontend.handleDownload w r tr) in
    after = tr \/
    (exists account container fileName,
        after = (tr ++ [DownloadStream (blobClientURL account container fileName)])%list /\
        method r = "GET" /\
        fileName = Frontend.TrimPrefix (urlPath r) "/api/download/" /\
        fileName <> EmptyString /\
        account <> EmptyString /\
        (account = getenv w "OUTPUT_STORAGE_ACCOUNT" \/
         getenv w "OUTPUT_STORAGE_ACCOUNT" = EmptyString /\
         account = getenv w "STORAGE_ACCOUNT") /\
        (container = getenv w "OUTPUT_STORAGE_CONTAINER" /\ container <> EmptyString \/
         getenv w "OUTPUT_STORAGE_CONTAINER" = EmptyString /\
         container = "processed-files")).
Proof.
  intros w r tr after. unfold after, Frontend.handleDownload.
  destruct (String.eqb_spec (method r) "GET") as [Hm|Hm]; cbn [negb]; [|now left].
  destruct (String.eqb_spec (Frontend.TrimPrefix (urlPath r) "/api/download/") "")
    as [Hf|Hf]; [now left|].
  set (account := if String.eqb (getenv w "OUTPUT_STORAGE_ACCOUNT") "" then _ else _).
  set (container := if String.eqb (getenv w "OUTPUT_STORAGE_CONTAINER") "" then _ else _).
  destruct (String.eqb_spec account "") as [Ha|Ha]; [now left|].
  destruct (newDefaultAzureCredential w); [now left|].
  destruct (newServiceClient w (serviceURL account)); [now left|].
  right. exists account, container, (Frontend.TrimPrefix (urlPath r) "/api/download/").
  split; [destruct (downloadStream w tr _); reflexivity|].
  repeat split; auto.
  - unfold account. destruct (String.eqb_spec (getenv w "OUTPUT_STORAGE_ACCOUNT") "");
      [right; split; auto|left; reflexivity].
  - unfold container. destruct (String.eqb_spec (getenv w "OUTPUT_STORAGE_CONTAINER") "");
      [right; split; auto|left; split; auto].
Qed.

(** X13: the loop from publishing to download closes.  With the output
    account and container configured and the clients built, the download
    proxy asked for the file name that the tracker recorded for a published
    output requests the very URL of that output, and answers with the
    attachment named after it when the store delivers. *)
Theorem tracked_name_downloads_published_blob :
  forall (w : World) (path : string) (tr : list Call),
    getenv w "OUTPUT_STORAGE_ACCOUNT" <> EmptyString ->
    getenv w "OUTPUT_STORAGE_CONTAINER" <> EmptyString ->
    newDefaultAzureCredential w = None ->
    newServiceClient w (serviceURL (getenv w "OUTPUT_STORAGE_ACCOUNT")) = None ->
    let name := Processor.newFilename (Strings.last (Strings.Split path "/")) in
    let url := blobClientURL (getenv w "OUTPUT_STORAGE_ACCOUNT")
                 (getenv w "OUTPUT_STORAGE_CONTAINER") name in
    forall file,
      Uploader.notifyEvents w [mkEvent "id" BlobCreated url] None = Some file ->
      let run := Frontend.handleDownload w
                   (Requests.get ("/api/download/" ++ Uploader.FileName file)) tr in
      snd run = (tr ++ [DownloadStream url])%list /\
      (forall content, downloadStream w tr url = Ok content ->
         fst run =
         Frontend.Attachment
           "application/vnd.openxmlformats-officedocument.spreadsheetml.sheet"
           ("attachment; filename=" ++ Frontend.quote ++ name ++ Frontend.quote)
           content).
Proof.
  intros w path tr Ha Hc Hcred Hclient name url file Hfile run.
  unfold url, name in Hfile. rewrite notifyEvents_published in Hfile.
  fold name in Hfile. fold url in Hfile. injection Hfile as <-.
  cbn [Uploader.FileName] in run.
  unfold run, Frontend.handleDownload, Requests.get. cbn [method urlPath].
  rewrite String.eqb_refl. cbn [negb].
  unfold Frontend.TrimPrefix. rewrite stripPrefix_app.
  assert (Hn : String.eqb name "" = false).
  { apply String.eqb_neq. unfold name, Processor.newFilename.
    destruct (Strings.TrimSuffix _ _); discriminate. }
  rewrite Hn. cbv zeta.
  apply String.eqb_neq in Ha, Hc. rewrite !Ha, !Hc, Hcred, Hclient. fold url.
  split.
  - destruct (downloadStream w tr url); reflexivity.
  - intros content Hd. rewrite Hd. reflexivity.
Qed.

Lemma tracked_name_downloads_published_blob_witness :
  snd (Frontend.handleDownload (Scenario.calm None [])
         (Requests.get "/api/download/a_processed.xlsx") []) =
  [DownloadStream "https://outacct.blob.core.windows.net/processed/a_processed.xlsx"].
Proof.
  refine (proj1 (tracked_name_downloads_published_blob (Scenario.calm None [])
                   "/in/a.xlsx" [] _ _ eq_refl eq_refl
                   (Uploader.mkProcessedFile "a_processed.xlsx"
                      "https://outacct.blob.core.windows.net/processed/a_processed.xlsx" 0)
                   eq_refl)).
  - vm_compute. discriminate.
  - vm_compute. discriminate.
Defined.

(** ** The reference patterns *)

Section Patterns.
Import Strings Regexp.

Lemma span_spec (p : ascii -> bool) (s : string) :
  s = (fst (span p s) ++ snd (span p s))%string /\
  forallb p (list_ascii_of_string (fst (span p s))) = true.
Proof.
  induction s as [|c s [IH1 IH2]]; [split; reflexivity|].
  cbn [span]. destruct (p c) eqn:Hc; [|split; reflexivity].
  destruct (span p s) as [a b]. cbn [fst snd] in *. split.
  - cbn [append]. congruence.
  - cbn [list_ascii_of_string forallb]. now rewrite Hc.
Qed.

(** The longest prefix inside a class is the whole of [a] when the class
    holds every byte of [a] and the rest is empty or starts outside it. *)
Lemma span_app_stop (p : ascii -> bool) (a b : string) :
  forallb p (list_ascii_of_string a) = true ->
  match b with EmptyString => True | String c _ => p c = false end ->
  span p (a ++ b) = (a, b).
Proof.
  intros Ha Hb. induction a as [|c a IH].
  - cbn [append]. destruct b as [|c b]; [reflexivity|]. cbn [span]. now rewrite Hb.
  - cbn [list_ascii_of_string forallb] in Ha. apply andb_true_iff in Ha as [Hc Ha].
    cbn [append span]. rewrite Hc, (IH Ha). reflexivity.
Qed.

Lemma isEmpty_false (s : string) : isEmpty s = false <-> s <> EmptyString.
Proof. destruct s; cbn; split; congruence. Qed.

Lemma matchHere_sound (re : Regexp) (s account container path : string) :
  matchHere re s = Some (account, container, path) ->
  exists after,
    s = ("https://" ++ account ++ ".blob.core.windows.net/" ++ container ++ "/"
           ++ path ++ after)%string /\
    account <> EmptyString /\ container <> EmptyString /\ path <> EmptyString /\
    forallb (accountClass re) (list_ascii_of_string account) = true /\
    forallb (containerClass re) (list_ascii_of_string container) = true /\
    forallb (pathClass re) (list_ascii_of_string path) = true.
Proof.
  unfold matchHere.
  destruct (stripPrefix "https://" s) as [r0|] eqn:E0; [|discriminate].
  pose proof (span_spec (accountClass re) r0) as [Ha1 Ha2].
  destruct (span (accountClass re) r0) as [a r1]. cbn [fst snd] in *.
  destruct (isEmpty a) eqn:Hea; [discriminate|].
  destruct (stripPrefix ".blob.core.windows.net/" r1) as [r2|] eqn:E1; [|discriminate].
  pose proof (span_spec (containerClass re) r2) as [Hc1 Hc2].
  destruct (span (containerClass re) r2) as [c r3]. cbn [fst snd] in *.
  destruct (isEmpty c) eqn:Hec; [discriminate|].
  destruct (stripPrefix "/" r3) as [r4|] eqn:E2; [|discriminate].
  pose proof (span_spec (pathClass re) r4) as [Hp1 Hp2].
  destruct (span (pathClass re) r4) as [p r5]. cbn [fst snd] in *.
  destruct (isEmpty p) eqn:Hep; [discriminate|].
  intros [= <- <- <-]. exists r5.
  apply stripPrefix_Some in E0, E1, E2.
  apply isEmpty_false in Hea, Hec, Hep.
  repeat split; auto. congruence.
Qed.

(** X14: a reference that [FindStringSubmatch] takes from a cell is made of
    three parts that are not empty and lie in the classes of the pattern, and
    the cell holds them in the shape of a blob URL: scheme, account, the
    store's host suffix, container, slash, path. *)
Theorem FindStringSubmatch_sound :
  forall (re : Regexp) (s account container path : string),
    FindStringSubmatch re s = Some (account, container, path) ->
    exists before after,
      s = (before ++ "https://" ++ account ++ ".blob.core.windows.net/" ++ container
             ++ "/" ++ path ++ after)%string /\
      account <> EmptyString /\ container <> EmptyString /\ path <> EmptyString /\
      forallb (accountClass re) (list_ascii_of_string account) = true /\
      forallb (containerClass re) (list_ascii_of_string container) = true /\
      forallb (pathClass re) (list_ascii_of_string path) = true.
Proof.
  intros re s account container path.
  induction s as [|c s IH]; cbn [FindStringSubmatch].
  - destruct (matchHere re "") as [m|] eqn:E; [|discriminate].
    intros [= ->]. destruct (matchHere_sound re _ _ _ _ E) as (after & H).
    exists EmptyString, after. exact H.
  - destruct (matchHere re (String c s)) as [m|] eqn:E.
    + intros [= ->]. destruct (matchHere_sound re _ _ _ _ E) as (after & H).
      exists EmptyString, after. exact H.
    + intros H. destruct (IH H) as (before & after & -> & Hrest).
      exists (String c before), after. split; [reflexivity|exact Hrest].
Qed.

(** A cell with text around the URL: the space ends the path. *)
Lemma FindStringSubmatch_sound_witness :
  exists before after,
    "see https://acct.blob.core.windows.net/cont/a/b.txt now" =
    (before ++ "https://" ++ "acct" ++ ".blob.core.windows.net/" ++ "cont" ++ "/"
       ++ "a/b.txt" ++ after)%string.
Proof.
  destruct (FindStringSubmatch_sound flexiblePattern
              "see https://acct.blob.core.windows.net/cont/a/b.txt now"
              "acct" "cont" "a/b.txt" eq_refl) as (before & after & H & _).
  exists before, after. exact H.
Defined.

(** X15: taking apart a blob URL that was put together from an account, a
    container and a path gives these three back, for a pattern whose account
    class has no dot and whose container class has no slash (as both patterns
    of the program do), when the parts are not empty and lie in the classes of
    the pattern. *)
Theorem FindStringSubmatch_of_blob_url :
  forall (re : Regexp) (account container path : string),
    accountClass re "." = false ->
    containerClass re "/" = false ->
    account <> EmptyString -> container <> EmptyString -> path <> EmptyString ->
    forallb (accountClass re) (list_ascii_of_string account) = true ->
    forallb (containerClass re) (list_ascii_of_string container) = true ->
    forallb (pathClass re) (list_ascii_of_string path) = true ->
    FindStringSubmatch re (blobClientURL account container path) =
    Some (account, container, path).
Proof.
  intros re account container path Hdot Hslash Ha Hc Hp Hia Hic Hip.
  assert (H : matchHere re (blobClientURL account container path) =
              Some (account, container, path)).
  { unfold matchHere, blobClientURL. rewrite stripPrefix_app.
    rewrite (span_app_stop (accountClass re) account _ Hia) by exact Hdot.
    apply isEmpty_false in Ha, Hc, Hp. rewrite Ha, stripPrefix_app.
    rewrite (span_app_stop (containerClass re) container _ Hic) by exact Hslash.
    rewrite Hc, stripPrefix_app.
    rewrite <- (append_nil_r path) at 1.
    rewrite (span_app_stop (pathClass re) path "" Hip I), Hp. reflexivity. }
  destruct (blobClientURL account container path); cbn [FindStringSubmatch];
    rewrite H; reflexivity.
Qed.

Lemma FindStringSubmatch_of_blob_url_witness :
  FindStringSubmatch flexiblePattern
    (blobClientURL "my-account1" "cont" "dir/file-1.docx") =
  Some ("my-account1", "cont", "dir/file-1.docx").
Proof.
  apply (FindStringSubmatch_of_blob_url flexiblePattern "my-account1" "cont"
           "dir/file-1.docx"); try reflexivity; discriminate.
Defined.

(** X16: [extractStorageAccountFromURL] gives back the account of every blob
    URL built on the service URL of an account that is not empty and holds no
    dot. *)
Theorem extractStorageAccountFromURL_of_service_url :
  forall (account rest : string),
    account <> EmptyString ->
    forallb (accountClass loosePattern) (list_ascii_of_string account) = true ->
    StorageAccount.extractStorageAccountFromURL (serviceURL account ++ rest) = Ok account.
Proof.
  intros account rest Ha Hia.
  assert (H : StorageAccount.matchHere (serviceURL account ++ rest) = Some account).
  { unfold StorageAccount.matchHere, serviceURL. rewrite !append_assoc, stripPrefix_app.
    rewrite (span_app_stop (accountClass loosePattern) account _ Hia) by reflexivity.
    apply isEmpty_false in Ha. rewrite Ha, stripPrefix_app. reflexivity. }
  unfold StorageAccount.extractStorageAccountFromURL.
  destruct (serviceURL account ++ rest)%string; cbn [StorageAccount.find];
    rewrite H; reflexivity.
Qed.

Lemma extractStorageAccountFromURL_of_service_url_witness :
  StorageAccount.extractStorageAccountFromURL
    "https://staccauto.blob.core.windows.net/cont1/folder1/testschedule - Copy.docx" =
  Ok "staccauto".
Proof.
  apply (extractStorageAccountFromURL_of_service_url "staccauto"
           "cont1/folder1/testschedule - Copy.docx"); [discriminate|reflexivity].
Defined.

End Patterns.

(** ** The name of an uploaded blob *)

Section BaseName.
Import Strings.

Lemma no_slash_rev (s : string) : Contains s "/" = false -> Contains (rev s) "/" = false.
Proof.
  induction s as [|c s IH]; [reflexivity|].
  rewrite Contains_byte. intros H. apply orb_false_iff in H as [Hc Hs].
  unfold rev. cbn [rev_onto]. rewrite rev_onto_app. apply no_slash_app.
  split; [apply IH, Hs|]. rewrite Contains_byte, Hc. reflexivity.
Qed.

Lemma span_no_slash (r : string) :
  Contains (fst (Regexp.span (fun c => negb (Ascii.eqb c "/")) r)) "/" = false.
Proof.
  induction r as [|c r IH]; [reflexivity|].
  cbn [Regexp.span]. destruct (Ascii.eqb c "/") eqn:Hc; cbn [negb]; [reflexivity|].
  destruct (Regexp.span _ r) as [a b]. cbn [fst] in *.
  rewrite Contains_byte, Ascii.eqb_sym, Hc. exact IH.
Qed.

(** The base name is the lone slash or holds no slash. *)
Lemma Base_no_slash (path : string) :
  Uploader.Base path = "/" \/ Contains (Uploader.Base path) "/" = false.
Proof.
  unfold Uploader.Base. destruct path as [|c path]; [now right|].
  destruct (Uploader.dropSlashes (rev (String c path))); [now left|right].
  apply no_slash_rev, span_no_slash.
Qed.

(** A name with the extension [.xlsx] (in any letter case) does not end in a
    slash, and its base name is not the lone slash. *)
Lemma xlsx_Base_not_root (fileName : string) :
  ToLower (Uploader.Ext fileName) = ".xlsx" -> Uploader.Base fileName <> "/".
Proof.
  intros He. apply ToLower_is_xlsx, String.eqb_eq in He. unfold Uploader.Ext in He.
  rewrite xlsx_extension_reversed in He.
  unfold Uploader.Base. destruct fileName as [|c0 rest0]; [discriminate|].
  destruct (rev (String c0 rest0)) as [|c r] eqn:Er; [discriminate|].
  cbn [map HasPrefix] in He.
  apply andb_true_iff in He as [Hx _].
  cbn [Uploader.dropSlashes].
  destruct (Ascii.eqb_spec c "/") as [->|Hc]; [discriminate|].
  cbn [Regexp.span]. destruct (Ascii.eqb_spec c "/") as [|_]; [congruence|]. cbn [negb].
  destruct (Regexp.span _ r) as [a b]. cbn [fst].
  unfold rev. cbn [rev_onto]. rewrite rev_onto_app.
  destruct (rev a) as [|x y]; cbn [append].
  - intros [= ->]. congruence.
  - intros [= _ Hy]. destruct y; discriminate.
Qed.

End BaseName.

(** X17: when the upload handler sends a blob to the store, the name of the
    blob is the base name of the uploaded file and holds no slash: a file name
    with directories in it cannot place the blob in a virtual folder. *)
Theorem uploaded_blob_name_has_no_slash :
  forall (v : Uploader.Variant) (w : World) (r : Request) (tr : list Call)
         (fileName file : string),
    method r = "POST" ->
    parseMultipartForm r = None ->
    formFile r = Ok (fileName, file) ->
    snd (Uploader.handleUpload v w r tr) <> tr ->
    snd (Uploader.handleUpload v w r tr) =
      (tr ++ [Upload (getenv w "STORAGE_ACCOUNT") (getenv w "STORAGE_CONTAINER")
                (Uploader.Base fileName) None file])%list /\
    Strings.Contains (Uploader.Base fileName) "/" = false.
Proof.
  intros v w r tr fileName file Hm Hp Hf.
  unfold Uploader.handleUpload. rewrite Hm, Hp, Hf, String.eqb_refl. cbn [negb].
  destruct (String.eqb_spec (Strings.ToLower (Uploader.Ext fileName)) ".xlsx") as [He|He];
    cbn [negb]; [|cbn [snd]; congruence].
  destruct (_ || _); [cbn [snd]; congruence|].
  destruct (newDefaultAzureCredential w); [cbn [snd]; congruence|].
  destruct (newServiceClient w _); [cbn [snd]; congruence|].
  intros _. split.
  - destruct (upload w tr _ _ _ None file); reflexivity.
  - destruct (Base_no_slash fileName) as [Hroot|H]; [|exact H].
    now apply xlsx_Base_not_root in He.
Qed.

Lemma uploaded_blob_name_has_no_slash_witness :
  snd (Uploader.handleUpload Uploader.Frontend (Scenario.calm None [])
         (Scenario.postFile "reports/2024/q1.XLSX" "data") []) =
  [Upload "inacct" "in" "q1.XLSX" None "data"].
Proof.
  apply (uploaded_blob_name_has_no_slash Uploader.Frontend (Scenario.calm None [])
           (Scenario.postFile "reports/2024/q1.XLSX" "data") []
           "reports/2024/q1.XLSX" "data" eq_refl eq_refl eq_refl).
  vm_compute. discriminate.
Defined.

(** ** The encoding of the command-line tool *)

Section SpaceEncoding.
Import Strings.

Lemma ReplaceAll_no_space (s : string) :
  Contains (ReplaceAll s " " "%20") " " = false.
Proof.
  induction s as [|c s IH]; [reflexivity|].
  cbn [ReplaceAll]. destruct (Ascii.eqb c " ") eqn:Hc.
  - cbn [append]. rewrite !Contains_byte. exact IH.
  - rewrite Contains_byte, Ascii.eqb_sym, Hc. exact IH.
Qed.

Lemma ReplaceAll_segments (s : string) :
  Split (ReplaceAll s " " "%20") "/" =
  List.map (fun segment => ReplaceAll segment " " "%20") (Split s "/").
Proof.
  induction s as [|c s IH]; [reflexivity|].
  cbn [ReplaceAll Split].
  destruct (Ascii.eqb_spec c " ") as [->|Hsp].
  - cbn [append Split Ascii.eqb Bool.eqb]. rewrite IH.
    destruct (Split s "/") as [|h t] eqn:E; [now apply Split_not_nil in E|].
    cbn [List.map ReplaceAll]. reflexivity.
  - cbn [Split]. destruct (Ascii.eqb c "/") eqn:Hc.
    + cbn [List.map ReplaceAll]. rewrite IH. reflexivity.
    + rewrite IH. destruct (Split s "/") as [|h t] eqn:E; [now apply Split_not_nil in E|].
      cbn [List.map ReplaceAll]. destruct (Ascii.eqb_spec c " "); [congruence|reflexivity].
Qed.

Lemma ReplaceAll_without (s : string) :
  Contains s " " = false -> ReplaceAll s " " "%20" = s.
Proof.
  induction s as [|c s IH]; [reflexivity|].
  rewrite Contains_byte. intros H. apply orb_false_iff in H as [Hc Hs].
  cbn [ReplaceAll]. rewrite Ascii.eqb_sym, Hc, (IH Hs). reflexivity.
Qed.

(** X18: the path that the command-line tool sends holds no space, and it has
    the segments of the path from the cell, each with its spaces replaced:
    the slashes stay where they were. *)
Theorem encodeSpaces_segments :
  forall (blobPath : string),
    Contains (Cli.encodeSpaces blobPath) " " = false /\
    Split (Cli.encodeSpaces blobPath) "/" =
    List.map (fun segment => ReplaceAll segment " " "%20") (Split blobPath "/").
Proof.
  intros blobPath. unfold Cli.encodeSpaces.
  destruct (Contains blobPath " ") eqn:H.
  - split; [apply ReplaceAll_no_space|apply ReplaceAll_segments].
  - split; [exact H|]. rewrite <- ReplaceAll_segments, (ReplaceAll_without _ H).
    reflexivity.
Qed.

End SpaceEncoding.

(** ** One event through the pipeline *)

Section Pipeline.
Variable w : World.

Lemma uploadRequests_sent (tr : list Call) (c : Call) :
  uploadRequests (sent tr c) =
  uploadRequests tr + match c with Upload _ _ _ _ _ => 1 | _ => 0 end.
Proof.
  unfold sent. rewrite uploadRequests_app. destruct c; cbn [uploadRequests]; lia.
Qed.

Lemma processBlobTier_no_upload (account containerName blobPath : string)
    (tr : list Call) :
  uploadRequests (snd (Processor.processBlobTier w account containerName blobPath tr)) =
  uploadRequests tr.
Proof.
  unfold Processor.processBlobTier.
  repeat match goal with
         | |- context [match ?x with _ => _ end] => destruct x
         | |- context [if ?x then _ else _] => destruct x
         end; cbn [snd]; rewrite ?uploadRequests_sent; lia.
Qed.

Lemma processExcelFile_no_upload (f : Excelize.File) (tr : list Call) :
  uploadRequests (snd (Processor.processExcelFile w f tr)) = uploadRequests tr.
Proof.
  assert (Hrows : forall re sheetName urlColIndex statusColIndex dataRows rowIndex stats
                         f0 tr0,
             uploadRequests (snd (Processor.processRows w re sheetName urlColIndex
                                    statusColIndex dataRows rowIndex stats f0 tr0)) =
             uploadRequests tr0).
  { intros re sheetName urlColIndex statusColIndex dataRows.
    induction dataRows as [|row rest IH]; intros rowIndex stats f0 tr0; [reflexivity|].
    cbn [Processor.processRows]. rewrite processRow_unfold.
    destruct (Spec.rowReference re urlColIndex row) as [[[a c] p]|]; [|apply IH].
    cbv zeta. pose proof (processBlobTier_no_upload a c p tr0) as H.
    destruct (Excelize.CoordinatesToCellName _ _);
      [destruct (SetCellValue _ _ _ _ _)|]; rewrite IH; exact H. }
  unfold Processor.processExcelFile.
  destruct (Excelize.GetSheetList f) as [|sheetName others]; [reflexivity|].
  destruct (Excelize.GetRows f sheetName) as [[|headers dataRows]|e]; try reflexivity.
  destruct (_ =? -1); [reflexivity|].
  destruct (Excelize.CoordinatesToCellName _ 1) as [name|e]; [|reflexivity].
  destruct (SetCellValue w f sheetName name "Status") as [f1|e]; [|reflexivity].
  pose proof (Hrows Regexp.flexiblePattern sheetName
                (Processor.findURLColumn (headers :: dataRows) Regexp.flexiblePattern)
                (Z.of_nat (List.length headers)) dataRows 1 noStats f1 tr) as H.
  destruct (Processor.processRows _ _ _ _ _ _ _ _ _ _) as [[stats1 f2] tr1].
  exact H.
Qed.

Lemma uploadToOutputContainer_success
    (storageAccount outputContainer originalBlobURL excelBuffer : string)
    (tr tr' : list Call) :
  Processor.uploadToOutputContainer w storageAccount outputContainer originalBlobURL
    excelBuffer tr = (None, tr') ->
  exists before originalFilename,
    extends tr before /\
    Processor.extractFilenameFromURL w originalBlobURL = Ok originalFilename /\
    tr' = (before ++ [Upload storageAccount outputContainer
                        (Processor.newFilename originalFilename)
                        (Some Processor.spreadsheetContentType) excelBuffer])%list.
Proof.
  unfold Processor.uploadToOutputContainer, Processor.ensureContainer.
  destruct (newServiceClient w _); [discriminate|].
  destruct (getContainerProperties w tr storageAccount outputContainer).
  - destruct (createContainer w _ storageAccount outputContainer); [discriminate|].
    destruct (Processor.extractFilenameFromURL w originalBlobURL) as [name|]; [|discriminate].
    destruct (upload w _ _ _ _ _ _); [discriminate|].
    intros [= <-]. eexists _, name. split; [|split; reflexivity].
    eapply extends_trans; apply extends_sent.
  - destruct (Processor.extractFilenameFromURL w originalBlobURL) as [name|]; [|discriminate].
    destruct (upload w _ _ _ _ _ _); [discriminate|].
    intros [= <-]. eexists _, name. split; [|split; reflexivity].
    apply extends_sent.
Qed.

Lemma uploadToOutputContainer_at_most_one_upload
    (storageAccount outputContainer originalBlobURL excelBuffer : string)
    (tr : list Call) :
  uploadRequests (snd (Processor.uploadToOutputContainer w storageAccount
                         outputContainer originalBlobURL excelBuffer tr)) <=
  uploadRequests tr + 1.
Proof.
  unfold Processor.uploadToOutputContainer, Processor.ensureContainer.
  destruct (newServiceClient w _); [cbn [snd]; lia|].
  destruct (getContainerProperties w tr storageAccount outputContainer);
    [destruct (createContainer w _ storageAccount outputContainer)|];
    try (cbn [snd]; rewrite ?uploadRequests_sent; lia);
    (destruct (Processor.extractFilenameFromURL w originalBlobURL);
     [destruct (upload w _ _ _ _ _ _)|]; cbn [snd]; rewrite ?uploadRequests_sent; lia).
Qed.

End Pipeline.

(** X19: when the output account or the output container is not configured,
    [processExcelBlob] fails, and the only request it may have sent is the
    download of the event's blob: no object is inspected, no tier is changed
    and nothing is uploaded. *)
Theorem missing_configuration_changes_nothing :
  forall (w : World) (blobURL : string) (tr : list Call),
    getenv w "OUTPUT_STORAGE_ACCOUNT" = EmptyString \/
    getenv w "OUTPUT_STORAGE_CONTAINER" = EmptyString ->
    let run := Processor.processExcelBlob w blobURL tr in
    fst run <> None /\
    (snd run = tr \/ snd run = (tr ++ [DownloadStream blobURL])%list).
Proof.
  intros w blobURL tr Henv run. unfold run, Processor.processExcelBlob.
  destruct (newManagedIdentityCredential w); [split; [discriminate|now left]|].
  destruct (newBlockBlobClient w blobURL); [split; [discriminate|now left]|].
  destruct (downloadStream w tr blobURL) as [[data|e]|e];
    try (split; [discriminate|now right]).
  destruct (openReader w data) as [f|e]; [|split; [discriminate|now right]].
  destruct (String.eqb_spec (getenv w "OUTPUT_STORAGE_ACCOUNT") "") as [|Ha];
    [split; [discriminate|now right]|].
  destruct (String.eqb_spec (getenv w "OUTPUT_STORAGE_CONTAINER") "") as [|Hc];
    [split; [discriminate|now right]|].
  tauto.
Qed.

(** A world with an archived reference in the sheet and no environment
    variable set. *)
Lemma missing_configuration_changes_nothing_witness :
  let t := [["url"]; [Scenario.refA]] in
  let w := mkWorld None None None (fun _ => None) (fun _ => None)
             (fun account container blobName =>
                blobClientURL account container (Url.PathEscape blobName))
             (fun _ _ _ _ => Ok (Some "Archive")) (fun _ _ _ => None)
             (fun _ _ => Ok (Ok "xlsx bytes")) (fun _ _ _ => None) (fun _ _ _ => None)
             (fun _ _ _ _ _ _ => None) (fun _ => Ok (Scenario.book t))
             (fun _ => Ok (Scenario.book t)) (fun _ _ _ => None)
             (fun f => Ok (Scenario.render f)) (fun _ => EmptyString)
             (fun _ => Err "no") (fun _ => Err "no") (fun _ => Ok "/in/a.xlsx") 0 in
  fst (Processor.processExcelBlob w Scenario.inputURL []) <> None /\
  (snd (Processor.processExcelBlob w Scenario.inputURL []) = [] \/
   snd (Processor.processExcelBlob w Scenario.inputURL []) =
     [DownloadStream Scenario.inputURL]).
Proof.
  intros t w.
  exact (missing_configuration_changes_nothing w Scenario.inputURL []
           (or_introl eq_refl)).
Defined.

(** X20: when [processExcelBlob] returns without error, the last request it
    sent is the upload, to the configured output account and container, of
    the workbook as [processExcelFile] left it, serialised after the
    annotation, under the name derived from the event's URL and with the
    spreadsheet content type; and whatever it returns, it sent at most one
    upload. *)
Theorem successful_event_ends_with_upload :
  forall (w : World) (blobURL : string) (tr : list Call),
    let run := Processor.processExcelBlob w blobURL tr in
    uploadRequests (snd run) <= uploadRequests tr + 1 /\
    (fst run = None ->
     exists data f excelBuffer originalFilename before,
       downloadStream w tr blobURL = Ok (Ok data) /\
       openReader w data = Ok f /\
       writeBuffer w
         (snd (fst (Processor.processExcelFile w f (sent tr (DownloadStream blobURL)))))
         = Ok excelBuffer /\
       Processor.extractFilenameFromURL w blobURL = Ok originalFilename /\
       extends (sent tr (DownloadStream blobURL)) before /\
       snd run =
         (before ++ [Upload (getenv w "OUTPUT_STORAGE_ACCOUNT")
                       (getenv w "OUTPUT_STORAGE_CONTAINER")
                       (Processor.newFilename originalFilename)
                       (Some Processor.spreadsheetContentType) excelBuffer])%list).
Proof.
  intros w blobURL tr run. unfold run, Processor.processExcelBlob.
  destruct (newManagedIdentityCredential w); [split; [cbn [snd]; lia|discriminate]|].
  destruct (newBlockBlobClient w blobURL); [split; [cbn [snd]; lia|discriminate]|].
  assert (Hd : uploadRequests (sent tr (DownloadStream blobURL)) = uploadRequests tr)
    by (rewrite uploadRequests_sent; lia).
  destruct (downloadStream w tr blobURL) as [[data|e]|e] eqn:Hdl;
    try (split; [cbn [snd]; lia|discriminate]).
  destruct (openReader w data) as [f|e] eqn:Hopen;
    [|split; [cbn [snd]; lia|discriminate]].
  destruct (String.eqb _ _); [split; [cbn [snd]; lia|discriminate]|].
  destruct (String.eqb _ _); [split; [cbn [snd]; lia|discriminate]|].
  pose proof (processExcelFile_no_upload w f (sent tr (DownloadStream blobURL))) as Hu.
  pose proof (processExcelFile_extends w f (sent tr (DownloadStream blobURL))) as Hx.
  destruct (Processor.processExcelFile w f _) as [[[stats err] f1] tr2] eqn:Hpf.
  cbn [fst snd] in *.
  destruct err; [split; [cbn [snd]; lia|discriminate]|].
  destruct (writeBuffer w f1) as [excelBuffer|e] eqn:Hw;
    [|split; [cbn [snd]; lia|discriminate]].
  pose proof (uploadToOutputContainer_at_most_one_upload w
                (getenv w "OUTPUT_STORAGE_ACCOUNT")
                (getenv w "OUTPUT_STORAGE_CONTAINER") blobURL excelBuffer tr2) as Hb.
  destruct (Processor.uploadToOutputContainer w _ _ blobURL excelBuffer tr2)
    as [[e|] tr3] eqn:Hup; cbn [fst snd] in *.
  - split; [lia|discriminate].
  - split; [lia|]. intros _.
    destruct (uploadToOutputContainer_success w _ _ _ _ _ _ Hup)
      as (before & name & Hext & Hname & ->).
    exists data, f, excelBuffer, name, before.
    split; [reflexivity|]. split; [exact Hopen|]. split; [rewrite Hpf; exact Hw|].
    split; [exact Hname|]. split; [|reflexivity].
    eapply extends_trans; eauto.
Qed.

(** The end-to-end scenario: the upload is the last request and carries the
    annotated table. *)
Lemma successful_event_ends_with_upload_witness :
  let t := [["url"]; [Scenario.refA]] in
  let w := Scenario.calm (Some "Archive") t in
  exists before,
    snd (Processor.processExcelBlob w Scenario.inputURL []) =
    (before ++
     [Upload "outacct" "processed" "a_processed.xlsx"
        (Some Processor.spreadsheetContentType)
        "url;Status|https://acct.blob.core.windows.net/cont/a.txt;Changed: Archive → Cool"])%list.
Proof.
  intros t w.
  destruct (proj2 (successful_event_ends_with_upload w Scenario.inputURL []) eq_refl)
    as (data & f & excelBuffer & name & before & Hd & Ho & Hw & Hn & _ & Hrun).
  exists before. rewrite Hrun.
  injection Hd as <-. injection Ho as <-. injection Hn as <-.
  vm_compute in Hw. injection Hw as <-. reflexivity.
Defined.

(** ** The counters of the scanning programs *)

Section ScanCounts.
Variable w : World.

Lemma MatchString_Find (re : Regexp.Regexp) (s : string) :
  Regexp.MatchString re s =
  match Regexp.FindStringSubmatch re s with Some _ => true | None => false end.
Proof. reflexivity. Qed.

Lemma scan_processCell_processed (cell : string) (stats : Stats) (tr : list Call) :
  processed (fst (ScanProcessor.processCell w cell stats tr)) =
  processed stats + (if Regexp.MatchString Regexp.loosePattern cell then 1 else 0).
Proof.
  unfold ScanProcessor.processCell. rewrite MatchString_Find.
  destruct (Regexp.FindStringSubmatch _ _) as [[[a c] p]|]; [|cbn; lia].
  repeat match goal with
         | |- context [match ?x with _ => _ end] => destruct x
         | |- context [if ?x then _ else _] => destruct x
         end; cbn; lia.
Qed.

Lemma cli_processCell_processed (cell : string) (stats : Stats) (tr : list Call) :
  processed (fst (Cli.processCell w cell stats tr)) =
  processed stats + (if Regexp.MatchString Regexp.loosePattern cell then 1 else 0).
Proof.
  unfold Cli.processCell. rewrite MatchString_Find.
  destruct (Regexp.FindStringSubmatch _ _) as [[[a c] p]|]; [|cbn; lia].
  repeat match goal with
         | |- context [match ?x with _ => _ end] => destruct x
         | |- context [if ?x then _ else _] => destruct x
         end; cbn; lia.
Qed.

End ScanCounts.

(** X21: in the program that scans every cell and in the command-line tool,
    [processed] ends as the number of cells of the sheet, header row included,
    in which the pattern matches, whatever the store answers. *)
Theorem scanning_programs_count_matching_cells :
  forall (w : World) (rows : Excelize.Table) (tr : list Call),
    let matching :=
      Z.of_nat (List.length
                  (List.filter (Regexp.MatchString Regexp.loosePattern)
                     (List.concat rows))) in
    processed (fst (ScanProcessor.processAllRows w rows noStats tr)) = matching /\
    processed (fst (Cli.processAllRows w rows noStats tr)) = matching.
Proof.
  intros w rows tr matching.
  assert (Hscan : forall rows stats tr,
             processed (fst (ScanProcessor.processAllRows w rows stats tr)) =
             processed stats +
             Z.of_nat (List.length (List.filter (Regexp.MatchString Regexp.loosePattern)
                                      (List.concat rows)))).
  { assert (Hcells : forall row stats tr,
               processed (fst (ScanProcessor.processCells w row stats tr)) =
               processed stats +
               Z.of_nat (List.length (List.filter (Regexp.MatchString Regexp.loosePattern)
                                        row))).
    { induction row as [|cell rest IH]; intros stats0 tr0; [cbn; lia|].
      cbn [ScanProcessor.processCells List.filter].
      pose proof (scan_processCell_processed w cell stats0 tr0) as H.
      destruct (ScanProcessor.processCell w cell stats0 tr0) as [stats1 tr1].
      cbn [fst] in H. rewrite IH, H.
      destruct (Regexp.MatchString _ cell); cbn [List.length]; lia. }
    induction rows0 as [|row rest IH]; intros stats0 tr0; [cbn; lia|].
    cbn [ScanProcessor.processAllRows List.concat].
    pose proof (Hcells row stats0 tr0) as H.
    destruct (ScanProcessor.processCells w row stats0 tr0) as [stats1 tr1].
    cbn [fst] in H. rewrite IH, H, filter_app, length_app. lia. }
  assert (Hcli : forall rows stats tr,
             processed (fst (Cli.processAllRows w rows stats tr)) =
             processed stats +
             Z.of_nat (List.length (List.filter (Regexp.MatchString Regexp.loosePattern)
                                      (List.concat rows)))).
  { assert (Hcells : forall row stats tr,
               processed (fst (Cli.processCells w row stats tr)) =
               processed stats +
               Z.of_nat (List.length (List.filter (Regexp.MatchString Regexp.loosePattern)
                                        row))).
    { induction row as [|cell rest IH]; intros stats0 tr0; [cbn; lia|].
      cbn [Cli.processCells List.filter].
      pose proof (cli_processCell_processed w cell stats0 tr0) as H.
      destruct (Cli.processCell w cell stats0 tr0) as [stats1 tr1].
      cbn [fst] in H. rewrite IH, H.
      destruct (Regexp.MatchString _ cell); cbn [List.length]; lia. }
    induction rows0 as [|row rest IH]; intros stats0 tr0; [cbn; lia|].
    cbn [Cli.processAllRows List.concat].
    pose proof (Hcells row stats0 tr0) as H.
    destruct (Cli.processCells w row stats0 tr0) as [stats1 tr1].
    cbn [fst] in H. rewrite IH, H, filter_app, length_app. lia. }
  split; [rewrite Hscan|rewrite Hcli]; cbn [processed noStats]; reflexivity.
Qed.

(** ** The encoded path *)

Section EncodedPath.
Import Strings.

Lemma Join_Split (s : string) : Join (Split s "/") "/" = s.
Proof.
  unfold Join. induction s as [|c r IH]; [reflexivity|].
  cbn [Split]. pose proof (Split_not_nil r "/") as Hne.
  destruct (Ascii.eqb_spec c "/") as [->|_].
  - destruct (Split r "/") as [|h t]; [congruence|].
    change (String.concat "/" (EmptyString :: h :: t))
      with (String "/" (String.concat "/" (h :: t))).
    now rewrite IH.
  - destruct (Split r "/") as [|h t]; [congruence|].
    destruct t as [|h' t'].
    + cbn [String.concat] in *. now rewrite IH.
    + change (String.concat "/" (String c h :: h' :: t'))
        with (String c (String.concat "/" (h :: h' :: t'))).
      now rewrite IH.
Qed.

End EncodedPath.

(** X22: the path that the processors send to the store loses nothing: cut at
    its slashes it has as many segments as the path of the cell, each segment
    decodes to the segment of the cell at the same place, and those segments
    joined with slashes are the path of the cell. *)
Theorem encodeBlobPath_decodes_to_path :
  forall (blobPath : string),
    let encoded := Strings.Split (Processor.encodeBlobPath blobPath) "/" in
    let segments := Strings.Split blobPath "/" in
    List.length encoded = List.length segments /\
    List.map Url.PathUnescape encoded = List.map Ok segments /\
    Strings.Join segments "/" = blobPath.
Proof.
  intros blobPath encoded segments. unfold encoded, segments.
  rewrite encodeBlobPath_segments.
  split; [apply List.length_map|].
  split; [|apply Join_Split].
  rewrite List.map_map. apply List.map_ext. intros s. apply PathUnescape_PathEscape.
Qed.
